(** * POS Chanatos: order / payment state machine

    A shallow embedding of the backend services of the restaurant point of
    sale (order.service, payment.service, kitchen.service, waiter.service,
    cash.service, audit.service, order.utils and the permission tables of
    types/index.ts), with the properties of the order lifecycle proved about
    it.

    Modelling conventions.
    - The Prisma database is a record of tables, each table a list of rows
      in insertion order.  [findUnique]/[findFirst] return the first row
      that matches, [update] rewrites the rows that match and throws when
      none does, [updateMany] returns the number of rows it matched.
    - Every service method is a computation in a state-and-exception monad
      over the database: [throw new Error(msg)] is [throw], one constructor
      of [Error] per message of the source.
    - A JavaScript number is an IEEE 754 double ([float], the binary64
      numbers of the kernel): [+], [-], [*], [Math.abs] and the comparisons
      are the operations of the language, rounding, the infinities and NaN
      included, and a decimal literal such as 0.01 is the double nearest to
      it.  A [Decimal] column is read through [Number(...)]: the row holds
      the number that call returns, and a write stores the number it is
      given (the scale of the columns is fixed by the schema, which is not
      among the sources).  An [Int] column is read as the double of that
      integer.
    - A string is the UTF-8 text of the request body.
    - [new Date()] and the identifiers Prisma generates are not computed by
      the services: the current time is an argument [now] of the methods
      that read the clock, identifiers are drawn from a counter of the
      database.
    - The audit sink records the actor, the order and the action kind; the
      free-text details, the IP address and the user agent are dropped. *)

From Stdlib Require Import List Bool Arith ZArith String Ascii Lia Uint63 Floats.
Import ListNotations.

Set Warnings "-inexact-float".
Open Scope float_scope.

Set Implicit Arguments.

(* ===================================================================== *)
(** * Enumerations (schema.prisma / types/index.ts)                       *)
(* ===================================================================== *)

Inductive RoleType : Type := CAJA | MESERO | COCINA.

Inductive OrderStatus : Type :=
  RECIBIDO | PREPARACION | LISTO | ENTREGADO | CANCELADO.

Inductive ChannelType : Type := MESA | VENTANILLA | DOMICILIO.

Inductive PaymentMethod : Type := EFECTIVO | TARJETA | TRANSFERENCIA | OTRO.

Inductive AuditAction : Type :=
  CREATE | UPDATE | DELETE | STATUS_CHANGE | CANCEL | PAYMENT | OTHER.

Inductive Permission : Type :=
| ORDER_CREATE | ORDER_ADD_ITEMS | ORDER_EDIT_ITEMS | ORDER_DELETE_ITEMS
| ORDER_CANCEL | ORDER_REQUEST_BILL | ORDER_MARK_PAID
| STATUS_RECIBIDO_TO_PREPARACION | STATUS_PREPARACION_TO_LISTO
| STATUS_LISTO_TO_ENTREGADO | STATUS_TO_CANCELADO
| CASH_OPEN_SESSION | CASH_CLOSE_SESSION | CASH_VIEW_REPORTS
| VIEW_PRICES | VIEW_FINANCIAL_REPORTS.

Scheme Equality for RoleType.
Scheme Equality for OrderStatus.
Scheme Equality for ChannelType.
Scheme Equality for Permission.

(** [a === b] on enum members. *)
Definition role_eqb := RoleType_beq.
Definition status_eqb := OrderStatus_beq.
Definition channel_eqb := ChannelType_beq.
Definition permission_eqb := Permission_beq.

(** [Array.prototype.includes] on a list of enum members. *)
Definition includes {A : Type} (eqb : A -> A -> bool) (l : list A) (x : A) : bool :=
  existsb (fun y => eqb y x) l.

(** types/index.ts: the permission matrix. *)
Definition ROLE_PERMISSIONS (role : RoleType) : list Permission :=
  match role with
  | CAJA =>
      [ ORDER_CREATE; ORDER_ADD_ITEMS; ORDER_EDIT_ITEMS; ORDER_DELETE_ITEMS;
        ORDER_CANCEL; ORDER_REQUEST_BILL; ORDER_MARK_PAID;
        STATUS_RECIBIDO_TO_PREPARACION; STATUS_PREPARACION_TO_LISTO;
        STATUS_LISTO_TO_ENTREGADO; STATUS_TO_CANCELADO;
        CASH_OPEN_SESSION; CASH_CLOSE_SESSION; CASH_VIEW_REPORTS;
        VIEW_PRICES; VIEW_FINANCIAL_REPORTS ]
  | MESERO =>
      [ ORDER_CREATE; ORDER_ADD_ITEMS; ORDER_REQUEST_BILL;
        STATUS_LISTO_TO_ENTREGADO; VIEW_PRICES ]
  | COCINA =>
      [ STATUS_RECIBIDO_TO_PREPARACION; STATUS_PREPARACION_TO_LISTO ]
  end.

(** types/index.ts: the transition table. *)
Definition VALID_STATUS_TRANSITIONS (from : OrderStatus) : list OrderStatus :=
  match from with
  | RECIBIDO => [PREPARACION; CANCELADO]
  | PREPARACION => [LISTO; CANCELADO]
  | LISTO => [ENTREGADO; CANCELADO]
  | ENTREGADO => []
  | CANCELADO => []
  end.

(* ===================================================================== *)
(** * Rows of the database                                                *)
(* ===================================================================== *)

Definition Id := nat.
Definition Date := Z.

Record Order : Type := mkOrder {
  order_id : Id;
  order_channel : ChannelType;
  order_tableId : option Id;
  order_status : OrderStatus;
  order_requestedBill : bool;
  order_paidAt : option Date;
  order_notes : option string;
  order_createdAt : Date;
  order_userId : Id }.

(** [price], [amount], [initialCash] and [finalCash] are [Decimal]
    columns: the field is the number [Number(row.price)] and the like
    evaluate to.  [quantity] is an [Int] column. *)
Record OrderItem : Type := mkOrderItem {
  item_id : Id;
  item_orderId : Id;
  item_productName : string;
  item_quantity : Z;
  item_price : float;
  item_notes : option string }.

Record Payment : Type := mkPayment {
  payment_id : Id;
  payment_orderId : Id;
  payment_userId : Id;
  payment_cashSessionId : Id;
  payment_amount : float;
  payment_method : PaymentMethod;
  payment_reference : option string;
  payment_notes : option string;
  payment_createdAt : Date }.

Record CashSession : Type := mkCashSession {
  session_id : Id;
  session_userId : Id;
  session_openedAt : Date;
  session_closedAt : option Date;
  session_initialCash : float;
  session_finalCash : option float;
  session_notes : option string }.

Record CancelLog : Type := mkCancelLog {
  cancel_orderId : Id;
  cancel_reason : string;
  cancel_userId : Id }.

Record AuditLog : Type := mkAuditLog {
  audit_userId : Id;
  audit_orderId : option Id;
  audit_action : AuditAction }.

Record Store : Type := mkStore {
  orders : list Order;
  orderItems : list OrderItem;
  payments : list Payment;
  cashSessions : list CashSession;
  cancelLogs : list CancelLog;
  auditLogs : list AuditLog;
  nextId : Id }.

(** Field updates ([data: { ... }] of a Prisma update). *)
Definition set_status (st : OrderStatus) (o : Order) : Order :=
  mkOrder (order_id o) (order_channel o) (order_tableId o) st
          (order_requestedBill o) (order_paidAt o) (order_notes o)
          (order_createdAt o) (order_userId o).

Definition set_requestedBill (b : bool) (o : Order) : Order :=
  mkOrder (order_id o) (order_channel o) (order_tableId o) (order_status o)
          b (order_paidAt o) (order_notes o)
          (order_createdAt o) (order_userId o).

Definition set_paidAt (d : option Date) (o : Order) : Order :=
  mkOrder (order_id o) (order_channel o) (order_tableId o) (order_status o)
          (order_requestedBill o) d (order_notes o)
          (order_createdAt o) (order_userId o).

Definition set_orders (f : list Order -> list Order) (s : Store) : Store :=
  mkStore (f (orders s)) (orderItems s) (payments s) (cashSessions s)
          (cancelLogs s) (auditLogs s) (nextId s).

Definition set_orderItems (f : list OrderItem -> list OrderItem) (s : Store) : Store :=
  mkStore (orders s) (f (orderItems s)) (payments s) (cashSessions s)
          (cancelLogs s) (auditLogs s) (nextId s).

Definition set_payments (f : list Payment -> list Payment) (s : Store) : Store :=
  mkStore (orders s) (orderItems s) (f (payments s)) (cashSessions s)
          (cancelLogs s) (auditLogs s) (nextId s).

Definition set_cashSessions (f : list CashSession -> list CashSession) (s : Store) : Store :=
  mkStore (orders s) (orderItems s) (payments s) (f (cashSessions s))
          (cancelLogs s) (auditLogs s) (nextId s).

Definition set_cancelLogs (f : list CancelLog -> list CancelLog) (s : Store) : Store :=
  mkStore (orders s) (orderItems s) (payments s) (cashSessions s)
          (f (cancelLogs s)) (auditLogs s) (nextId s).

Definition set_auditLogs (f : list AuditLog -> list AuditLog) (s : Store) : Store :=
  mkStore (orders s) (orderItems s) (payments s) (cashSessions s)
          (cancelLogs s) (f (auditLogs s)) (nextId s).

Definition set_nextId (n : Id) (s : Store) : Store :=
  mkStore (orders s) (orderItems s) (payments s) (cashSessions s)
          (cancelLogs s) (auditLogs s) n.

(* ===================================================================== *)
(** * Errors: one constructor per message thrown by the services          *)
(* ===================================================================== *)

Inductive Error : Type :=
(** 'No permission to create payments' / 'create orders' / 'add items' /
    'edit items' / 'delete items' / 'cancel orders' / 'request bill',
    indexed by the permission that was looked up. *)
| NoPermission (p : Permission)
(** 'Only CAJA role can create payments' *)
| OnlyCajaCanCreatePayments
(** 'No active cash session. Please open a cash session first.' *)
| NoActiveCashSession
(** 'Order not found' *)
| OrderNotFound
(** 'Cannot create payment for cancelled order' *)
| CannotPayCancelledOrder
(** 'Order is already paid' *)
| OrderAlreadyPaid
(** 'Payment amount must be greater than 0' *)
| PaymentAmountNotPositive
(** 'Payment amount exceeds order total. Order total: .., Already paid: ..,
    Attempted payment: ..' *)
| PaymentExceedsTotal (orderTotal paidTotal amount : float)
(** 'Table ID is required for MESA channel' *)
| TableIdRequired
(** 'Table already has an active order' *)
| TableHasActiveOrder
(** 'Order must have at least one item' *)
| OrderMustHaveItems
(** 'Cannot modify paid order' *)
| CannotModifyPaidOrder
(** 'Cannot add items to cancelled order' *)
| CannotAddItemsToCancelledOrder
(** 'Item not found in this order' *)
| ItemNotFoundInOrder
(** 'Cannot delete the last item. Cancel the order instead.' *)
| CannotDeleteLastItem
(** 'Cannot change status of paid order' *)
| CannotChangeStatusOfPaidOrder
(** 'Invalid status transition from <from> to <to>' *)
| InvalidStatusTransition (from to : OrderStatus)
(** 'Role <role> cannot change status from <from> to <to>' *)
| RoleCannotChangeStatus (role : RoleType) (from to : OrderStatus)
(** 'Cannot cancel paid order' *)
| CannotCancelPaidOrder
(** 'Order is already cancelled' *)
| OrderAlreadyCancelled
(** 'Cancellation reason is required' *)
| CancellationReasonRequired
(** 'Only COCINA role can access kitchen endpoints' *)
| OnlyCocina
(** 'Cannot start preparation for ...' / 'Cannot mark ready for ...'
    cancelled, delivered or paid order *)
| KitchenOrderCancelled
| KitchenOrderDelivered
| KitchenOrderPaid
(** 'Cannot start preparation. Current status is <current>, expected
    <expected>' and its markReady and deliverOrder twins *)
| UnexpectedCurrentStatus (current expected : OrderStatus)
(** 'Order status changed. Please refresh and try again.' *)
| OrderStatusChanged
(** 'Order status changed. Current status is <current>, expected LISTO' *)
| OrderStatusChangedTo (current : OrderStatus)
(** 'Failed to update order' *)
| FailedToUpdateOrder
(** 'Only MESERO role can access waiter endpoints' *)
| OnlyMesero
(** 'Only CAJA role can view payments' *)
| OnlyCajaCanViewPayments
(** 'COCINA role cannot view payment information' *)
| CocinaCannotViewPayments
(** 'Only CAJA role can open / close / view cash sessions' *)
| OnlyCajaCash
(** 'User already has an active cash session' *)
| UserHasActiveSession
(** 'Initial cash cannot be negative' / 'Final cash cannot be negative' *)
| CashCannotBeNegative
(** 'Cash session not found' *)
| CashSessionNotFound
(** 'Cannot close another user's cash session' *)
| NotSessionOwner
(** 'Cash session is already closed' *)
| CashSessionAlreadyClosed
(** 'No permission to view totals' (OrderController.getTotal, 403) *)
| NoPermissionToViewTotals
(** Prisma's own failure of [update]/[delete] on a missing row (P2025). *)
| RecordNotFound
(** The TypeError of JavaScript on a property read of [null]. *)
| NullDereference.

(* ===================================================================== *)
(** * The state-and-exception monad of a request                          *)
(* ===================================================================== *)

Inductive Result (A : Type) : Type :=
| Ok (a : A)
| Err (e : Error).

Arguments Ok {A} a.
Arguments Err {A} e.

Definition M (A : Type) : Type := Store -> Store * Result A.

Definition ret {A : Type} (a : A) : M A := fun s => (s, Ok a).

Definition throw {A : Type} (e : Error) : M A := fun s => (s, Err e).

Definition bind {A B : Type} (m : M A) (k : A -> M B) : M B :=
  fun s =>
    match m s with
    | (s', Ok a) => k a s'
    | (s', Err e) => (s', Err e)
    end.

Declare Scope req_scope.
Delimit Scope req_scope with req.

Notation "x <- m ;; k" := (bind m (fun x => k))
  (at level 61, m at next level, right associativity) : req_scope.
Notation "m ;; k" := (bind m (fun _ => k))
  (at level 61, right associativity) : req_scope.

Local Open Scope req_scope.

(** Read the database. *)
Definition gets {A : Type} (f : Store -> A) : M A := fun s => (s, Ok (f s)).

(** Write the database. *)
Definition modify (f : Store -> Store) : M unit := fun s => (f s, Ok tt).

(** [if (c) { throw new Error(..) }] *)
Definition throwIf (c : bool) (e : Error) : M unit :=
  if c then throw e else ret tt.

(** A request whose outcome is observed instead of propagated: what the
    caller of the service sees. *)
Definition attempt {A : Type} (m : M A) : M (Result A) :=
  fun s => let (s', r) := m s in (s', Ok r).

(** [prisma.$transaction]: the writes of the body are kept when it
    returns and rolled back when it throws. *)
Definition transaction {A : Type} (m : M A) : M A :=
  fun s =>
    match m s with
    | (s', Ok a) => (s', Ok a)
    | (_, Err e) => (s, Err e)
    end.

(** Identifier generation ([@default(uuid())] of the schema). *)
Definition freshId : M Id :=
  fun s => (set_nextId (S (nextId s)) s, Ok (nextId s)).

(* ===================================================================== *)
(** * Small JavaScript helpers                                            *)
(* ===================================================================== *)

(** The number an [Int] column is read as: the double of the integer
    (exact on the 32 bits of the column). *)
Definition ofInt (z : Z) : float :=
  match z with
  | Zneg p => - of_uint63 (Uint63.of_Z (Zpos p))
  | _ => of_uint63 (Uint63.of_Z z)
  end.

(** Truthiness of a nullable value ([if (order.paidAt)], [!activeSession]). *)
Definition truthy {A : Type} (x : option A) : bool :=
  match x with Some _ => true | None => false end.

(** [x === null] *)
Definition isNull {A : Type} (x : option A) : bool := negb (truthy x).

(** The characters removed by [String.prototype.trim]: the code points of
    WhiteSpace (TAB, VT, FF, U+FEFF and the space separators U+0020,
    U+00A0, U+1680, U+2000 to U+200A, U+202F, U+205F, U+3000) and of
    LineTerminator (LF, CR, U+2028, U+2029), each by the bytes of its UTF-8
    form: one byte below U+0080, two for U+00A0, three for the others. *)
Definition isWhiteSpace1 (b : nat) : bool :=
  Nat.eqb b 32 || (Nat.leb 9 b && Nat.leb b 13).

Definition isWhiteSpace2 (b1 b2 : nat) : bool :=
  Nat.eqb b1 194 && Nat.eqb b2 160.

Definition isWhiteSpace3 (b1 b2 b3 : nat) : bool :=
  (Nat.eqb b1 225 && Nat.eqb b2 154 && Nat.eqb b3 128)
  || (Nat.eqb b1 226 && Nat.eqb b2 128
      && ((Nat.leb 128 b3 && Nat.leb b3 138)
          || Nat.eqb b3 168 || Nat.eqb b3 169 || Nat.eqb b3 175))
  || (Nat.eqb b1 226 && Nat.eqb b2 129 && Nat.eqb b3 159)
  || (Nat.eqb b1 227 && Nat.eqb b2 128 && Nat.eqb b3 128)
  || (Nat.eqb b1 239 && Nat.eqb b2 187 && Nat.eqb b3 191).

(** The bytes left once the white space in front is removed; [forward]
    is false when the bytes are read from the end of the text, last byte
    first. *)
Fixpoint dropWhiteSpace (forward : bool) (l : list nat) : list nat :=
  match l with
  | [] => []
  | b1 :: l1 =>
      if isWhiteSpace1 b1 then dropWhiteSpace forward l1
      else
        match l1 with
        | [] => l
        | b2 :: l2 =>
            if (if forward then isWhiteSpace2 b1 b2 else isWhiteSpace2 b2 b1)
            then dropWhiteSpace forward l2
            else
              match l2 with
              | [] => l
              | b3 :: l3 =>
                  if (if forward then isWhiteSpace3 b1 b2 b3
                      else isWhiteSpace3 b3 b2 b1)
                  then dropWhiteSpace forward l3
                  else l
              end
        end
  end.

Definition trimStart (l : list nat) : list nat := dropWhiteSpace true l.

Definition trimEnd (l : list nat) : list nat := rev (dropWhiteSpace false (rev l)).

Definition trim (s : string) : string :=
  string_of_list_ascii
    (map ascii_of_nat
       (trimEnd (trimStart (map nat_of_ascii (list_ascii_of_string s))))).

(** [orderBy]: a stable insertion sort on the key order [leb]. *)
Fixpoint insertBy {A : Type} (leb : A -> A -> bool) (x : A) (l : list A) : list A :=
  match l with
  | [] => [x]
  | y :: l' => if leb x y then x :: l else y :: insertBy leb x l'
  end.

Definition orderBy {A : Type} (leb : A -> A -> bool) (l : list A) : list A :=
  fold_right (insertBy leb) [] l.

(** [UPDATE ... SET f WHERE p] on one table. *)
Definition updateWhere {A : Type} (p : A -> bool) (f : A -> A) (l : list A) : list A :=
  map (fun x => if p x then f x else x) l.

(** [DELETE ... WHERE p] on one table. *)
Definition deleteWhere {A : Type} (p : A -> bool) (l : list A) : list A :=
  filter (fun x => negb (p x)) l.

(* ===================================================================== *)
(** * Request payloads                                                    *)
(* ===================================================================== *)

Record CreateOrderItem : Type := mkCreateOrderItem {
  new_productName : string;
  new_quantity : Z;
  new_price : float;
  new_notes : option string }.

Record CreateOrderData : Type := mkCreateOrderData {
  data_channel : ChannelType;
  data_tableId : option Id;
  data_notes : option string;
  data_items : list CreateOrderItem }.

(** Every field optional: an absent field leaves the column alone. *)
Record UpdateOrderItemData : Type := mkUpdateOrderItemData {
  patch_productName : option string;
  patch_quantity : option Z;
  patch_price : option float;
  patch_notes : option string }.

Record CreatePaymentData : Type := mkCreatePaymentData {
  pay_orderId : Id;
  pay_method : PaymentMethod;
  pay_amount : float;
  pay_reference : option string;
  pay_notes : option string }.

Record OrderFilters : Type := mkOrderFilters {
  filter_status : option OrderStatus;
  filter_channel : option ChannelType;
  filter_tableId : option Id;
  filter_userId : option Id }.

(* ===================================================================== *)
(** * The Prisma client                                                   *)
(* ===================================================================== *)

Module Prisma.

Definition order_has_id (id : Id) (o : Order) : bool := Nat.eqb (order_id o) id.
Definition item_has_id (id : Id) (i : OrderItem) : bool := Nat.eqb (item_id i) id.
Definition item_of_order (orderId : Id) (i : OrderItem) : bool :=
  Nat.eqb (item_orderId i) orderId.
Definition payment_of_order (orderId : Id) (p : Payment) : bool :=
  Nat.eqb (payment_orderId p) orderId.
Definition session_has_id (id : Id) (c : CashSession) : bool := Nat.eqb (session_id c) id.

(** prisma.order.findUnique({ where: { id } }) *)
Definition order_findUnique (id : Id) : M (option Order) :=
  gets (fun s => find (order_has_id id) (orders s)).

(** prisma.order.findFirst({ where }) *)
Definition order_findFirst (where_ : Order -> bool) : M (option Order) :=
  gets (fun s => find where_ (orders s)).

(** prisma.order.findMany({ where }) *)
Definition order_findMany (where_ : Order -> bool) : M (list Order) :=
  gets (fun s => filter where_ (orders s)).

(** prisma.order.update({ where: { id }, data }): throws when no row has
    the identifier, returns the row as written otherwise. *)
Definition order_update (id : Id) (data : Order -> Order) : M Order :=
  o <- order_findUnique id ;;
  match o with
  | None => throw RecordNotFound
  | Some o =>
      modify (set_orders (updateWhere (order_has_id id) data)) ;;
      ret (data o)
  end.

(** prisma.order.updateMany({ where, data }): returns [count], the number
    of rows that matched [where]. *)
Definition order_updateMany (where_ : Order -> bool) (data : Order -> Order) : M nat :=
  count <- gets (fun s => List.length (filter where_ (orders s))) ;;
  modify (set_orders (updateWhere where_ data)) ;;
  ret count.

(** [include: { items: true }] *)
Definition items_of (orderId : Id) : M (list OrderItem) :=
  gets (fun s => filter (item_of_order orderId) (orderItems s)).

(** prisma.orderItem.createMany({ data }) *)
Fixpoint orderItem_createMany (orderId : Id) (items : list CreateOrderItem) : M nat :=
  match items with
  | [] => ret 0%nat
  | item :: rest =>
      id <- freshId ;;
      modify (set_orderItems (fun l =>
        l ++ [mkOrderItem id orderId (new_productName item) (new_quantity item)
                          (new_price item) (new_notes item)])) ;;
      count <- orderItem_createMany orderId rest ;;
      ret (S count)
  end.

(** Modelled from the spec: prisma/schema.prisma, which holds the column
    defaults, is not among the sources.  A new order has [requestedBill]
    false and [paidAt] null (absent until the order is fully paid); the
    other columns are the [data] of the call,
    prisma.order.create({ data: { status, channel, tableId, notes, userId,
    items: { create } } }). *)
Definition order_create (status : OrderStatus) (channel : ChannelType)
    (tableId : option Id) (notes : option string) (userId : Id)
    (items : list CreateOrderItem) (now : Date) : M Order :=
  id <- freshId ;;
  let o := mkOrder id channel tableId status false None notes now userId in
  modify (set_orders (fun l => l ++ [o])) ;;
  orderItem_createMany id items ;;
  ret o.

(** prisma.orderItem.findFirst({ where: { id, orderId } }) *)
Definition orderItem_findFirst (id orderId : Id) : M (option OrderItem) :=
  gets (fun s => find (fun i => item_has_id id i && item_of_order orderId i)
                      (orderItems s)).

Definition apply_patch (data : UpdateOrderItemData) (i : OrderItem) : OrderItem :=
  mkOrderItem (item_id i) (item_orderId i)
    (match patch_productName data with Some n => n | None => item_productName i end)
    (match patch_quantity data with Some q => q | None => item_quantity i end)
    (match patch_price data with Some p => p | None => item_price i end)
    (match patch_notes data with Some n => Some n | None => item_notes i end).

(** prisma.orderItem.update({ where: { id }, data }) *)
Definition orderItem_update (id : Id) (data : UpdateOrderItemData) : M OrderItem :=
  i <- gets (fun s => find (item_has_id id) (orderItems s)) ;;
  match i with
  | None => throw RecordNotFound
  | Some i =>
      modify (set_orderItems (updateWhere (item_has_id id) (apply_patch data))) ;;
      ret (apply_patch data i)
  end.

(** prisma.orderItem.delete({ where: { id } }) *)
Definition orderItem_delete (id : Id) : M unit :=
  i <- gets (fun s => find (item_has_id id) (orderItems s)) ;;
  match i with
  | None => throw RecordNotFound
  | Some _ => modify (set_orderItems (deleteWhere (item_has_id id)))
  end.

(** prisma.payment.findMany({ where: { orderId } }) *)
Definition payment_findMany (orderId : Id) : M (list Payment) :=
  gets (fun s => filter (payment_of_order orderId) (payments s)).

(** prisma.payment.create({ data }) *)
Definition payment_create (orderId userId cashSessionId : Id) (amount : float)
    (method : PaymentMethod) (reference notes : option string) (now : Date) : M Payment :=
  id <- freshId ;;
  let p := mkPayment id orderId userId cashSessionId amount method reference notes now in
  modify (set_payments (fun l => l ++ [p])) ;;
  ret p.

(** prisma.cashSession.findFirst({ where, orderBy: { openedAt: 'desc' } }) *)
Definition cashSession_findFirst (where_ : CashSession -> bool) : M (option CashSession) :=
  gets (fun s =>
    hd_error (orderBy (fun a b => Z.leb (session_openedAt b) (session_openedAt a))
                      (filter where_ (cashSessions s)))).

(** prisma.cashSession.findUnique({ where: { id } }) *)
Definition cashSession_findUnique (id : Id) : M (option CashSession) :=
  gets (fun s => find (session_has_id id) (cashSessions s)).

(** prisma.cashSession.create({ data: { userId, initialCash, notes } }); the
    session is opened at the time of the call, not closed, without final
    cash. *)
Definition cashSession_create (userId : Id) (initialCash : float)
    (notes : option string) (now : Date) : M CashSession :=
  id <- freshId ;;
  let c := mkCashSession id userId now None initialCash None notes in
  modify (set_cashSessions (fun l => l ++ [c])) ;;
  ret c.

(** prisma.cashSession.update({ where: { id }, data }) *)
Definition cashSession_update (id : Id) (data : CashSession -> CashSession) : M CashSession :=
  c <- cashSession_findUnique id ;;
  match c with
  | None => throw RecordNotFound
  | Some c =>
      modify (set_cashSessions (updateWhere (session_has_id id) data)) ;;
      ret (data c)
  end.

(** prisma.cancelLog.create({ data: { orderId, reason, userId } }) *)
Definition cancelLog_create (orderId : Id) (reason : string) (userId : Id) : M unit :=
  modify (set_cancelLogs (fun l => l ++ [mkCancelLog orderId reason userId])).

(** prisma.auditLog.create({ data }) *)
Definition auditLog_create (userId : Id) (orderId : option Id) (action : AuditAction) : M unit :=
  modify (set_auditLogs (fun l => l ++ [mkAuditLog userId orderId action])).

End Prisma.

(* ===================================================================== *)
(** * utils/order.utils.ts                                                *)
(* ===================================================================== *)

Definition isValidStatusTransition (from to : OrderStatus) : bool :=
  let allowedTransitions := VALID_STATUS_TRANSITIONS from in
  includes status_eqb allowedTransitions to.

Definition canModifyOrder (paidAt : option Date) : bool := isNull paidAt.

Definition canCancelOrder (paidAt : option Date) : bool := isNull paidAt.

(* ===================================================================== *)
(** * services/audit.service.ts                                           *)
(* ===================================================================== *)

Module AuditService.

(** The [try]/[catch] of the source discards a failure of the insert; the
    insert itself is modelled as succeeding. *)
Definition createLog (userId : Id) (orderId : option Id) (action : AuditAction) : M unit :=
  Prisma.auditLog_create userId orderId action.

Definition logStatusChange (userId orderId : Id) (from to : OrderStatus) : M unit :=
  createLog userId (Some orderId) STATUS_CHANGE.

Definition logOrderCreate (userId orderId : Id) (channel : ChannelType) : M unit :=
  createLog userId (Some orderId) CREATE.

Definition logCancel (userId orderId : Id) (reason : string) : M unit :=
  createLog userId (Some orderId) CANCEL.

Definition logPayment (userId orderId : Id) (amount : float) (method : PaymentMethod) : M unit :=
  createLog userId (Some orderId) PAYMENT.

Definition logCashOpen (userId : Id) (initialCash : float) (sessionId : Id) : M unit :=
  createLog userId None OTHER.

Definition logCashClose (userId : Id) (finalCash : float) (sessionId : Id) : M unit :=
  createLog userId None OTHER.

End AuditService.

(* ===================================================================== *)
(** * services/cash.service.ts                                            *)
(* ===================================================================== *)

Module CashService.

Definition getActiveSession (userId : Id) : M (option CashSession) :=
  Prisma.cashSession_findFirst
    (fun c => Nat.eqb (session_userId c) userId && isNull (session_closedAt c)).

Definition getAnyActiveSession : M (option CashSession) :=
  Prisma.cashSession_findFirst (fun c => isNull (session_closedAt c)).

Definition openSession (userId : Id) (initialCash : float) (notes : option string)
    (userRole : RoleType) (now : Date) : M CashSession :=
  throwIf (negb (role_eqb userRole CAJA)) OnlyCajaCash ;;
  activeSession <- getActiveSession userId ;;
  throwIf (truthy activeSession) UserHasActiveSession ;;
  throwIf (initialCash <? 0) CashCannotBeNegative ;;
  session <- Prisma.cashSession_create userId initialCash notes now ;;
  AuditService.logCashOpen userId initialCash (session_id session) ;;
  ret session.

Definition close_data (now : Date) (finalCash : float) (notes : option string)
    (c : CashSession) : CashSession :=
  mkCashSession (session_id c) (session_userId c) (session_openedAt c)
    (Some now) (session_initialCash c) (Some finalCash)
    (match notes with Some n => Some n | None => session_notes c end).

Definition closeSession (userId sessionId : Id) (finalCash : float)
    (notes : option string) (userRole : RoleType) (now : Date) : M CashSession :=
  throwIf (negb (role_eqb userRole CAJA)) OnlyCajaCash ;;
  session <- Prisma.cashSession_findUnique sessionId ;;
  match session with
  | None => throw CashSessionNotFound
  | Some session =>
      throwIf (negb (Nat.eqb (session_userId session) userId)) NotSessionOwner ;;
      throwIf (truthy (session_closedAt session)) CashSessionAlreadyClosed ;;
      throwIf (finalCash <? 0) CashCannotBeNegative ;;
      closedSession <- Prisma.cashSession_update sessionId (close_data now finalCash notes) ;;
      AuditService.logCashClose userId finalCash sessionId ;;
      ret closedSession
  end.

End CashService.

(* ===================================================================== *)
(** * What the order endpoints return                                     *)
(* ===================================================================== *)

(** An order item as serialised to the caller: [price] is a number, or
    [null] once it has been hidden. *)
Record OrderItemView : Type := mkOrderItemView {
  view_item_id : Id;
  view_productName : string;
  view_quantity : Z;
  view_price : option float;
  view_item_notes : option string }.

(** An order with [include: { items: true }].  The joined table, user,
    payments and cancel log of the source are not part of the model. *)
Record OrderView : Type := mkOrderView {
  view_order : Order;
  view_items : list OrderItemView }.

(** The item as it is stored. *)
Definition showItem (item : OrderItem) : OrderItemView :=
  mkOrderItemView (item_id item) (item_productName item) (item_quantity item)
                  (Some (item_price item)) (item_notes item).

(** [{ ...item, price: null }] *)
Definition hidePrice (item : OrderItemView) : OrderItemView :=
  mkOrderItemView (view_item_id item) (view_productName item)
                  (view_quantity item) None (view_item_notes item).

(** [items.reduce((sum, item) => sum + Number(item.price) * item.quantity, 0)] *)
Definition sumItems (items : list OrderItem) : float :=
  fold_left (fun sum item => sum + item_price item * ofInt (item_quantity item))
            items 0.

(** [payments.reduce((sum, payment) => sum + Number(payment.amount), 0)] *)
Definition sumPayments (ps : list Payment) : float :=
  fold_left (fun sum payment => sum + payment_amount payment) ps 0.

Record OrderTotal : Type := mkOrderTotal {
  total_subtotal : float;
  total_total : float;
  total_itemsCount : nat }.

(* ===================================================================== *)
(** * services/order.service.ts                                           *)
(* ===================================================================== *)

Module OrderService.

Definition hasPermission (role : RoleType) (permission : Permission) : bool :=
  let rolePermissions := ROLE_PERMISSIONS role in
  includes permission_eqb rolePermissions permission.

Definition canChangeStatus (role : RoleType) (from to : OrderStatus) : bool :=
  if role_eqb role CAJA then isValidStatusTransition from to
  else if role_eqb role MESERO then
    status_eqb from LISTO && status_eqb to ENTREGADO
  else if role_eqb role COCINA then
    (status_eqb from RECIBIDO && status_eqb to PREPARACION)
    || (status_eqb from PREPARACION && status_eqb to LISTO)
  else false.

(** The row returned by a write with [include: { items: true }]. *)
Definition withItems (order : Order) : M OrderView :=
  items <- Prisma.items_of (order_id order) ;;
  ret (mkOrderView order (map showItem items)).

(** The table already holds an order that is neither delivered nor
    cancelled and is not paid. *)
Definition activeOn (tableId : Id) (o : Order) : bool :=
  match order_tableId o with
  | Some t => Nat.eqb t tableId
  | None => false
  end
  && negb (includes status_eqb [ENTREGADO; CANCELADO] (order_status o))
  && isNull (order_paidAt o).

Definition createOrder (userId : Id) (data : CreateOrderData)
    (userRole : RoleType) (now : Date) : M OrderView :=
  throwIf (negb (hasPermission userRole ORDER_CREATE)) (NoPermission ORDER_CREATE) ;;
  throwIf (channel_eqb (data_channel data) MESA && negb (truthy (data_tableId data)))
          TableIdRequired ;;
  match data_tableId data with
  | Some tableId =>
      if channel_eqb (data_channel data) MESA then
        activeOrder <- Prisma.order_findFirst (activeOn tableId) ;;
        throwIf (truthy activeOrder) TableHasActiveOrder
      else ret tt
  | None => ret tt
  end ;;
  throwIf (Nat.eqb (List.length (data_items data)) 0) OrderMustHaveItems ;;
  order <- Prisma.order_create RECIBIDO (data_channel data) (data_tableId data)
             (data_notes data) userId (data_items data) now ;;
  AuditService.logOrderCreate userId (order_id order) (data_channel data) ;;
  withItems order.

Definition getOrderById (orderId : Id) (userRole : RoleType) : M OrderView :=
  order <- Prisma.order_findUnique orderId ;;
  match order with
  | None => throw OrderNotFound
  | Some order =>
      items <- Prisma.items_of orderId ;;
      if role_eqb userRole COCINA then
        ret (mkOrderView order (map (fun item => hidePrice (showItem item)) items))
      else
        ret (mkOrderView order (map showItem items))
  end.

Definition where_filters (filters : OrderFilters) (o : Order) : bool :=
  match filter_status filters with
  | Some st => status_eqb (order_status o) st
  | None => true
  end
  && match filter_channel filters with
     | Some ch => channel_eqb (order_channel o) ch
     | None => true
     end
  && match filter_tableId filters with
     | Some t => match order_tableId o with Some t' => Nat.eqb t' t | None => false end
     | None => true
     end
  && match filter_userId filters with
     | Some u => Nat.eqb (order_userId o) u
     | None => true
     end.

(** [orderBy: { createdAt: 'desc' }] *)
Definition createdAt_desc (a b : Order) : bool :=
  Z.leb (order_createdAt b) (order_createdAt a).

(** [orderBy: { createdAt: 'asc' }] *)
Definition createdAt_asc (a b : Order) : bool :=
  Z.leb (order_createdAt a) (order_createdAt b).

(** The items joined to one order of a [findMany]. *)
Definition joinItems (s : Store) (o : Order) : Order * list OrderItem :=
  (o, filter (Prisma.item_of_order (order_id o)) (orderItems s)).

Definition listOrders (filters : OrderFilters) (userRole : RoleType) : M (list OrderView) :=
  orders <- gets (fun s =>
    map (joinItems s) (orderBy createdAt_desc (filter (where_filters filters) (orders s)))) ;;
  if role_eqb userRole COCINA then
    ret (map (fun order =>
           mkOrderView (fst order)
             (map (fun item => hidePrice (showItem item)) (snd order))) orders)
  else
    ret (map (fun order => mkOrderView (fst order) (map showItem (snd order))) orders).

Definition addItems (orderId userId : Id) (items : list CreateOrderItem)
    (userRole : RoleType) : M OrderView :=
  throwIf (negb (hasPermission userRole ORDER_ADD_ITEMS)) (NoPermission ORDER_ADD_ITEMS) ;;
  order <- Prisma.order_findUnique orderId ;;
  match order with
  | None => throw OrderNotFound
  | Some order =>
      throwIf (negb (canModifyOrder (order_paidAt order))) CannotModifyPaidOrder ;;
      throwIf (status_eqb (order_status order) CANCELADO) CannotAddItemsToCancelledOrder ;;
      Prisma.orderItem_createMany orderId items ;;
      AuditService.createLog userId (Some orderId) UPDATE ;;
      getOrderById orderId userRole
  end.

Definition editItem (orderId itemId userId : Id) (data : UpdateOrderItemData)
    (userRole : RoleType) : M OrderItem :=
  throwIf (negb (hasPermission userRole ORDER_EDIT_ITEMS)) (NoPermission ORDER_EDIT_ITEMS) ;;
  order <- Prisma.order_findUnique orderId ;;
  match order with
  | None => throw OrderNotFound
  | Some order =>
      throwIf (negb (canModifyOrder (order_paidAt order))) CannotModifyPaidOrder ;;
      item <- Prisma.orderItem_findFirst itemId orderId ;;
      match item with
      | None => throw ItemNotFoundInOrder
      | Some item =>
          updatedItem <- Prisma.orderItem_update itemId data ;;
          AuditService.createLog userId (Some orderId) UPDATE ;;
          ret updatedItem
      end
  end.

Definition deleteItem (orderId itemId userId : Id) (userRole : RoleType) : M unit :=
  throwIf (negb (hasPermission userRole ORDER_DELETE_ITEMS)) (NoPermission ORDER_DELETE_ITEMS) ;;
  order <- Prisma.order_findUnique orderId ;;
  match order with
  | None => throw OrderNotFound
  | Some order =>
      items <- Prisma.items_of orderId ;;
      throwIf (negb (canModifyOrder (order_paidAt order))) CannotModifyPaidOrder ;;
      match find (Prisma.item_has_id itemId) items with
      | None => throw ItemNotFoundInOrder
      | Some item =>
          throwIf (Nat.eqb (List.length items) 1) CannotDeleteLastItem ;;
          Prisma.orderItem_delete itemId ;;
          AuditService.createLog userId (Some orderId) DELETE
      end
  end.

(** [changeStatus] from its first [await] on: [order] is the row that
    [findUnique] returned, the database is the one current when the
    request resumes. *)
Definition changeStatus_afterRead (order : option Order) (orderId userId : Id)
    (newStatus : OrderStatus) (userRole : RoleType) : M OrderView :=
  match order with
  | None => throw OrderNotFound
  | Some order =>
      throwIf (truthy (order_paidAt order) && negb (status_eqb newStatus ENTREGADO))
              CannotChangeStatusOfPaidOrder ;;
      throwIf (negb (isValidStatusTransition (order_status order) newStatus))
              (InvalidStatusTransition (order_status order) newStatus) ;;
      throwIf (negb (canChangeStatus userRole (order_status order) newStatus))
              (RoleCannotChangeStatus userRole (order_status order) newStatus) ;;
      updatedOrder <- Prisma.order_update orderId (set_status newStatus) ;;
      AuditService.logStatusChange userId orderId (order_status order) newStatus ;;
      withItems updatedOrder
  end.

Definition changeStatus (orderId userId : Id) (newStatus : OrderStatus)
    (userRole : RoleType) : M OrderView :=
  order <- Prisma.order_findUnique orderId ;;
  changeStatus_afterRead order orderId userId newStatus userRole.

(** [!data.reason || data.reason.trim().length === 0] *)
Definition reasonMissing (reason : string) : bool :=
  Nat.eqb (String.length reason) 0 || Nat.eqb (String.length (trim reason)) 0.

Definition cancelOrder (orderId userId : Id) (reason : string)
    (userRole : RoleType) : M Order :=
  throwIf (negb (hasPermission userRole ORDER_CANCEL)) (NoPermission ORDER_CANCEL) ;;
  order <- Prisma.order_findUnique orderId ;;
  match order with
  | None => throw OrderNotFound
  | Some order =>
      throwIf (negb (canCancelOrder (order_paidAt order))) CannotCancelPaidOrder ;;
      throwIf (status_eqb (order_status order) CANCELADO) OrderAlreadyCancelled ;;
      throwIf (reasonMissing reason) CancellationReasonRequired ;;
      updatedOrder <- transaction (
        updated <- Prisma.order_update orderId (set_status CANCELADO) ;;
        Prisma.cancelLog_create orderId reason userId ;;
        ret updated) ;;
      AuditService.logCancel userId orderId reason ;;
      ret updatedOrder
  end.

Definition requestBill (orderId userId : Id) (userRole : RoleType) : M OrderView :=
  throwIf (negb (hasPermission userRole ORDER_REQUEST_BILL))
          (NoPermission ORDER_REQUEST_BILL) ;;
  order <- Prisma.order_findUnique orderId ;;
  match order with
  | None => throw OrderNotFound
  | Some order =>
      throwIf (truthy (order_paidAt order)) OrderAlreadyPaid ;;
      updatedOrder <- Prisma.order_update orderId (set_requestedBill true) ;;
      AuditService.createLog userId (Some orderId) UPDATE ;;
      withItems updatedOrder
  end.

Definition calculateTotal (orderId : Id) : M OrderTotal :=
  order <- Prisma.order_findUnique orderId ;;
  match order with
  | None => throw OrderNotFound
  | Some order =>
      items <- Prisma.items_of orderId ;;
      let total := sumItems items in
      ret (mkOrderTotal total total (List.length items))
  end.

End OrderService.

(** controllers/order.controller.ts, GET /orders/:id/total: the role test
    in front of [OrderService.calculateTotal]. *)
Module OrderController.

Definition getTotal (orderId : Id) (userRole : RoleType) : M OrderTotal :=
  if role_eqb userRole COCINA then throw NoPermissionToViewTotals
  else OrderService.calculateTotal orderId.

End OrderController.

(* ===================================================================== *)
(** * services/payment.service.ts                                         *)
(* ===================================================================== *)

Record PaymentResult : Type := mkPaymentResult {
  result_payment : Payment;
  result_order : option Order;
  result_total : float;
  result_paid : float;
  result_remaining : float;
  result_isPaid : bool }.

Record PaymentSummary : Type := mkPaymentSummary {
  summary_payments : list Payment;
  summary_orderTotal : float;
  summary_paidTotal : float;
  summary_remaining : float;
  summary_isPaid : bool;
  summary_paidAt : option Date }.

Module PaymentService.

Definition hasPermission (role : RoleType) (permission : Permission) : bool :=
  let rolePermissions := ROLE_PERMISSIONS role in
  includes permission_eqb rolePermissions permission.

Definition calculateOrderTotal (orderId : Id) : M float :=
  order <- Prisma.order_findUnique orderId ;;
  match order with
  | None => throw OrderNotFound
  | Some order =>
      items <- Prisma.items_of orderId ;;
      ret (sumItems items)
  end.

Definition calculatePaidTotal (orderId : Id) : M float :=
  payments <- Prisma.payment_findMany orderId ;;
  ret (sumPayments payments).

(** [const tolerance = 0.01] *)
Definition tolerance : float := 0.01.

Definition createPayment (userId : Id) (data : CreatePaymentData)
    (userRole : RoleType) (now : Date) : M PaymentResult :=
  throwIf (negb (hasPermission userRole ORDER_MARK_PAID)) (NoPermission ORDER_MARK_PAID) ;;
  throwIf (negb (role_eqb userRole CAJA)) OnlyCajaCanCreatePayments ;;
  activeSession <- CashService.getAnyActiveSession ;;
  match activeSession with
  | None => throw NoActiveCashSession
  | Some activeSession =>
      order <- Prisma.order_findUnique (pay_orderId data) ;;
      match order with
      | None => throw OrderNotFound
      | Some order =>
          throwIf (status_eqb (order_status order) CANCELADO) CannotPayCancelledOrder ;;
          throwIf (truthy (order_paidAt order)) OrderAlreadyPaid ;;
          throwIf (pay_amount data <=? 0) PaymentAmountNotPositive ;;
          orderTotal <- calculateOrderTotal (pay_orderId data) ;;
          paidTotal <- calculatePaidTotal (pay_orderId data) ;;
          let newTotal := paidTotal + pay_amount data in
          throwIf (orderTotal <? newTotal)
                  (PaymentExceedsTotal orderTotal paidTotal (pay_amount data)) ;;
          payment <- Prisma.payment_create (pay_orderId data) userId
                       (session_id activeSession) (pay_amount data) (pay_method data)
                       (pay_reference data) (pay_notes data) now ;;
          AuditService.logPayment userId (pay_orderId data) (pay_amount data)
                                  (pay_method data) ;;
          let updatedPaidTotal := paidTotal + pay_amount data in
          let difference := abs (updatedPaidTotal - orderTotal) in
          (if difference <? tolerance then
             Prisma.order_update (pay_orderId data) (set_paidAt (Some now)) ;;
             AuditService.createLog userId (Some (pay_orderId data)) PAYMENT
           else ret tt) ;;
          updatedOrder <- Prisma.order_findUnique (pay_orderId data) ;;
          ret (mkPaymentResult payment updatedOrder orderTotal updatedPaidTotal
                 (orderTotal - updatedPaidTotal)
                 (orderTotal <=? updatedPaidTotal))
      end
  end.

Definition getOrderPayments (orderId : Id) (userRole : RoleType) : M PaymentSummary :=
  order <- Prisma.order_findUnique orderId ;;
  match order with
  | None => throw OrderNotFound
  | Some order =>
      throwIf (negb (role_eqb userRole CAJA)) OnlyCajaCanViewPayments ;;
      payments <- Prisma.payment_findMany orderId ;;
      orderTotal <- calculateOrderTotal orderId ;;
      paidTotal <- calculatePaidTotal orderId ;;
      ret (mkPaymentSummary payments orderTotal paidTotal (orderTotal - paidTotal)
             (negb (isNull (order_paidAt order))) (order_paidAt order))
  end.

Definition getPaymentSummary (orderId : Id) (userRole : RoleType) : M PaymentSummary :=
  order <- Prisma.order_findUnique orderId ;;
  match order with
  | None => throw OrderNotFound
  | Some order =>
      throwIf (role_eqb userRole COCINA) CocinaCannotViewPayments ;;
      orderTotal <- calculateOrderTotal orderId ;;
      paidTotal <- calculatePaidTotal orderId ;;
      payments <- Prisma.payment_findMany orderId ;;
      ret (mkPaymentSummary payments orderTotal paidTotal (orderTotal - paidTotal)
             (negb (isNull (order_paidAt order))) (order_paidAt order))
  end.

End PaymentService.

(* ===================================================================== *)
(** * services/kitchen.service.ts                                         *)
(* ===================================================================== *)

(** The kitchen projection of an item: there is no price field. *)
Record KitchenItem : Type := mkKitchenItem {
  kitchen_item_id : Id;
  kitchen_productName : string;
  kitchen_quantity : Z;
  kitchen_item_notes : option string }.

Record KitchenOrderResponse : Type := mkKitchenOrderResponse {
  kitchen_id : Id;
  kitchen_channel : ChannelType;
  kitchen_table : option Id;
  kitchen_status : OrderStatus;
  kitchen_createdAt : Date;
  kitchen_notes : option string;
  kitchen_items : list KitchenItem }.

Module KitchenService.

Definition validateKitchenRole (userRole : RoleType) : M unit :=
  throwIf (negb (role_eqb userRole COCINA)) OnlyCocina.

(** [select: { id, productName, quantity, notes }] followed by the [map]
    of the source. *)
Definition toKitchenItem (item : OrderItem) : KitchenItem :=
  mkKitchenItem (item_id item) (item_productName item) (item_quantity item)
                (item_notes item).

Definition toKitchenOrder (order : Order * list OrderItem) : KitchenOrderResponse :=
  mkKitchenOrderResponse (order_id (fst order)) (order_channel (fst order))
    (order_tableId (fst order)) (order_status (fst order))
    (order_createdAt (fst order)) (order_notes (fst order))
    (map toKitchenItem (snd order)).

Definition inQueue (o : Order) : bool :=
  includes status_eqb [RECIBIDO; PREPARACION] (order_status o)
  && isNull (order_paidAt o).

Definition getKitchenQueue (userRole : RoleType) : M (list KitchenOrderResponse) :=
  validateKitchenRole userRole ;;
  orders <- gets (fun s =>
    map (OrderService.joinItems s)
        (orderBy OrderService.createdAt_asc (filter inQueue (orders s)))) ;;
  ret (map toKitchenOrder orders).

(** [findUnique] with the items joined. *)
Definition findWithItems (orderId : Id) : M (option (Order * list OrderItem)) :=
  gets (fun s =>
    option_map (OrderService.joinItems s)
               (find (Prisma.order_has_id orderId) (orders s))).

Definition getOrderById (orderId : Id) (userRole : RoleType) : M KitchenOrderResponse :=
  validateKitchenRole userRole ;;
  order <- findWithItems orderId ;;
  match order with
  | None => throw OrderNotFound
  | Some order => ret (toKitchenOrder order)
  end.

(** The body of the transaction of [startPreparation] / [markReady] from
    its first [await] on; [from] is RECIBIDO and [to] PREPARACION for
    [startPreparation], PREPARACION and LISTO for [markReady]. *)
Definition advance_afterRead (from to : OrderStatus) (order : option Order)
    (orderId : Id) : M (option (Order * list OrderItem)) :=
  match order with
  | None => throw OrderNotFound
  | Some order =>
      throwIf (status_eqb (order_status order) CANCELADO) KitchenOrderCancelled ;;
      throwIf (status_eqb (order_status order) ENTREGADO) KitchenOrderDelivered ;;
      throwIf (truthy (order_paidAt order)) KitchenOrderPaid ;;
      throwIf (negb (status_eqb (order_status order) from))
              (UnexpectedCurrentStatus (order_status order) from) ;;
      throwIf (negb (isValidStatusTransition from to)) (InvalidStatusTransition from to) ;;
      count <- Prisma.order_updateMany
                 (fun o => Prisma.order_has_id orderId o && status_eqb (order_status o) from)
                 (set_status to) ;;
      throwIf (Nat.eqb count 0) OrderStatusChanged ;;
      findWithItems orderId
  end.

Definition advance (from to : OrderStatus) (orderId userId : Id)
    (userRole : RoleType) : M KitchenOrderResponse :=
  validateKitchenRole userRole ;;
  order <- transaction (
    order <- Prisma.order_findUnique orderId ;;
    advance_afterRead from to order orderId) ;;
  match order with
  | None => throw FailedToUpdateOrder
  | Some order =>
      AuditService.logStatusChange userId orderId from to ;;
      ret (toKitchenOrder order)
  end.

Definition startPreparation (orderId userId : Id) (userRole : RoleType)
  : M KitchenOrderResponse :=
  advance RECIBIDO PREPARACION orderId userId userRole.

Definition markReady (orderId userId : Id) (userRole : RoleType)
  : M KitchenOrderResponse :=
  advance PREPARACION LISTO orderId userId userRole.

End KitchenService.

(* ===================================================================== *)
(** * services/waiter.service.ts                                          *)
(* ===================================================================== *)

(** The waiter projection of an item: [price: Number(item.price)]. *)
Record WaiterItem : Type := mkWaiterItem {
  waiter_item_id : Id;
  waiter_productName : string;
  waiter_quantity : Z;
  waiter_price : float;
  waiter_item_notes : option string }.

Record WaiterOrderResponse : Type := mkWaiterOrderResponse {
  waiter_order : Order;
  waiter_items : list WaiterItem }.

Record WaiterFilters : Type := mkWaiterFilters {
  wfilter_status : option OrderStatus;
  wfilter_channel : option ChannelType;
  wfilter_readyOnly : bool }.

Module WaiterService.

Definition validateWaiterRole (userRole : RoleType) : M unit :=
  throwIf (negb (role_eqb userRole MESERO)) OnlyMesero.

Definition toWaiterItem (item : OrderItem) : WaiterItem :=
  mkWaiterItem (item_id item) (item_productName item) (item_quantity item)
               (item_price item) (item_notes item).

Definition toWaiterOrder (order : Order * list OrderItem) : WaiterOrderResponse :=
  mkWaiterOrderResponse (fst order) (map toWaiterItem (snd order)).

Definition createOrder (userId : Id) (data : CreateOrderData)
    (userRole : RoleType) (now : Date) : M WaiterOrderResponse :=
  validateWaiterRole userRole ;;
  throwIf (channel_eqb (data_channel data) MESA && negb (truthy (data_tableId data)))
          TableIdRequired ;;
  match data_tableId data with
  | Some tableId =>
      if channel_eqb (data_channel data) MESA then
        activeOrder <- Prisma.order_findFirst (OrderService.activeOn tableId) ;;
        throwIf (truthy activeOrder) TableHasActiveOrder
      else ret tt
  | None => ret tt
  end ;;
  throwIf (Nat.eqb (List.length (data_items data)) 0) OrderMustHaveItems ;;
  order <- Prisma.order_create RECIBIDO (data_channel data) (data_tableId data)
             (data_notes data) userId (data_items data) now ;;
  AuditService.logOrderCreate userId (order_id order) (data_channel data) ;;
  items <- Prisma.items_of (order_id order) ;;
  ret (toWaiterOrder (order, items)).

Definition getOrderById (orderId : Id) (userRole : RoleType) : M WaiterOrderResponse :=
  validateWaiterRole userRole ;;
  order <- KitchenService.findWithItems orderId ;;
  match order with
  | None => throw OrderNotFound
  | Some order => ret (toWaiterOrder order)
  end.

Definition addItems (orderId userId : Id) (items : list CreateOrderItem)
    (userRole : RoleType) : M WaiterOrderResponse :=
  validateWaiterRole userRole ;;
  order <- Prisma.order_findUnique orderId ;;
  match order with
  | None => throw OrderNotFound
  | Some order =>
      throwIf (negb (canModifyOrder (order_paidAt order))) CannotModifyPaidOrder ;;
      throwIf (status_eqb (order_status order) CANCELADO) CannotAddItemsToCancelledOrder ;;
      Prisma.orderItem_createMany orderId items ;;
      AuditService.createLog userId (Some orderId) UPDATE ;;
      getOrderById orderId userRole
  end.

(** [where.status = filters.status], then overwritten by LISTO when
    [readyOnly] is set. *)
Definition where_filters (filters : WaiterFilters) (o : Order) : bool :=
  match (if wfilter_readyOnly filters then Some LISTO else wfilter_status filters) with
  | Some st => status_eqb (order_status o) st
  | None => true
  end
  && match wfilter_channel filters with
     | Some ch => channel_eqb (order_channel o) ch
     | None => true
     end.

Definition listOrders (filters : WaiterFilters) (userRole : RoleType)
  : M (list WaiterOrderResponse) :=
  validateWaiterRole userRole ;;
  orders <- gets (fun s =>
    map (OrderService.joinItems s)
        (orderBy OrderService.createdAt_desc (filter (where_filters filters) (orders s)))) ;;
  ret (map toWaiterOrder orders).

(** The transaction of [deliverOrder] from its own read on. *)
Definition deliver_afterRead (currentOrder : option Order) (orderId : Id)
  : M (option (Order * list OrderItem)) :=
  match currentOrder with
  | None => throw OrderNotFound
  | Some currentOrder =>
      throwIf (negb (status_eqb (order_status currentOrder) LISTO))
              (OrderStatusChangedTo (order_status currentOrder)) ;;
      count <- Prisma.order_updateMany
                 (fun o => Prisma.order_has_id orderId o && status_eqb (order_status o) LISTO)
                 (set_status ENTREGADO) ;;
      throwIf (Nat.eqb count 0) OrderStatusChanged ;;
      KitchenService.findWithItems orderId
  end.

Definition deliverOrder (orderId userId : Id) (userRole : RoleType)
  : M WaiterOrderResponse :=
  validateWaiterRole userRole ;;
  order <- Prisma.order_findUnique orderId ;;
  match order with
  | None => throw OrderNotFound
  | Some order =>
      throwIf (negb (status_eqb (order_status order) LISTO))
              (UnexpectedCurrentStatus (order_status order) LISTO) ;;
      throwIf (negb (isValidStatusTransition LISTO ENTREGADO))
              (InvalidStatusTransition LISTO ENTREGADO) ;;
      updatedOrder <- transaction (
        currentOrder <- Prisma.order_findUnique orderId ;;
        deliver_afterRead currentOrder orderId) ;;
      AuditService.logStatusChange userId orderId LISTO ENTREGADO ;;
      match updatedOrder with
      | None => throw NullDereference
      | Some updatedOrder => ret (toWaiterOrder updatedOrder)
      end
  end.

Definition requestBill (orderId userId : Id) (userRole : RoleType)
  : M WaiterOrderResponse :=
  validateWaiterRole userRole ;;
  order <- Prisma.order_findUnique orderId ;;
  match order with
  | None => throw OrderNotFound
  | Some order =>
      throwIf (truthy (order_paidAt order)) OrderAlreadyPaid ;;
      updatedOrder <- Prisma.order_update orderId (set_requestedBill true) ;;
      AuditService.createLog userId (Some orderId) UPDATE ;;
      items <- Prisma.items_of orderId ;;
      ret (toWaiterOrder (updatedOrder, items))
  end.

End WaiterService.

(* ===================================================================== *)
(** * Requests against the services                                       *)
(* ===================================================================== *)

(** Two requests, each made of a first read and of what it does once the
    read has returned, scheduled so that both reads are answered before
    either request resumes: the interleaving of two handlers suspended at
    their first [await]. *)
Definition interleave {X Y A B : Type}
    (read1 : M X) (rest1 : X -> M A) (read2 : M Y) (rest2 : Y -> M B)
  : M (Result A * Result B) :=
  x <- read1 ;;
  y <- read2 ;;
  a <- attempt (rest1 x) ;;
  b <- attempt (rest2 y) ;;
  ret (a, b).

(** The requests that write to the database. *)
Inductive Command : Type :=
| OrderCreate (userId : Id) (data : CreateOrderData) (userRole : RoleType) (now : Date)
| OrderAddItems (orderId userId : Id) (items : list CreateOrderItem) (userRole : RoleType)
| OrderEditItem (orderId itemId userId : Id) (data : UpdateOrderItemData) (userRole : RoleType)
| OrderDeleteItem (orderId itemId userId : Id) (userRole : RoleType)
| OrderChangeStatus (orderId userId : Id) (newStatus : OrderStatus) (userRole : RoleType)
| OrderCancel (orderId userId : Id) (reason : string) (userRole : RoleType)
| OrderRequestBill (orderId userId : Id) (userRole : RoleType)
| PaymentCreate (userId : Id) (data : CreatePaymentData) (userRole : RoleType) (now : Date)
| KitchenStart (orderId userId : Id) (userRole : RoleType)
| KitchenReady (orderId userId : Id) (userRole : RoleType)
| WaiterCreate (userId : Id) (data : CreateOrderData) (userRole : RoleType) (now : Date)
| WaiterAddItems (orderId userId : Id) (items : list CreateOrderItem) (userRole : RoleType)
| WaiterDeliver (orderId userId : Id) (userRole : RoleType)
| WaiterRequestBill (orderId userId : Id) (userRole : RoleType)
| CashOpen (userId : Id) (initialCash : float) (notes : option string)
           (userRole : RoleType) (now : Date)
| CashClose (userId sessionId : Id) (finalCash : float) (notes : option string)
            (userRole : RoleType) (now : Date).

(** The database a request leaves behind and whether it failed. *)
Definition outcome {A : Type} (m : M A) (s : Store) : Store * option Error :=
  match m s with
  | (s', Ok _) => (s', None)
  | (s', Err e) => (s', Some e)
  end.

Definition execute (c : Command) (s : Store) : Store * option Error :=
  match c with
  | OrderCreate u d r now => outcome (OrderService.createOrder u d r now) s
  | OrderAddItems o u items r => outcome (OrderService.addItems o u items r) s
  | OrderEditItem o i u d r => outcome (OrderService.editItem o i u d r) s
  | OrderDeleteItem o i u r => outcome (OrderService.deleteItem o i u r) s
  | OrderChangeStatus o u st r => outcome (OrderService.changeStatus o u st r) s
  | OrderCancel o u reason r => outcome (OrderService.cancelOrder o u reason r) s
  | OrderRequestBill o u r => outcome (OrderService.requestBill o u r) s
  | PaymentCreate u d r now => outcome (PaymentService.createPayment u d r now) s
  | KitchenStart o u r => outcome (KitchenService.startPreparation o u r) s
  | KitchenReady o u r => outcome (KitchenService.markReady o u r) s
  | WaiterCreate u d r now => outcome (WaiterService.createOrder u d r now) s
  | WaiterAddItems o u items r => outcome (WaiterService.addItems o u items r) s
  | WaiterDeliver o u r => outcome (WaiterService.deliverOrder o u r) s
  | WaiterRequestBill o u r => outcome (WaiterService.requestBill o u r) s
  | CashOpen u c n r now => outcome (CashService.openSession u c n r now) s
  | CashClose u i c n r now => outcome (CashService.closeSession u i c n r now) s
  end.

(** The requests that only read orders, items or money. *)
Inductive Query : Type :=
| GetOrder (orderId : Id)
| ListOrders (filters : OrderFilters)
| GetTotal (orderId : Id)
| KitchenQueue
| KitchenGetOrder (orderId : Id)
| WaiterGetOrder (orderId : Id)
| WaiterListOrders (filters : WaiterFilters)
| GetOrderPayments (orderId : Id)
| GetPaymentSummary (orderId : Id).

Inductive Response : Type :=
| OneOrder (order : OrderView)
| ManyOrders (orders : list OrderView)
| Totals (total : OrderTotal)
| OneKitchenOrder (order : KitchenOrderResponse)
| ManyKitchenOrders (orders : list KitchenOrderResponse)
| OneWaiterOrder (order : WaiterOrderResponse)
| ManyWaiterOrders (orders : list WaiterOrderResponse)
| Payments (summary : PaymentSummary).

Definition answer (q : Query) (userRole : RoleType) : M Response :=
  match q with
  | GetOrder o => v <- OrderService.getOrderById o userRole ;; ret (OneOrder v)
  | ListOrders f => v <- OrderService.listOrders f userRole ;; ret (ManyOrders v)
  | GetTotal o => v <- OrderController.getTotal o userRole ;; ret (Totals v)
  | KitchenQueue => v <- KitchenService.getKitchenQueue userRole ;; ret (ManyKitchenOrders v)
  | KitchenGetOrder o => v <- KitchenService.getOrderById o userRole ;; ret (OneKitchenOrder v)
  | WaiterGetOrder o => v <- WaiterService.getOrderById o userRole ;; ret (OneWaiterOrder v)
  | WaiterListOrders f => v <- WaiterService.listOrders f userRole ;; ret (ManyWaiterOrders v)
  | GetOrderPayments o => v <- PaymentService.getOrderPayments o userRole ;; ret (Payments v)
  | GetPaymentSummary o => v <- PaymentService.getPaymentSummary o userRole ;; ret (Payments v)
  end.

(** The item prices a response carries: the non-null [price] fields of
    its items.  Kitchen items have no such field; totals and payment
    summaries carry sums, not items. *)
Definition pricesOfView (v : OrderView) : list float :=
  flat_map (fun item => match view_price item with Some p => [p] | None => [] end)
           (view_items v).

Definition pricesOfWaiter (w : WaiterOrderResponse) : list float :=
  map waiter_price (waiter_items w).

Definition itemPrices (r : Response) : list float :=
  match r with
  | OneOrder v => pricesOfView v
  | ManyOrders vs => flat_map pricesOfView vs
  | OneWaiterOrder w => pricesOfWaiter w
  | ManyWaiterOrders ws => flat_map pricesOfWaiter ws
  | Totals _ | OneKitchenOrder _ | ManyKitchenOrders _ | Payments _ => []
  end.

(** The order with identifier [orderId], as [findUnique] sees it. *)
Definition lookup (orderId : Id) (s : Store) : option Order :=
  find (Prisma.order_has_id orderId) (orders s).

(** The items of an order, its total and what has been paid on it. *)
Definition itemsOf (orderId : Id) (s : Store) : list OrderItem :=
  filter (Prisma.item_of_order orderId) (orderItems s).

Definition orderTotal (orderId : Id) (s : Store) : float := sumItems (itemsOf orderId s).

Definition paidTotal (orderId : Id) (s : Store) : float :=
  sumPayments (filter (Prisma.payment_of_order orderId) (payments s)).

(* ===================================================================== *)
(** * Notions used in the statements                                     *)
(* ===================================================================== *)

(** The database after [requestedBill] has been set on an order. *)
Definition billRequested (orderId : Id) (s : Store) : Store :=
  set_orders (updateWhere (Prisma.order_has_id orderId) (set_requestedBill true)) s.

Definition billLogged (userId orderId : Id) (s : Store) : Store :=
  set_auditLogs (fun l => l ++ [mkAuditLog userId (Some orderId) UPDATE]) s.

(** The database after an item has been deleted from an order. *)
Definition itemDeleted (orderId itemId userId : Id) (s : Store) : Store :=
  set_auditLogs (fun l => l ++ [mkAuditLog userId (Some orderId) DELETE])
    (set_orderItems (deleteWhere (Prisma.item_has_id itemId)) s).

(** The session [getAnyActiveSession] returns. *)
Definition anyActiveSession (s : Store) : option CashSession :=
  hd_error (orderBy (fun a b => Z.leb (session_openedAt b) (session_openedAt a))
                    (filter (fun c => isNull (session_closedAt c)) (cashSessions s))).

(** The payment row [createPayment] inserts. *)
Definition newPayment (userId : Id) (data : CreatePaymentData) (session : CashSession)
    (now : Date) (s : Store) : Payment :=
  mkPayment (nextId s) (pay_orderId data) userId (session_id session)
            (pay_amount data) (pay_method data) (pay_reference data)
            (pay_notes data) now.

(** The database once the payment is inserted and logged. *)
Definition paymentRecorded (userId : Id) (data : CreatePaymentData)
    (session : CashSession) (now : Date) (s : Store) : Store :=
  set_auditLogs (fun l => l ++ [mkAuditLog userId (Some (pay_orderId data)) PAYMENT])
    (set_payments (fun l => l ++ [newPayment userId data session now s])
       (set_nextId (S (nextId s)) s)).

(** The database once the order is marked as paid and that is logged. *)
Definition markedPaid (userId orderId : Id) (now : Date) (s : Store) : Store :=
  set_auditLogs (fun l => l ++ [mkAuditLog userId (Some orderId) PAYMENT])
    (set_orders (updateWhere (Prisma.order_has_id orderId) (set_paidAt (Some now))) s).

(** [Number.isFinite(x)]: neither NaN nor an infinity. *)
Definition isFinite (x : float) : bool := abs x <? infinity.

(** The doubles that are not negative: zero, above zero, or NaN. *)
Definition SFnonneg (f : spec_float) : bool :=
  match f with
  | S754_zero _ | S754_nan | S754_infinity false | S754_finite false _ _ => true
  | _ => false
  end.

(** A number for which [x <= 0] is false: it is above zero, or NaN. *)
Definition aboveZeroOrNaN (x : float) : Prop := (0 <? x) = true \/ x = nan.

(** The doubles above zero: the positive finite numbers and [+Infinity]. *)
Definition SFpositive (f : spec_float) : bool :=
  match f with
  | S754_infinity false | S754_finite false _ _ => true
  | _ => false
  end.

(** [Math.abs(updatedPaidTotal - orderTotal) < tolerance] *)
Definition withinTolerance (orderId : Id) (amount : float) (s : Store) : bool :=
  abs (paidTotal orderId s + amount - orderTotal orderId s) <? PaymentService.tolerance.

(** A request keeps [R] when the database it leaves, whether it returns
    or throws, is related by [R] to the one it started from. *)
Definition preserves {A : Type} (R : Store -> Store -> Prop) (m : M A) : Prop :=
  forall s, R s (fst (m s)).

(** Every order that is found is still found, with the same [paidAt]. *)
Definition paidAt_kept (s s' : Store) : Prop :=
  forall orderId order,
    lookup orderId s = Some order ->
    exists order',
      lookup orderId s' = Some order' /\ order_paidAt order' = order_paidAt order.

(** The database after a list of requests, one after the other. *)
Definition executeAll (cs : list Command) (s : Store) : Store :=
  fold_left (fun s c => fst (execute c s)) cs s.

(** The [price] of every item of the order is [null]. *)
Definition pricesHidden (v : OrderView) : Prop :=
  Forall (fun item => view_price item = None) (view_items v).

(* ===================================================================== *)
(** * A sample database                                                   *)
(* ===================================================================== *)

Module Sample.

Definition cashier : Id := 10%nat.
Definition cashier2 : Id := 11%nat.
Definition waiter : Id := 12%nat.
Definition cook : Id := 13%nat.

(** Order 1 on table 7: 2 x 10.00 and 1 x 5.00, total 25.00. *)
Definition order1 : Order :=
  mkOrder 1%nat MESA (Some 7%nat) RECIBIDO false None None 100%Z waiter.

Definition tacos : OrderItem := mkOrderItem 2%nat 1%nat "Tacos" 2%Z 10 None.
Definition agua : OrderItem := mkOrderItem 3%nat 1%nat "Agua" 1%Z 5 None.

Definition drawer : CashSession :=
  mkCashSession 4%nat cashier 50%Z None 50 None None.

Definition db : Store :=
  mkStore [order1] [tacos; agua] [] [drawer] [] [] 5%nat.

(** The same database with order 1 in another status, or paid. *)
Definition dbIn (st : OrderStatus) : Store :=
  set_orders (updateWhere (Prisma.order_has_id 1%nat) (set_status st)) db.

Definition dbPaid : Store :=
  set_orders (updateWhere (Prisma.order_has_id 1%nat) (set_paidAt (Some 150%Z))) db.

(** Order 5 with a single item. *)
Definition order5 : Order :=
  mkOrder 5%nat VENTANILLA None RECIBIDO false None None 120%Z cashier.

Definition cafe : OrderItem := mkOrderItem 6%nat 5%nat "Cafe" 1%Z 3 None.

Definition dbSingle : Store :=
  mkStore [order1; order5] [tacos; agua; cafe] [] [drawer] [] [] 7%nat.

(** Order 1 with a single line, [quantity] at [price], and the payments
    [paid] already made on it. *)
Definition dbWith (price : float) (quantity : Z) (paid : list float) : Store :=
  mkStore [order1]
          [mkOrderItem 2%nat 1%nat "Menu" quantity price None]
          (map (fun p => mkPayment (fst p) 1%nat cashier 4%nat (snd p) EFECTIVO
                                   None None 150%Z)
               (combine (seq 10 (List.length paid)) paid))
          [drawer] [] [] (10 + List.length paid)%nat.

End Sample.

(* ===================================================================== *)
(** * Notions used in the statements on the rest of the services          *)
(* ===================================================================== *)

From Stdlib Require Import Permutation Sorted.

Unset Implicit Arguments.

(** How far a status is along the lifecycle. *)
Definition statusRank (st : OrderStatus) : nat :=
  match st with
  | RECIBIDO => 0
  | PREPARACION => 1
  | LISTO => 2
  | ENTREGADO => 3
  | CANCELADO => 3
  end.

(** A history of statuses in which every step is an edge of the table. *)
Fixpoint validPath (path : list OrderStatus) : bool :=
  match path with
  | from :: (to :: _) as rest => isValidStatusTransition from to && validPath rest
  | _ => true
  end.

(** The permission of [enum Permission] that names an edge. *)
Definition edgePermission (from to : OrderStatus) : option Permission :=
  match from, to with
  | RECIBIDO, PREPARACION => Some STATUS_RECIBIDO_TO_PREPARACION
  | PREPARACION, LISTO => Some STATUS_PREPARACION_TO_LISTO
  | LISTO, ENTREGADO => Some STATUS_LISTO_TO_ENTREGADO
  | _, CANCELADO => Some STATUS_TO_CANCELADO
  | _, _ => None
  end.

(** The rows [createMany] inserts, numbered from [n]. *)
Fixpoint newItems (orderId : Id) (items : list CreateOrderItem) (n : Id) : list OrderItem :=
  match items with
  | [] => []
  | item :: rest =>
      mkOrderItem n orderId (new_productName item) (new_quantity item)
                  (new_price item) (new_notes item)
      :: newItems orderId rest (S n)
  end.

(** The database after [createMany]. *)
Definition itemsInserted (orderId : Id) (items : list CreateOrderItem) (s : Store) : Store :=
  set_orderItems (fun l => l ++ newItems orderId items (nextId s))
    (set_nextId (nextId s + List.length items)%nat s).

(** The [reduce] of [calculatePaidTotal] carried on from [start] over more
    payments. *)
Definition addPayments (start : float) (ps : list Payment) : float :=
  fold_left (fun sum payment => sum + payment_amount payment) ps start.

(** The [reduce] of [calculateTotal] carried on from [start] over the lines
    of a request: [sum + price * quantity], line after line. *)
Definition addLines (start : float) (items : list CreateOrderItem) : float :=
  fold_left (fun sum item => sum + new_price item * ofInt (new_quantity item))
            items start.

(** The order row [createOrder] inserts. *)
Definition newOrder (userId : Id) (data : CreateOrderData) (now : Date) (s : Store) : Order :=
  mkOrder (nextId s) (data_channel data) (data_tableId data) RECIBIDO false None
          (data_notes data) now userId.

(** The database after a successful [createOrder]. *)
Definition orderCreated (userId : Id) (data : CreateOrderData) (now : Date) (s : Store)
  : Store :=
  set_auditLogs (fun l => l ++ [mkAuditLog userId (Some (nextId s)) CREATE])
    (itemsInserted (nextId s) (data_items data)
       (set_orders (fun l => l ++ [newOrder userId data now s])
          (set_nextId (S (nextId s)) s))).

(** The table named by a MESA request already has an active order. *)
Definition tableOccupied (data : CreateOrderData) (s : Store) : bool :=
  match data_tableId data with
  | Some tableId =>
      channel_eqb (data_channel data) MESA
      && truthy (find (OrderService.activeOn tableId) (orders s))
  | None => false
  end.

(** The active orders of a table. *)
Definition activeOrdersOn (tableId : Id) (s : Store) : list Order :=
  filter (OrderService.activeOn tableId) (orders s).

(** The database after a successful [addItems]. *)
Definition itemsAdded (orderId userId : Id) (items : list CreateOrderItem) (s : Store)
  : Store :=
  set_auditLogs (fun l => l ++ [mkAuditLog userId (Some orderId) UPDATE])
    (itemsInserted orderId items s).

(** The order as [OrderService.getOrderById] shows it to a role. *)
Definition viewFor (role : RoleType) (order : Order) (items : list OrderItem) : OrderView :=
  if role_eqb role COCINA
  then mkOrderView order (map (fun item => hidePrice (showItem item)) items)
  else mkOrderView order (map showItem items).

(** The database after a successful [editItem]. *)
Definition itemEdited (orderId itemId userId : Id) (data : UpdateOrderItemData) (s : Store)
  : Store :=
  set_auditLogs (fun l => l ++ [mkAuditLog userId (Some orderId) UPDATE])
    (set_orderItems (updateWhere (Prisma.item_has_id itemId) (Prisma.apply_patch data)) s).

(** The item with identifier [itemId], as [findUnique] sees it. *)
Definition lookupItem (itemId : Id) (s : Store) : option OrderItem :=
  find (Prisma.item_has_id itemId) (orderItems s).

(** The database after a successful [changeStatus]. *)
Definition statusChanged (orderId userId : Id) (newStatus : OrderStatus) (s : Store) : Store :=
  set_auditLogs (fun l => l ++ [mkAuditLog userId (Some orderId) STATUS_CHANGE])
    (set_orders (updateWhere (Prisma.order_has_id orderId) (set_status newStatus)) s).

(** [where: { id: orderId, status: from }] *)
Definition inStatus (orderId : Id) (from : OrderStatus) (o : Order) : bool :=
  Prisma.order_has_id orderId o && status_eqb (order_status o) from.

(** The database after a successful [startPreparation], [markReady] or
    [deliverOrder]. *)
Definition statusAdvanced (orderId userId : Id) (from to : OrderStatus) (s : Store) : Store :=
  set_auditLogs (fun l => l ++ [mkAuditLog userId (Some orderId) STATUS_CHANGE])
    (set_orders (updateWhere (inStatus orderId from) (set_status to)) s).

(** The session [getActiveSession] returns for a user. *)
Definition activeSessionOf (userId : Id) (s : Store) : option CashSession :=
  hd_error (orderBy (fun a b => Z.leb (session_openedAt b) (session_openedAt a))
                    (filter (fun c => Nat.eqb (session_userId c) userId
                                      && isNull (session_closedAt c))
                            (cashSessions s))).

(** The sessions of a user that are not closed. *)
Definition openSessionsOf (userId : Id) (s : Store) : list CashSession :=
  filter (fun c => Nat.eqb (session_userId c) userId && isNull (session_closedAt c))
         (cashSessions s).

(** The session with identifier [sessionId], as [findUnique] sees it. *)
Definition lookupSession (sessionId : Id) (s : Store) : option CashSession :=
  find (Prisma.session_has_id sessionId) (cashSessions s).

(** The session row [openSession] inserts, and the database after it. *)
Definition newSession (userId : Id) (initialCash : float) (notes : option string)
    (now : Date) (s : Store) : CashSession :=
  mkCashSession (nextId s) userId now None initialCash None notes.

Definition sessionOpened (userId : Id) (initialCash : float) (notes : option string)
    (now : Date) (s : Store) : Store :=
  set_auditLogs (fun l => l ++ [mkAuditLog userId None OTHER])
    (set_cashSessions (fun l => l ++ [newSession userId initialCash notes now s])
       (set_nextId (S (nextId s)) s)).

(** The database after a successful [closeSession]. *)
Definition sessionClosed (userId sessionId : Id) (finalCash : float) (notes : option string)
    (now : Date) (s : Store) : Store :=
  set_auditLogs (fun l => l ++ [mkAuditLog userId None OTHER])
    (set_cashSessions
       (updateWhere (Prisma.session_has_id sessionId)
                    (CashService.close_data now finalCash notes)) s).

(** The order a request is aimed at, when it is aimed at one. *)
Definition target (c : Command) : option Id :=
  match c with
  | OrderCreate _ _ _ _ | WaiterCreate _ _ _ _
  | CashOpen _ _ _ _ _ | CashClose _ _ _ _ _ _ => None
  | OrderAddItems o _ _ _ | OrderEditItem o _ _ _ _ | OrderDeleteItem o _ _ _
  | OrderChangeStatus o _ _ _ | OrderCancel o _ _ _ | OrderRequestBill o _ _
  | KitchenStart o _ _ | KitchenReady o _ _
  | WaiterAddItems o _ _ _ | WaiterDeliver o _ _ | WaiterRequestBill o _ _ => Some o
  | PaymentCreate _ data _ _ => Some (pay_orderId data)
  end.

Definition isCancel (c : Command) : Prop :=
  match c with
  | OrderCancel _ _ _ _ => True
  | _ => False
  end.

(** How one request may move the status of an order: not at all, along
    an edge of the transition table, or, for [cancelOrder] alone, from
    ENTREGADO to CANCELADO. *)
Definition statusStep (c : Command) (from to : OrderStatus) : Prop :=
  from = to
  \/ isValidStatusTransition from to = true
  \/ (from = ENTREGADO /\ to = CANCELADO /\ isCancel c).

(** No user has two cash sessions open. *)
Definition oneOpenSessionPerUser (s : Store) : Prop :=
  forall userId, (List.length (openSessionsOf userId s) <= 1)%nat.

(** The request returns instead of throwing. *)
Definition succeeds {A : Type} (m : M A) (s : Store) : bool :=
  match snd (m s) with
  | Ok _ => true
  | Err _ => false
  end.

(** Order identifiers are a primary key. *)
Definition uniqueOrderIds (s : Store) : Prop := NoDup (map order_id (orders s)).

(** An order is not at once cancelled and paid. *)
Definition notCancelledAndPaid (o : Order) : Prop :=
  order_status o = CANCELADO -> order_paidAt o = None.

(** Order identifiers are unique and were handed out by the database, and
    no order is both cancelled and paid. *)
Definition consistent (s : Store) : Prop :=
  uniqueOrderIds s
  /\ (forall o, In o (orders s) -> (order_id o < nextId s)%nat)
  /\ (forall o, In o (orders s) -> notCancelledAndPaid o).

(* ===================================================================== *)
(** * Properties                                                          *)
(* ===================================================================== *)

Unset Implicit Arguments.

(** ** IEEE 754 doubles *)







Lemma ltb_zero_positive (r : float) : (0 <? r) = SFpositive (Prim2SF r).
Proof.
  rewrite ltb_spec. change (Prim2SF 0) with (S754_zero false).
  destruct (Prim2SF r) as [s|s| |s m e]; try reflexivity; destruct s; reflexivity.
Qed.


(** When [x < y] the difference [y - x] is positive: the difference of the
    aligned mantissas is a positive integer and rounding a positive
    integer at an exponent of the format never gives zero. *)

Lemma digits2_pos_bounds (m : positive) :
  (2 ^ (Zpos (digits2_pos m) - 1) <= Zpos m < 2 ^ Zpos (digits2_pos m))%Z.
Proof.
  induction m as [m IH|m IH|]; simpl digits2_pos.
  - rewrite Pos2Z.inj_succ.
    replace (Z.succ (Zpos (digits2_pos m)) - 1)%Z with (Zpos (digits2_pos m)) by lia.
    rewrite Z.pow_succ_r by lia.
    replace (Zpos (digits2_pos m)) with (Z.succ (Zpos (digits2_pos m) - 1)) at 1 by lia.
    rewrite Z.pow_succ_r by lia. lia.
  - rewrite Pos2Z.inj_succ.
    replace (Z.succ (Zpos (digits2_pos m)) - 1)%Z with (Zpos (digits2_pos m)) by lia.
    rewrite Z.pow_succ_r by lia.
    replace (Zpos (digits2_pos m)) with (Z.succ (Zpos (digits2_pos m) - 1)) at 1 by lia.
    rewrite Z.pow_succ_r by lia. lia.
  - simpl. lia.
Qed.

Lemma iter_xO (m d : positive) : Zpos (Pos.iter xO m d) = (Zpos m * 2 ^ Zpos d)%Z.
Proof.
  induction d as [|d IH] using Pos.peano_ind.
  - simpl. lia.
  - rewrite Pos.iter_succ, Pos2Z.inj_succ, Z.pow_succ_r by lia.
    rewrite Pos2Z.inj_xO, IH. lia.
Qed.

Lemma shl_align_value (m : positive) (e e' : Z) :
  (e' <= e)%Z ->
  Zpos (fst (shl_align m e e')) = (Zpos m * 2 ^ (e - e'))%Z.
Proof.
  intro Hle. unfold shl_align.
  destruct (e' - e)%Z as [|d|d] eqn:E; simpl fst.
  - replace (e - e')%Z with 0%Z by lia. simpl. lia.
  - lia.
  - rewrite iter_xO. f_equal. f_equal. lia.
Qed.

Lemma iter_pos_iter {A : Type} (f : A -> A) (p : positive) (x : A) :
  iter_pos f p x = Pos.iter f x p.
Proof.
  revert x. induction p as [p IH|p IH|]; intro x; simpl.
  - rewrite !IH, !Pos.iter_swap. reflexivity.
  - rewrite !IH. reflexivity.
  - reflexivity.
Qed.

Lemma shr_1_m (mrs : shr_record) :
  (0 <= shr_m mrs)%Z -> shr_m (shr_1 mrs) = (shr_m mrs / 2)%Z.
Proof.
  destruct mrs as [m r s]. simpl. intro Hm.
  destruct m as [|[p|p|]|p]; simpl; try reflexivity; try lia.
  - rewrite Pos2Z.inj_xI. apply Z.div_unique with 1%Z; lia.
  - rewrite Pos2Z.inj_xO. apply Z.div_unique with 0%Z; lia.
Qed.

Lemma shr_iter_m (p : positive) (mrs : shr_record) :
  (0 <= shr_m mrs)%Z ->
  shr_m (iter_pos shr_1 p mrs) = (shr_m mrs / 2 ^ Zpos p)%Z.
Proof.
  intro Hm. rewrite iter_pos_iter.
  induction p as [|p IH] using Pos.peano_ind.
  - simpl. rewrite shr_1_m by exact Hm. reflexivity.
  - rewrite Pos.iter_succ, Pos2Z.inj_succ, Z.pow_succ_r by lia.
    rewrite shr_1_m.
    + rewrite IH. rewrite Z.div_div by lia. f_equal. lia.
    + rewrite IH. apply Z.div_pos; lia.
Qed.

Lemma shr_record_of_loc_m (m : Z) (l : location) : shr_m (shr_record_of_loc m l) = m.
Proof. destruct l as [|[]]; reflexivity. Qed.

Lemma shr_fexp_positive (m : positive) (e : Z) (l : location) :
  (emin <= e)%Z ->
  (0 < shr_m (fst (shr_fexp prec emax (Zpos m) e l)))%Z
  /\ (emin <= snd (shr_fexp prec emax (Zpos m) e l))%Z.
Proof.
  intro He. unfold shr_fexp, shr. cbn [Zdigits2].
  pose proof (digits2_pos_bounds m) as [Hlow _].
  set (D := Zpos (digits2_pos m)) in *.
  assert (HD : (0 < D)%Z) by (subst D; lia).
  unfold fexp, SpecFloat.emin, prec, emax in *.
  destruct (Z.max (D + e - 53) (3 - 1024 - 53) - e)%Z as [|n|n] eqn:En; cbn [fst snd].
  - rewrite shr_record_of_loc_m. lia.
  - rewrite shr_iter_m by (rewrite shr_record_of_loc_m; lia).
    rewrite shr_record_of_loc_m. split; [|lia].
    assert (Hn : (Zpos n <= D - 1)%Z) by lia.
    assert (Hpow : (2 ^ Zpos n <= 2 ^ (D - 1))%Z) by (apply Z.pow_le_mono_r; lia).
    apply Z.div_str_pos. split; [apply Z.pow_pos_nonneg; lia | lia].
  - rewrite shr_record_of_loc_m. lia.
Qed.




Lemma valid_finite (s : bool) (m : positive) (e : Z) :
  valid_binary (S754_finite s m e) = true ->
  (emin <= e)%Z
  /\ (Zpos m < 2 ^ 53)%Z
  /\ ((emin < e)%Z -> (2 ^ 52 <= Zpos m)%Z).
Proof.
  unfold SpecFloat.valid_binary, bounded, canonical_mantissa. intro H.
  apply andb_true_iff in H. destruct H as [H _]. apply Z.eqb_eq in H.
  pose proof (digits2_pos_bounds m) as [Hlow Hhigh].
  set (D := Zpos (digits2_pos m)) in *.
  unfold fexp, SpecFloat.emin, prec, emax in *.
  assert (HD : (D <= 53)%Z) by lia.
  repeat split.
  - lia.
  - apply Z.lt_le_trans with (2 ^ D)%Z; [exact Hhigh|].
    apply Z.pow_le_mono_r; lia.
  - intro He. assert (D = 53)%Z by lia.
    replace 52%Z with (D - 1)%Z by lia. exact Hlow.
Qed.







(** Finite doubles: [x - x] is zero and [x <= x] holds; [x < x] never
    does. *)
Lemma isFinite_cases (x : float) :
  isFinite x = true ->
  (exists s, Prim2SF x = S754_zero s) \/ (exists s m e, Prim2SF x = S754_finite s m e).
Proof.
  unfold isFinite. rewrite ltb_spec, abs_spec.
  change (Prim2SF infinity) with (S754_infinity false).
  destruct (Prim2SF x) as [s|s| |s m e]; simpl; try discriminate.
  - intros _. left. exists s. reflexivity.
  - intros _. right. exists s, m, e. reflexivity.
Qed.

Lemma sub_diag (x : float) : isFinite x = true -> x - x = 0.
Proof.
  intro H. apply Prim2SF_inj. rewrite sub_spec.
  change (Prim2SF 0) with (S754_zero false).
  destruct (isFinite_cases x H) as [[s E] | (s & m & e & E)]; rewrite E.
  - destruct s; reflexivity.
  - unfold SF64sub, SFsub. rewrite Z.sub_diag. reflexivity.
Qed.

Lemma leb_refl (x : float) : isFinite x = true -> (x <=? x) = true.
Proof.
  intro H. rewrite leb_spec. unfold SFleb.
  destruct (isFinite_cases x H) as [[s E] | (s & m & e & E)]; rewrite E; simpl.
  - reflexivity.
  - rewrite Z.compare_refl.
    change (Pos.compare_cont Eq m m) with (Pos.compare m m).
    rewrite Pos.compare_refl. destruct s; reflexivity.
Qed.

Lemma ltb_irrefl (x : float) : (x <? x) = false.
Proof.
  destruct (x <? x) eqn:E; [|reflexivity].
  pose proof E as E'. rewrite ltb_spec in E'. unfold SFltb in E'.
  destruct (SFcompare (Prim2SF x) (Prim2SF x)) as [[]|] eqn:C; try discriminate.
  assert (C' : SFcompare (Prim2SF x) (Prim2SF x) = Some Gt).
  { generalize (Prim2SF x) C. intros f Cf.
    destruct f as [s|s| |s m e]; simpl in *; try discriminate.
    - destruct s; discriminate.
    - destruct s; rewrite Z.compare_refl in Cf;
        change (Pos.compare_cont Eq m m) with (Pos.compare m m) in Cf;
        rewrite Pos.compare_refl in Cf; discriminate. }
  congruence.
Qed.

(** A number that is not below zero is zero, above zero, or NaN: the
    comparisons of the language are all false on NaN. *)
Lemma nan_is_nan (x : float) : Prim2SF x = S754_nan -> x = nan.
Proof. intro E. rewrite <- (SF2Prim_Prim2SF x), E. reflexivity. Qed.

Lemma leb_zero_false (x : float) : (x <=? 0) = false -> (0 <? x) = true \/ x = nan.
Proof.
  rewrite leb_spec, ltb_spec. change (Prim2SF 0) with (S754_zero false).
  unfold SFleb, SFltb.
  destruct (Prim2SF x) as [s|s| |s m e] eqn:E; simpl.
  - discriminate.
  - destruct s; [discriminate | left; reflexivity].
  - intros _. right. apply nan_is_nan. exact E.
  - destruct s; [discriminate | left; reflexivity].
Qed.

Lemma ltb_zero_false (x : float) : (x <? 0) = false -> (0 <=? x) = true \/ x = nan.
Proof.
  rewrite leb_spec, ltb_spec. change (Prim2SF 0) with (S754_zero false).
  unfold SFleb, SFltb.
  destruct (Prim2SF x) as [s|s| |s m e] eqn:E; simpl.
  - left. reflexivity.
  - destruct s; [discriminate | left; reflexivity].
  - intros _. right. apply nan_is_nan. exact E.
  - destruct s; [discriminate | left; reflexivity].
Qed.

(** Adding an amount that is above zero: the sum never computes to less.
    Rounding cuts the exact sum down to the exponent of the result, which
    is not below the exponent of the first term. *)
Lemma digits2_pos_mono (a b : positive) :
  (Zpos a <= Zpos b)%Z -> (Zpos (digits2_pos a) <= Zpos (digits2_pos b))%Z.
Proof.
  intro Hle.
  pose proof (digits2_pos_bounds a) as [Ha _].
  pose proof (digits2_pos_bounds b) as [_ Hb].
  assert (H : (2 ^ (Zpos (digits2_pos a) - 1) < 2 ^ Zpos (digits2_pos b))%Z) by lia.
  apply Z.pow_lt_mono_r_iff in H; lia.
Qed.

Lemma digits2_pos_iter_xO (m d : positive) :
  Zpos (digits2_pos (Pos.iter xO m d)) = (Zpos (digits2_pos m) + Zpos d)%Z.
Proof.
  induction d as [|d IH] using Pos.peano_ind.
  - simpl. lia.
  - rewrite Pos.iter_succ. simpl digits2_pos. rewrite Pos2Z.inj_succ, IH. lia.
Qed.

Lemma shr_fexp_value (m : positive) (e : Z) (l : location) :
  (emin <= e)%Z ->
  snd (shr_fexp prec emax (Zpos m) e l)
  = Z.max e (fexp prec emax (Zpos (digits2_pos m) + e))
  /\ shr_m (fst (shr_fexp prec emax (Zpos m) e l))
     = (Zpos m / 2 ^ (snd (shr_fexp prec emax (Zpos m) e l) - e))%Z.
Proof.
  intro He. unfold shr_fexp, shr. cbn [Zdigits2].
  destruct (fexp prec emax (Zpos (digits2_pos m) + e) - e)%Z as [|n|n] eqn:En;
    cbn [fst snd].
  - rewrite shr_record_of_loc_m. split; [lia|].
    rewrite Z.sub_diag. simpl. rewrite Z.div_1_r. reflexivity.
  - rewrite shr_iter_m by (rewrite shr_record_of_loc_m; lia).
    rewrite shr_record_of_loc_m. split; [lia|].
    f_equal. f_equal. lia.
  - rewrite shr_record_of_loc_m. split; [lia|].
    rewrite Z.sub_diag. simpl. rewrite Z.div_1_r. reflexivity.
Qed.

Lemma round_nearest_even_ge (m : Z) (l : location) : (m <= round_nearest_even m l)%Z.
Proof. destruct l as [|[]]; simpl; try lia. destruct (Z.even m); lia. Qed.

(** What rounding a positive integer gives: an infinity, or a mantissa
    that is at least the integer cut down to the exponent of the result. *)
Lemma binary_round_aux_lower (M : positive) (e : Z) (l : location) :
  (emin <= e)%Z ->
  binary_round_aux prec emax false (Zpos M) e l = S754_infinity false
  \/ exists m2 e2,
       binary_round_aux prec emax false (Zpos M) e l = S754_finite false m2 e2
       /\ (fexp prec emax (Zpos (digits2_pos M) + e) <= e2)%Z
       /\ (e <= e2)%Z
       /\ (Zpos M / 2 ^ (e2 - e) <= Zpos m2)%Z.
Proof.
  intro He. unfold binary_round_aux.
  pose proof (shr_fexp_positive M e l He) as [Hm1 He1].
  pose proof (shr_fexp_value M e l He) as [Ee1 Em1].
  destruct (shr_fexp prec emax (Zpos M) e l) as [mrs1 e1]. cbn [fst snd] in *.
  pose proof (round_nearest_even_ge (shr_m mrs1) (loc_of_shr_record mrs1)) as Hround.
  destruct (round_nearest_even (shr_m mrs1) (loc_of_shr_record mrs1)) as [|q|q];
    try lia.
  pose proof (shr_fexp_positive q e1 loc_Exact He1) as [Hm2 _].
  pose proof (shr_fexp_value q e1 loc_Exact He1) as [Ee2 Em2].
  destruct (shr_fexp prec emax (Zpos q) e1 loc_Exact) as [mrs2 e2]. cbn [fst snd] in *.
  destruct (shr_m mrs2) as [|m2|m2] eqn:Emrs; try lia.
  destruct (Z.leb e2 (emax - prec)); [|left; reflexivity].
  right. exists m2, e2. split; [reflexivity|].
  split; [lia|]. split; [lia|].
  rewrite Em2.
  apply Z.le_trans with (shr_m mrs1 / 2 ^ (e2 - e1))%Z.
  - rewrite Em1. rewrite Z.div_div by (try apply Z.pow_pos_nonneg; lia).
    rewrite <- Z.pow_add_r by lia.
    replace (e1 - e + (e2 - e1))%Z with (e2 - e)%Z by lia. lia.
  - apply Z.div_le_mono; [apply Z.pow_pos_nonneg; lia | exact Hround].
Qed.

Lemma binary_round_lower (N : positive) (e : Z) :
  (emin <= e)%Z ->
  binary_round prec emax false N e = S754_infinity false
  \/ exists m2 e2,
       binary_round prec emax false N e = S754_finite false m2 e2
       /\ (fexp prec emax (Zpos (digits2_pos N) + e) <= e2)%Z
       /\ ((e <= e2)%Z -> (Zpos N / 2 ^ (e2 - e) <= Zpos m2)%Z).
Proof.
  intro He. unfold binary_round, shl_align.
  set (f := fexp prec emax (Zpos (digits2_pos N) + e)).
  assert (Hf : (emin <= f)%Z) by (subst f; unfold fexp; lia).
  destruct (f - e)%Z as [|d|d] eqn:Ed.
  - destruct (binary_round_aux_lower N e loc_Exact He)
      as [E | (m2 & e2 & E & H1 & H2 & H3)]; [left; exact E|].
    right. exists m2, e2. split; [exact E|]. split; [exact H1 | intros _; exact H3].
  - destruct (binary_round_aux_lower N e loc_Exact He)
      as [E | (m2 & e2 & E & H1 & H2 & H3)]; [left; exact E|].
    right. exists m2, e2. split; [exact E|]. split; [exact H1 | intros _; exact H3].
  - destruct (binary_round_aux_lower (Pos.iter xO N d) f loc_Exact Hf)
      as [E | (m2 & e2 & E & H1 & H2 & H3)]; [left; exact E|].
    right. exists m2, e2. split; [exact E|].
    rewrite digits2_pos_iter_xO in H1.
    replace (Zpos (digits2_pos N) + Zpos d + f)%Z with (Zpos (digits2_pos N) + e)%Z in H1
      by lia.
    split; [exact H1|].
    intro Hee. rewrite iter_xO in H3.
    replace (e2 - f)%Z with ((e2 - e) + Zpos d)%Z in H3 by lia.
    rewrite Z.pow_add_r in H3 by lia.
    rewrite Z.div_mul_cancel_r in H3; [exact H3 | | ];
      apply Z.pow_nonzero; lia.
Qed.

Lemma valid_canonical (s : bool) (m : positive) (e : Z) :
  valid_binary (S754_finite s m e) = true ->
  fexp prec emax (Zpos (digits2_pos m) + e) = e.
Proof.
  unfold SpecFloat.valid_binary, bounded, canonical_mantissa. intro H.
  apply andb_true_iff in H. destruct H as [H _]. apply Z.eqb_eq in H. exact H.
Qed.

Lemma shl_align_digits (m : positive) (e e' : Z) :
  (e' <= e)%Z ->
  Zpos (digits2_pos (fst (shl_align m e e'))) = (Zpos (digits2_pos m) + (e - e'))%Z.
Proof.
  intro Hle. unfold shl_align.
  destruct (e' - e)%Z as [|d|d] eqn:E; simpl fst.
  - lia.
  - lia.
  - rewrite digits2_pos_iter_xO. lia.
Qed.

(** The sum of two positive numbers is an infinity, or a number whose
    exponent and mantissa are not below those of the first. *)
Lemma SFadd_finite_ge (mx ma : positive) (ex ea : Z) :
  valid_binary (S754_finite false mx ex) = true ->
  valid_binary (S754_finite false ma ea) = true ->
  SF64add (S754_finite false mx ex) (S754_finite false ma ea) = S754_infinity false
  \/ exists m2 e2,
       SF64add (S754_finite false mx ex) (S754_finite false ma ea)
       = S754_finite false m2 e2
       /\ ((ex < e2)%Z \/ (e2 = ex /\ (Zpos mx <= Zpos m2)%Z)).
Proof.
  intros Hx Ha.
  pose proof (valid_finite _ _ _ Hx) as (Hex & _ & _).
  pose proof (valid_finite _ _ _ Ha) as (Hea & _ & _).
  pose proof (valid_canonical _ _ _ Hx) as Hcan.
  unfold SF64add, SFadd. cbn [cond_Zopp].
  set (ez := Z.min ex ea).
  assert (Hez : (emin <= ez)%Z) by (subst ez; lia).
  assert (Hle : (ez <= ex)%Z) by (subst ez; lia).
  pose proof (shl_align_value mx ex ez Hle) as Hval.
  pose proof (shl_align_digits mx ex ez Hle) as Hdig.
  set (a := fst (shl_align mx ex ez)) in *.
  set (b := fst (shl_align ma ea ez)) in *.
  change (Zpos a + Zpos b)%Z with (Zpos (a + b)). cbn [binary_normalize].
  destruct (binary_round_lower (a + b) ez Hez) as [E | (m2 & e2 & E & Hf & Hm)];
    [left; exact E|].
  right. exists m2, e2. split; [exact E|].
  assert (Hmono : (Zpos (digits2_pos a) <= Zpos (digits2_pos (a + b)))%Z)
    by (apply digits2_pos_mono; lia).
  assert (Hge : (ex <= e2)%Z).
  { rewrite <- Hcan. eapply Z.le_trans; [|exact Hf]. unfold fexp. lia. }
  destruct (Z.eq_dec e2 ex) as [Heq | Hne]; [right | left; lia].
  split; [exact Heq|]. subst e2.
  specialize (Hm Hle).
  apply Z.le_trans with (Zpos (a + b) / 2 ^ (ex - ez))%Z; [|exact Hm].
  assert (Hpow : (0 < 2 ^ (ex - ez))%Z) by (apply Z.pow_pos_nonneg; lia).
  replace (Zpos mx) with (Zpos a / 2 ^ (ex - ez))%Z
    by (rewrite Hval; apply Z.div_mul; lia).
  apply Z.div_le_mono; [exact Hpow | lia].
Qed.

(** Adding a number that is above zero, or NaN, to a number that is not
    negative: the sum is not negative either, and is not below whatever
    the number was not below. *)
Lemma SFadd_step (x a z : spec_float) :
  valid_binary x = true -> valid_binary a = true ->
  SFnonneg x = true ->
  SFpositive a = true \/ a = S754_nan ->
  SFltb x z = false ->
  SFltb (SF64add x a) z = false /\ SFnonneg (SF64add x a) = true.
Proof.
  intros Hx Ha Hnn Hpos Hxz.
  destruct Hpos as [Hpos | ->].
  2:{ destruct x as [sx|sx| |sx mx ex]; split; reflexivity. }
  destruct a as [sa|sa| |sa ma ea]; try discriminate Hpos;
    destruct sa; try discriminate Hpos.
  - (* a = +Infinity *)
    destruct x as [sx|sx| |sx mx ex]; try discriminate Hnn;
      try (destruct sx; try discriminate Hnn);
      cbn; (split; [|reflexivity]);
      destruct z as [sz|sz| |sz mz ez]; try reflexivity;
      try (destruct sz; try reflexivity; discriminate Hxz).
  - (* a finite *)
    destruct x as [sx|sx| |sx mx ex]; try discriminate Hnn.
    + (* x zero *)
      cbn. split; [|reflexivity].
      destruct z as [sz|sz| |sz mz ez]; try reflexivity;
        destruct sz; try reflexivity; try discriminate Hxz.
    + (* x = +Infinity *)
      destruct sx; try discriminate Hnn. cbn. split; [exact Hxz | reflexivity].
    + (* x NaN *)
      split; reflexivity.
    + (* x finite *)
      destruct sx; try discriminate Hnn.
      destruct (SFadd_finite_ge mx ma ex ea Hx Ha) as [E | (m2 & e2 & E & Hge)];
        rewrite E.
      * split; [|reflexivity].
        destruct z as [sz|sz| |sz mz ez]; try reflexivity;
          destruct sz; try reflexivity; discriminate Hxz.
      * split; [|reflexivity].
        destruct z as [sz|sz| |sz mz ez]; try reflexivity;
          try (destruct sz; try reflexivity; discriminate Hxz).
        destruct sz; [reflexivity|].
        unfold SFltb in *. cbn in *.
        destruct (ex ?= ez)%Z eqn:Exz; try discriminate Hxz.
        -- apply Z.compare_eq in Exz. subst ez.
           destruct Hge as [Hlt | [-> Hm]].
           ++ apply Z.compare_gt_iff in Hlt. rewrite Hlt. reflexivity.
           ++ rewrite Z.compare_refl.
              change (Pos.compare_cont Eq mx mz) with (Pos.compare mx mz) in Hxz.
              change (Pos.compare_cont Eq m2 mz) with (Pos.compare m2 mz).
              rewrite Pos2Z.inj_compare in *.
              destruct (Zpos mx ?= Zpos mz)%Z eqn:C1; try discriminate Hxz.
              ** apply Z.compare_eq in C1.
                 destruct (Zpos m2 ?= Zpos mz)%Z eqn:C2; try reflexivity.
                 change (Zpos m2 < Zpos mz)%Z in C2. lia.
              ** change (Zpos mx > Zpos mz)%Z in C1.
                 destruct (Zpos m2 ?= Zpos mz)%Z eqn:C2; try reflexivity.
                 change (Zpos m2 < Zpos mz)%Z in C2. lia.
        -- apply Z.compare_gt_iff in Exz.
           assert (Hgt : (e2 ?= ez)%Z = Gt) by (apply Z.compare_gt_iff; lia).
           rewrite Hgt. reflexivity.
Qed.

Lemma add_not_below (x a z : float) :
  SFnonneg (Prim2SF x) = true ->
  (0 <? a) = true \/ a = nan ->
  (x <? z) = false ->
  (x + a <? z) = false /\ SFnonneg (Prim2SF (x + a)) = true.
Proof.
  intros Hx Ha Hxz. rewrite ltb_spec in *. rewrite add_spec.
  apply SFadd_step; try apply Prim2SF_valid; try assumption.
  destruct Ha as [Ha | ->].
  - left. rewrite <- ltb_zero_positive, ltb_spec. exact Ha.
  - right. reflexivity.
Qed.

(** ** The two static tables *)

Lemma status_eqb_eq (a b : OrderStatus) : status_eqb a b = true <-> a = b.
Proof. destruct a, b; simpl; split; intro H; try reflexivity; discriminate. Qed.

Lemma status_eqb_refl (a : OrderStatus) : status_eqb a a = true.
Proof. destruct a; reflexivity. Qed.

Lemma role_eqb_eq (a b : RoleType) : role_eqb a b = true <-> a = b.
Proof. destruct a, b; simpl; split; intro H; try reflexivity; discriminate. Qed.

Lemma isValidStatusTransition_edges (from to : OrderStatus) :
  isValidStatusTransition from to = true <->
  (from = RECIBIDO /\ to = PREPARACION) \/ (from = PREPARACION /\ to = LISTO) \/
  (from = LISTO /\ to = ENTREGADO) \/
  ((from = RECIBIDO \/ from = PREPARACION \/ from = LISTO) /\ to = CANCELADO).
Proof.
  destruct from, to; simpl; split; intro H;
    solve [ reflexivity | discriminate | tauto
          | repeat match goal with
                   | H : _ \/ _ |- _ => destruct H
                   | H : _ /\ _ |- _ => destruct H
                   end; discriminate ].
Qed.

Lemma canChangeStatus_CAJA (from to : OrderStatus) :
  OrderService.canChangeStatus CAJA from to = isValidStatusTransition from to.
Proof. reflexivity. Qed.

Lemma canChangeStatus_MESERO (from to : OrderStatus) :
  OrderService.canChangeStatus MESERO from to = true <-> from = LISTO /\ to = ENTREGADO.
Proof.
  destruct from, to; simpl; split; intro H;
    solve [ reflexivity | discriminate | tauto | destruct H; discriminate ].
Qed.

Lemma canChangeStatus_COCINA (from to : OrderStatus) :
  OrderService.canChangeStatus COCINA from to = true <->
  (from = RECIBIDO /\ to = PREPARACION) \/ (from = PREPARACION /\ to = LISTO).
Proof.
  destruct from, to; simpl; split; intro H;
    solve [ reflexivity | discriminate | tauto
          | destruct H as [[? ?]|[? ?]]; discriminate ].
Qed.

Lemma canChangeStatus_valid (role : RoleType) (from to : OrderStatus) :
  OrderService.canChangeStatus role from to = true ->
  isValidStatusTransition from to = true.
Proof. destruct role, from, to; simpl; intro H; solve [reflexivity | discriminate]. Qed.

(** ** Rows found by identifier *)

Lemma find_updateWhere (id : Id) (p : Order -> bool) (f : Order -> Order) (l : list Order) :
  (forall o, order_id (f o) = order_id o) ->
  find (Prisma.order_has_id id) (updateWhere p f l) =
  option_map (fun o => if p o then f o else o) (find (Prisma.order_has_id id) l).
Proof.
  intro Hid. induction l as [|x l IH]; simpl; [reflexivity|].
  assert (E : Prisma.order_has_id id (if p x then f x else x) = Prisma.order_has_id id x).
  { unfold Prisma.order_has_id. destruct (p x); [rewrite Hid|]; reflexivity. }
  rewrite E. destruct (Prisma.order_has_id id x); [reflexivity | exact IH].
Qed.

Lemma find_has_id (id : Id) (l : list Order) (o : Order) :
  find (Prisma.order_has_id id) l = Some o -> Prisma.order_has_id id o = true.
Proof. intro H. apply find_some in H. tauto. Qed.

Lemma find_append (id : Id) (l : list Order) (o x : Order) :
  find (Prisma.order_has_id id) l = Some o ->
  find (Prisma.order_has_id id) (l ++ [x]) = Some o.
Proof.
  induction l as [|y l IH]; simpl; [discriminate|].
  destruct (Prisma.order_has_id id y); [tauto | exact IH].
Qed.

Lemma order_update_found (s : Store) (id : Id) (f : Order -> Order) (o : Order) :
  lookup id s = Some o ->
  Prisma.order_update id f s =
  (set_orders (updateWhere (Prisma.order_has_id id) f) s, Ok (f o)).
Proof.
  intro H. unfold Prisma.order_update, Prisma.order_findUnique, bind, gets.
  unfold lookup in H. rewrite H. reflexivity.
Qed.

Lemma lookup_updated (s : Store) (id : Id) (f : Order -> Order) (o : Order) :
  (forall o, order_id (f o) = order_id o) ->
  lookup id s = Some o ->
  lookup id (set_orders (updateWhere (Prisma.order_has_id id) f) s) = Some (f o).
Proof.
  intros Hid H. unfold lookup in *. simpl.
  rewrite find_updateWhere by exact Hid. rewrite H. simpl.
  rewrite (find_has_id _ _ _ H). reflexivity.
Qed.

(** ** Running a request step by step *)

Lemma bind_ok {A B : Type} (m : M A) (k : A -> M B) (s s' : Store) (a : A) :
  m s = (s', Ok a) -> bind m k s = k a s'.
Proof. intro H. unfold bind. rewrite H. reflexivity. Qed.

Lemma throwIf_pass {B : Type} (c : bool) (e : Error) (k : unit -> M B) (s : Store) :
  c = false -> bind (throwIf c e) k s = k tt s.
Proof. intro H. subst c. reflexivity. Qed.

Lemma throwIf_fail {B : Type} (c : bool) (e : Error) (k : unit -> M B) (s : Store) :
  c = true -> bind (throwIf c e) k s = (s, Err e).
Proof. intro H. subst c. reflexivity. Qed.

Lemma bind_gets {A B : Type} (f : Store -> A) (k : A -> M B) (s : Store) :
  bind (gets f) k s = k (f s) s.
Proof. reflexivity. Qed.

Lemma bind_findUnique {B : Type} (id : Id) (k : option Order -> M B) (s : Store) :
  bind (Prisma.order_findUnique id) k s = k (lookup id s) s.
Proof. reflexivity. Qed.

Lemma bind_createLog {B : Type} (u : Id) (o : option Id) (a : AuditAction)
    (k : unit -> M B) (s : Store) :
  bind (AuditService.createLog u o a) k s
  = k tt (set_auditLogs (fun l => l ++ [mkAuditLog u o a]) s).
Proof. reflexivity. Qed.

Lemma lookup_set_auditLogs (id : Id) (f : list AuditLog -> list AuditLog) (s : Store) :
  lookup id (set_auditLogs f s) = lookup id s.
Proof. reflexivity. Qed.

Ltac run :=
  unfold bind, throwIf, throw, ret, gets, modify, attempt; simpl.

(* --------------------------------------------------------------------- *)
(** ** changeStatus: the transition table and the role matrix            *)
(* --------------------------------------------------------------------- *)

Lemma changeStatus_reads (s : Store) (orderId userId : Id)
    (newStatus : OrderStatus) (role : RoleType) :
  OrderService.changeStatus orderId userId newStatus role s =
  OrderService.changeStatus_afterRead (lookup orderId s) orderId userId newStatus role s.
Proof. reflexivity. Qed.

(** What a request that passed every check of [changeStatus] does to a
    database [s] in which the order is still present. *)
Lemma changeStatus_afterRead_writes (s : Store) (order current : Order)
    (orderId userId : Id) (newStatus : OrderStatus) (role : RoleType) :
  (truthy (order_paidAt order) && negb (status_eqb newStatus ENTREGADO))%bool = false ->
  OrderService.canChangeStatus role (order_status order) newStatus = true ->
  lookup orderId s = Some current ->
  exists s' v,
    OrderService.changeStatus_afterRead (Some order) orderId userId newStatus role s
      = (s', Ok v)
    /\ lookup orderId s' = Some (set_status newStatus current)
    /\ view_order v = set_status newStatus current.
Proof.
  intros Hpaid Hrole Hcur.
  pose proof (canChangeStatus_valid _ _ _ Hrole) as Hvalid.
  unfold OrderService.changeStatus_afterRead.
  rewrite throwIf_pass by exact Hpaid.
  rewrite throwIf_pass by (rewrite Hvalid; reflexivity).
  rewrite throwIf_pass by (rewrite Hrole; reflexivity).
  rewrite (bind_ok _ _ _ _ _ (order_update_found _ _ (set_status newStatus) _ Hcur)).
  unfold AuditService.logStatusChange. rewrite bind_createLog.
  unfold OrderService.withItems, Prisma.items_of. rewrite bind_gets.
  do 2 eexists. split; [reflexivity|]. split; [|reflexivity].
  rewrite lookup_set_auditLogs.
  apply lookup_updated; [reflexivity | exact Hcur].
Qed.

(** C4. For every role and every pair of statuses, [changeStatus] on an
    order currently in status [from] succeeds only if the edge is in the
    transition table and the role is authorised for it: CAJA for every
    valid edge, MESERO for LISTO -> ENTREGADO only, COCINA for RECIBIDO ->
    PREPARACION and PREPARACION -> LISTO only.  On an order that passes the
    paid-order guard that precedes these two checks, an edge outside the
    table fails with 'Invalid status transition ...' (the validation
    error), a valid edge the role is not authorised for fails with 'Role
    ... cannot change status ...' (the forbidden error), in both cases
    without touching the database, and an authorised edge is written. *)
Theorem changeStatus_valid_and_authorized
    (s : Store) (orderId userId : Id) (newStatus : OrderStatus)
    (role : RoleType) (order : Order) :
  lookup orderId s = Some order ->
  let from := order_status order in
  let call := OrderService.changeStatus orderId userId newStatus role s in
  (forall s' v, call = (s', Ok v) ->
     isValidStatusTransition from newStatus = true /\
     OrderService.canChangeStatus role from newStatus = true)
  /\ (OrderService.canChangeStatus role from newStatus = true <->
      isValidStatusTransition from newStatus = true /\
      match role with
      | CAJA => True
      | MESERO => from = LISTO /\ newStatus = ENTREGADO
      | COCINA => (from = RECIBIDO /\ newStatus = PREPARACION)
                  \/ (from = PREPARACION /\ newStatus = LISTO)
      end)
  /\ (order_paidAt order = None \/ newStatus = ENTREGADO ->
      (isValidStatusTransition from newStatus = false ->
         call = (s, Err (InvalidStatusTransition from newStatus)))
      /\ (isValidStatusTransition from newStatus = true ->
          OrderService.canChangeStatus role from newStatus = false ->
          call = (s, Err (RoleCannotChangeStatus role from newStatus)))
      /\ (OrderService.canChangeStatus role from newStatus = true ->
          exists s' v, call = (s', Ok v)
            /\ lookup orderId s' = Some (set_status newStatus order)
            /\ view_order v = set_status newStatus order)).
Proof.
  intros Hfound from call. subst call.
  rewrite changeStatus_reads, Hfound.
  split; [|split].
  - intros s' v. unfold OrderService.changeStatus_afterRead. fold from.
    run.
    destruct (truthy (order_paidAt order) && negb (status_eqb newStatus ENTREGADO))%bool;
      simpl; [discriminate|].
    destruct (isValidStatusTransition from newStatus); simpl; [|discriminate].
    destruct (OrderService.canChangeStatus role from newStatus); simpl; [|discriminate].
    intros _. split; reflexivity.
  - split.
    + intro H. split; [exact (canChangeStatus_valid _ _ _ H)|].
      destruct role.
      * exact I.
      * apply canChangeStatus_MESERO. exact H.
      * apply canChangeStatus_COCINA. exact H.
    + intros [Hv Hr]. destruct role.
      * exact Hv.
      * apply canChangeStatus_MESERO. exact Hr.
      * apply canChangeStatus_COCINA. exact Hr.
  - intro Hguard.
    assert (Hpaid : (truthy (order_paidAt order)
                     && negb (status_eqb newStatus ENTREGADO))%bool = false).
    { destruct Hguard as [Hn|He].
      - rewrite Hn. reflexivity.
      - rewrite He. simpl. apply andb_false_r. }
    split; [|split].
    + intro Hv. unfold OrderService.changeStatus_afterRead. fold from.
      run. rewrite Hpaid, Hv. reflexivity.
    + intros Hv Hr. unfold OrderService.changeStatus_afterRead. fold from.
      run. rewrite Hpaid, Hv, Hr. reflexivity.
    + intro Hr. apply changeStatus_afterRead_writes; assumption.
Qed.

(** Scenario C: a waiter asking for RECIBIDO -> PREPARACION is refused
    although the edge is in the table. *)
Lemma changeStatus_valid_and_authorized_witness :
  isValidStatusTransition RECIBIDO PREPARACION = true
  /\ OrderService.changeStatus 1%nat Sample.waiter PREPARACION MESERO Sample.db
     = (Sample.db, Err (RoleCannotChangeStatus MESERO RECIBIDO PREPARACION)).
Proof.
  split; [reflexivity|].
  refine (proj1 (proj2 (proj2 (proj2
    (changeStatus_valid_and_authorized Sample.db 1%nat Sample.waiter PREPARACION MESERO
       Sample.order1 _)) _)) _ _).
  - reflexivity.
  - left. reflexivity.
  - reflexivity.
  - reflexivity.
Defined.

(* --------------------------------------------------------------------- *)
(** ** changeStatus under two concurrent requests                         *)
(* --------------------------------------------------------------------- *)

(** The write of [changeStatus] is keyed on the identifier alone: a
    request that passed its checks on a row read earlier overwrites
    whatever status the row has by the time it resumes. *)
Lemma changeStatus_overwrites (s : Store) (order current : Order)
    (orderId userId : Id) (newStatus : OrderStatus) (role : RoleType) :
  order_paidAt order = None ->
  OrderService.canChangeStatus role (order_status order) newStatus = true ->
  lookup orderId s = Some current ->
  exists s' v,
    OrderService.changeStatus_afterRead (Some order) orderId userId newStatus role s
      = (s', Ok v)
    /\ lookup orderId s' = Some (set_status newStatus current).
Proof.
  intros Hpaid Hrole Hcur.
  destruct (changeStatus_afterRead_writes s order current orderId userId newStatus role)
    as (s' & v & Hrun & Hlook & _); try assumption.
  - rewrite Hpaid. reflexivity.
  - exists s', v. split; assumption.
Qed.

(** Two requests that read the same prior status and target different
    statuses both succeed; the status left in the database is the one of
    the request that resumed last. *)
Lemma changeStatus_race_both_succeed (s : Store) (order : Order) (orderId u1 u2 : Id)
    (to1 to2 : OrderStatus) (r1 r2 : RoleType) :
  lookup orderId s = Some order ->
  order_paidAt order = None ->
  OrderService.canChangeStatus r1 (order_status order) to1 = true ->
  OrderService.canChangeStatus r2 (order_status order) to2 = true ->
  exists s' v1 v2,
    interleave
      (Prisma.order_findUnique orderId)
      (fun o => OrderService.changeStatus_afterRead o orderId u1 to1 r1)
      (Prisma.order_findUnique orderId)
      (fun o => OrderService.changeStatus_afterRead o orderId u2 to2 r2) s
    = (s', Ok (Ok v1, Ok v2))
    /\ option_map order_status (lookup orderId s') = Some to2.
Proof.
  intros Hfound Hpaid H1 H2.
  unfold interleave. rewrite !bind_findUnique, Hfound.
  destruct (changeStatus_overwrites s order order orderId u1 to1 r1 Hpaid H1 Hfound)
    as (s1 & v1 & Hrun1 & Hlook1).
  destruct (changeStatus_overwrites s1 order (set_status to1 order) orderId u2 to2 r2
              Hpaid H2 Hlook1)
    as (s2 & v2 & Hrun2 & Hlook2).
  exists s2, v1, v2. split.
  - unfold bind at 1. unfold attempt at 1. rewrite Hrun1.
    unfold bind at 1. unfold attempt at 1. rewrite Hrun2.
    reflexivity.
  - rewrite Hlook2. reflexivity.
Qed.

(** The kitchen and waiter writes are keyed on the status as well: when
    no row with the identifier is still in status [from], [updateMany]
    matches nothing and the request fails with 'Order status changed.
    Please refresh and try again.' without writing. *)
Lemma advance_afterRead_detects_change (s : Store) (order : Order) (orderId : Id)
    (from to : OrderStatus) :
  order_status order = from ->
  order_paidAt order = None ->
  from <> CANCELADO -> from <> ENTREGADO ->
  isValidStatusTransition from to = true ->
  (forall o, In o (orders s) -> Prisma.order_has_id orderId o = true ->
             order_status o <> from) ->
  transaction (KitchenService.advance_afterRead from to (Some order) orderId) s
  = (s, Err OrderStatusChanged).
Proof.
  intros Hst Hpaid Hc He Hvalid Hchanged.
  assert (Hnone : filter (fun o => Prisma.order_has_id orderId o
                                   && status_eqb (order_status o) from)%bool (orders s) = []).
  { induction (orders s) as [|x l IH]; [reflexivity|]. simpl.
    destruct (Prisma.order_has_id orderId x) eqn:Hx; simpl.
    - destruct (status_eqb (order_status x) from) eqn:Hs.
      + apply status_eqb_eq in Hs. exfalso.
        apply (Hchanged x (or_introl eq_refl) Hx Hs).
      + apply IH. intros o Ho. apply Hchanged. right. exact Ho.
    - apply IH. intros o Ho. apply Hchanged. right. exact Ho. }
  unfold transaction, KitchenService.advance_afterRead.
  rewrite throwIf_pass
    by (rewrite Hst; destruct from; solve [reflexivity | exfalso; auto]).
  rewrite throwIf_pass
    by (rewrite Hst; destruct from; solve [reflexivity | exfalso; auto]).
  rewrite throwIf_pass by (rewrite Hpaid; reflexivity).
  rewrite throwIf_pass by (rewrite Hst, status_eqb_refl; reflexivity).
  rewrite throwIf_pass by (rewrite Hvalid; reflexivity).
  unfold Prisma.order_updateMany.
  unfold bind at 1. unfold bind at 1. unfold gets at 1. rewrite Hnone.
  reflexivity.
Qed.

(** C1 (the code departs from the claim).  Order 1 is RECIBIDO and unpaid.
    Two cashiers call [changeStatus] on it, one towards PREPARACION, the
    other towards CANCELADO; both read the order before either writes.
    Both calls return the updated order, none fails, and the status that
    the first wrote is overwritten by the second.  The same schedule with
    the kitchen's [startPreparation] as second request is refused with
    'Order status changed. Please refresh and try again.' and leaves the
    status written by the first. *)
Theorem changeStatus_race_overwrites :
  (exists s' v1 v2,
     interleave
       (Prisma.order_findUnique 1%nat)
       (fun o => OrderService.changeStatus_afterRead o 1%nat Sample.cashier PREPARACION CAJA)
       (Prisma.order_findUnique 1%nat)
       (fun o => OrderService.changeStatus_afterRead o 1%nat Sample.cashier2 CANCELADO CAJA)
       Sample.db
     = (s', Ok (Ok v1, Ok v2))
     /\ order_status (view_order v1) = PREPARACION
     /\ order_status (view_order v2) = CANCELADO
     /\ option_map order_status (lookup 1%nat s') = Some CANCELADO)
  /\ (exists s' v1,
     interleave
       (Prisma.order_findUnique 1%nat)
       (fun o => OrderService.changeStatus_afterRead o 1%nat Sample.cashier CANCELADO CAJA)
       (Prisma.order_findUnique 1%nat)
       (fun o => transaction
                   (KitchenService.advance_afterRead RECIBIDO PREPARACION o 1%nat))
       Sample.db
     = (s', Ok (Ok v1, Err OrderStatusChanged))
     /\ option_map order_status (lookup 1%nat s') = Some CANCELADO).
Proof.
  split.
  - do 3 eexists. split; [vm_compute; reflexivity|].
    repeat split.
  - do 2 eexists. split; [vm_compute; reflexivity|].
    reflexivity.
Qed.

(* --------------------------------------------------------------------- *)
(** ** cancelOrder                                                        *)
(* --------------------------------------------------------------------- *)

Lemma hasPermission_ORDER_CANCEL (role : RoleType) :
  OrderService.hasPermission role ORDER_CANCEL = true <-> role = CAJA.
Proof. destruct role; simpl; split; intro H; solve [reflexivity | discriminate]. Qed.

(** The guards of [cancelOrder], in the order of the source: the role,
    the paid flag, the CANCELADO status, the reason.  Every refusal leaves
    the database as it was; the transition table is not consulted. *)
Lemma cancelOrder_guards (s : Store) (orderId userId : Id) (reason : string)
    (role : RoleType) (order : Order) :
  lookup orderId s = Some order ->
  OrderService.cancelOrder orderId userId reason role s =
  if negb (OrderService.hasPermission role ORDER_CANCEL) then
    (s, Err (NoPermission ORDER_CANCEL))
  else if truthy (order_paidAt order) then (s, Err CannotCancelPaidOrder)
  else if status_eqb (order_status order) CANCELADO then (s, Err OrderAlreadyCancelled)
  else if OrderService.reasonMissing reason then (s, Err CancellationReasonRequired)
  else
    (set_auditLogs (fun l => l ++ [mkAuditLog userId (Some orderId) CANCEL])
       (set_cancelLogs (fun l => l ++ [mkCancelLog orderId reason userId])
          (set_orders (updateWhere (Prisma.order_has_id orderId) (set_status CANCELADO)) s)),
     Ok (set_status CANCELADO order)).
Proof.
  intro Hfound. unfold OrderService.cancelOrder.
  destruct (negb (OrderService.hasPermission role ORDER_CANCEL)) eqn:Hperm.
  { rewrite throwIf_fail by reflexivity. reflexivity. }
  rewrite throwIf_pass by reflexivity.
  rewrite bind_findUnique, Hfound.
  unfold canCancelOrder, isNull. rewrite negb_involutive.
  destruct (truthy (order_paidAt order)) eqn:Hpaid.
  { rewrite throwIf_fail by reflexivity. reflexivity. }
  rewrite throwIf_pass by reflexivity.
  destruct (status_eqb (order_status order) CANCELADO) eqn:Hst.
  { rewrite throwIf_fail by reflexivity. reflexivity. }
  rewrite throwIf_pass by reflexivity.
  destruct (OrderService.reasonMissing reason) eqn:Hreason.
  { rewrite throwIf_fail by reflexivity. reflexivity. }
  rewrite throwIf_pass by reflexivity.
  unfold bind at 1. unfold transaction.
  rewrite (bind_ok _ _ _ _ _ (order_update_found _ _ (set_status CANCELADO) _ Hfound)).
  reflexivity.
Qed.

(** C5 (the code departs from the claim).  Order 1 has been delivered and
    is not paid.  ENTREGADO has no outgoing edge in the transition table
    and [changeStatus] refuses ENTREGADO -> CANCELADO, but [cancelOrder]
    by a cashier with a reason succeeds: the status becomes CANCELADO and
    a cancel log is written. *)
Theorem cancelOrder_cancels_delivered_order :
  option_map order_status (lookup 1%nat (Sample.dbIn ENTREGADO)) = Some ENTREGADO
  /\ option_map order_paidAt (lookup 1%nat (Sample.dbIn ENTREGADO)) = Some None
  /\ VALID_STATUS_TRANSITIONS ENTREGADO = []
  /\ OrderService.changeStatus 1%nat Sample.cashier CANCELADO CAJA (Sample.dbIn ENTREGADO)
     = (Sample.dbIn ENTREGADO, Err (InvalidStatusTransition ENTREGADO CANCELADO))
  /\ exists s' updated,
       OrderService.cancelOrder 1%nat Sample.cashier "cliente se fue" CAJA
         (Sample.dbIn ENTREGADO) = (s', Ok updated)
       /\ order_status updated = CANCELADO
       /\ option_map order_status (lookup 1%nat s') = Some CANCELADO
       /\ cancelLogs s' = [mkCancelLog 1%nat "cliente se fue" Sample.cashier].
Proof.
  repeat split.
  do 2 eexists. split; [vm_compute; reflexivity|].
  repeat split.
Qed.

(** What does hold of [cancelOrder]: it succeeds exactly for a cashier, on
    an unpaid order that is not already CANCELADO, with a reason that is
    not blank; in particular a paid or cancelled order is never cancelled
    and keeps its status. *)
Lemma cancelOrder_succeeds_iff (s : Store) (orderId userId : Id) (reason : string)
    (role : RoleType) (order : Order) :
  lookup orderId s = Some order ->
  (exists s' updated,
     OrderService.cancelOrder orderId userId reason role s = (s', Ok updated))
  <-> role = CAJA /\ order_paidAt order = None
      /\ order_status order <> CANCELADO
      /\ OrderService.reasonMissing reason = false.
Proof.
  intro Hfound. rewrite (cancelOrder_guards s orderId userId reason role order Hfound).
  split.
  - intros (s' & updated & H).
    destruct (negb (OrderService.hasPermission role ORDER_CANCEL)) eqn:Hperm;
      [discriminate|].
    destruct (order_paidAt order) eqn:Hpaid; simpl in H; [discriminate|].
    destruct (status_eqb (order_status order) CANCELADO) eqn:Hst; [discriminate|].
    destruct (OrderService.reasonMissing reason) eqn:Hreason; [discriminate|].
    repeat split.
    + apply hasPermission_ORDER_CANCEL. apply negb_false_iff. exact Hperm.
    + intro Hc. apply status_eqb_eq in Hc. congruence.
  - intros (Hrole & Hpaid & Hst & Hreason). subst role.
    rewrite Hpaid, Hreason. simpl.
    destruct (status_eqb (order_status order) CANCELADO) eqn:Hc.
    + apply status_eqb_eq in Hc. contradiction.
    + do 2 eexists. reflexivity.
Qed.

(** White space is that of [trim]: a reason made of a no-break space
    (U+00A0) and an ideographic space (U+3000) is refused as missing. *)
Example cancelOrder_refuses_a_blank_reason :
  OrderService.cancelOrder 1%nat Sample.cashier
    (String (ascii_of_nat 194) (String (ascii_of_nat 160)
       (String (ascii_of_nat 227) (String (ascii_of_nat 128)
          (String (ascii_of_nat 128) EmptyString)))))
    CAJA Sample.db
  = (Sample.db, Err CancellationReasonRequired).
Proof. vm_compute. reflexivity. Qed.

(* --------------------------------------------------------------------- *)
(** ** A paid order is frozen                                             *)
(* --------------------------------------------------------------------- *)

(** C6. Every order with [paidAt] set is immutable.  [addItems] (of the
    order service and of the waiter service), [editItem] and [deleteItem]
    fail and leave the database as it was: with 'Cannot modify paid order'
    for a caller that holds the permission of the operation, with the
    permission error that precedes it for a caller that does not.
    [changeStatus] fails with 'Cannot change status of paid order' for
    every target other than ENTREGADO, and the delivery of a paid order
    that is LISTO is still accepted from the cashier and the waiter. *)
Theorem paid_order_is_immutable
    (s : Store) (orderId itemId userId : Id) (order : Order) (paidAt : Date)
    (role : RoleType) (items : list CreateOrderItem) (data : UpdateOrderItemData)
    (newStatus : OrderStatus) :
  lookup orderId s = Some order ->
  order_paidAt order = Some paidAt ->
  OrderService.addItems orderId userId items role s
    = (s, Err (if OrderService.hasPermission role ORDER_ADD_ITEMS
               then CannotModifyPaidOrder else NoPermission ORDER_ADD_ITEMS))
  /\ OrderService.editItem orderId itemId userId data role s
    = (s, Err (if OrderService.hasPermission role ORDER_EDIT_ITEMS
               then CannotModifyPaidOrder else NoPermission ORDER_EDIT_ITEMS))
  /\ OrderService.deleteItem orderId itemId userId role s
    = (s, Err (if OrderService.hasPermission role ORDER_DELETE_ITEMS
               then CannotModifyPaidOrder else NoPermission ORDER_DELETE_ITEMS))
  /\ WaiterService.addItems orderId userId items role s
    = (s, Err (if role_eqb role MESERO then CannotModifyPaidOrder else OnlyMesero))
  /\ (newStatus <> ENTREGADO ->
      OrderService.changeStatus orderId userId newStatus role s
      = (s, Err CannotChangeStatusOfPaidOrder))
  /\ (order_status order = LISTO -> role <> COCINA ->
      exists s' v,
        OrderService.changeStatus orderId userId ENTREGADO role s = (s', Ok v)
        /\ lookup orderId s' = Some (set_status ENTREGADO order)).
Proof.
  intros Hfound Hpaid.
  assert (Hmod : negb (canModifyOrder (order_paidAt order)) = true)
    by (rewrite Hpaid; reflexivity).
  repeat apply conj.
  - unfold OrderService.addItems.
    destruct (OrderService.hasPermission role ORDER_ADD_ITEMS) eqn:Hperm.
    + rewrite throwIf_pass by reflexivity.
      rewrite bind_findUnique, Hfound.
      rewrite throwIf_fail by exact Hmod. reflexivity.
    + rewrite throwIf_fail by reflexivity. reflexivity.
  - unfold OrderService.editItem.
    destruct (OrderService.hasPermission role ORDER_EDIT_ITEMS) eqn:Hperm.
    + rewrite throwIf_pass by reflexivity.
      rewrite bind_findUnique, Hfound.
      rewrite throwIf_fail by exact Hmod. reflexivity.
    + rewrite throwIf_fail by reflexivity. reflexivity.
  - unfold OrderService.deleteItem.
    destruct (OrderService.hasPermission role ORDER_DELETE_ITEMS) eqn:Hperm.
    + rewrite throwIf_pass by reflexivity.
      rewrite bind_findUnique, Hfound.
      unfold Prisma.items_of. rewrite bind_gets.
      rewrite throwIf_fail by exact Hmod. reflexivity.
    + rewrite throwIf_fail by reflexivity. reflexivity.
  - unfold WaiterService.addItems, WaiterService.validateWaiterRole.
    destruct (role_eqb role MESERO) eqn:Hrole.
    + rewrite throwIf_pass by reflexivity.
      rewrite bind_findUnique, Hfound.
      rewrite throwIf_fail by exact Hmod. reflexivity.
    + rewrite throwIf_fail by reflexivity. reflexivity.
  - intro Hnew. rewrite changeStatus_reads, Hfound.
    unfold OrderService.changeStatus_afterRead.
    rewrite throwIf_fail; [reflexivity|].
    rewrite Hpaid. simpl.
    destruct (status_eqb newStatus ENTREGADO) eqn:E; [|reflexivity].
    apply status_eqb_eq in E. contradiction.
  - intros Hst Hrole. rewrite changeStatus_reads, Hfound.
    destruct (changeStatus_afterRead_writes s order order orderId userId ENTREGADO role)
      as (s' & v & Hrun & Hlook & _).
    + apply andb_false_r.
    + rewrite Hst. destruct role; solve [reflexivity | contradiction].
    + exact Hfound.
    + exists s', v. split; assumption.
Qed.

(** The cashier on the paid order 1 of the sample database. *)
Lemma paid_order_is_immutable_witness :
  OrderService.addItems 1%nat Sample.cashier
    [mkCreateOrderItem "Flan" 1%Z 4 None] CAJA Sample.dbPaid
    = (Sample.dbPaid, Err CannotModifyPaidOrder)
  /\ OrderService.deleteItem 1%nat 2%nat Sample.cashier CAJA Sample.dbPaid
    = (Sample.dbPaid, Err CannotModifyPaidOrder)
  /\ OrderService.changeStatus 1%nat Sample.cashier PREPARACION CAJA Sample.dbPaid
    = (Sample.dbPaid, Err CannotChangeStatusOfPaidOrder).
Proof.
  pose proof (paid_order_is_immutable Sample.dbPaid 1%nat 2%nat Sample.cashier
                (set_paidAt (Some 150%Z) Sample.order1) 150%Z CAJA
                [mkCreateOrderItem "Flan" 1%Z 4 None]
                (mkUpdateOrderItemData None None None None) PREPARACION
                eq_refl eq_refl) as (Hadd & _ & Hdel & _ & Hstatus & _).
  split; [exact Hadd|]. split; [exact Hdel|].
  apply Hstatus. discriminate.
Defined.

(* --------------------------------------------------------------------- *)
(** ** requestBill                                                        *)
(* --------------------------------------------------------------------- *)

Lemma updateWhere_idempotent {A : Type} (p : A -> bool) (f : A -> A) (l : list A) :
  (forall x, p (f x) = p x) -> (forall x, f (f x) = f x) ->
  updateWhere p f (updateWhere p f l) = updateWhere p f l.
Proof.
  intros Hp Hf. unfold updateWhere. rewrite map_map. apply map_ext.
  intro x. destruct (p x) eqn:E.
  - rewrite Hp, E. apply Hf.
  - rewrite E. reflexivity.
Qed.

Lemma requestBill_runs (s : Store) (orderId userId : Id) (role : RoleType) :
  OrderService.requestBill orderId userId role s =
  if negb (OrderService.hasPermission role ORDER_REQUEST_BILL) then
    (s, Err (NoPermission ORDER_REQUEST_BILL))
  else
    match lookup orderId s with
    | None => (s, Err OrderNotFound)
    | Some order =>
        if truthy (order_paidAt order) then (s, Err OrderAlreadyPaid)
        else (billLogged userId orderId (billRequested orderId s),
              Ok (mkOrderView (set_requestedBill true order)
                    (map showItem (itemsOf (order_id order) s))))
    end.
Proof.
  unfold OrderService.requestBill.
  destruct (negb (OrderService.hasPermission role ORDER_REQUEST_BILL)) eqn:Hperm.
  { rewrite throwIf_fail by reflexivity. reflexivity. }
  rewrite throwIf_pass by reflexivity.
  rewrite bind_findUnique.
  destruct (lookup orderId s) as [order|] eqn:Hfound; [|reflexivity].
  destruct (truthy (order_paidAt order)) eqn:Hpaid.
  { rewrite throwIf_fail by reflexivity. reflexivity. }
  rewrite throwIf_pass by reflexivity.
  rewrite (bind_ok _ _ _ _ _ (order_update_found _ _ (set_requestedBill true) _ Hfound)).
  rewrite bind_createLog. reflexivity.
Qed.

Lemma waiter_requestBill_runs (s : Store) (orderId userId : Id) (role : RoleType) :
  WaiterService.requestBill orderId userId role s =
  if negb (role_eqb role MESERO) then (s, Err OnlyMesero)
  else
    match lookup orderId s with
    | None => (s, Err OrderNotFound)
    | Some order =>
        if truthy (order_paidAt order) then (s, Err OrderAlreadyPaid)
        else (billLogged userId orderId (billRequested orderId s),
              Ok (WaiterService.toWaiterOrder
                    (set_requestedBill true order, itemsOf orderId s)))
    end.
Proof.
  unfold WaiterService.requestBill, WaiterService.validateWaiterRole.
  destruct (negb (role_eqb role MESERO)) eqn:Hrole.
  { rewrite throwIf_fail by reflexivity. reflexivity. }
  rewrite throwIf_pass by reflexivity.
  rewrite bind_findUnique.
  destruct (lookup orderId s) as [order|] eqn:Hfound; [|reflexivity].
  destruct (truthy (order_paidAt order)) eqn:Hpaid.
  { rewrite throwIf_fail by reflexivity. reflexivity. }
  rewrite throwIf_pass by reflexivity.
  rewrite (bind_ok _ _ _ _ _ (order_update_found _ _ (set_requestedBill true) _ Hfound)).
  rewrite bind_createLog. reflexivity.
Qed.

Lemma lookup_billRequested (s : Store) (orderId userId : Id) (order : Order) :
  lookup orderId s = Some order ->
  lookup orderId (billLogged userId orderId (billRequested orderId s))
  = Some (set_requestedBill true order).
Proof.
  intro H. unfold billLogged. rewrite lookup_set_auditLogs.
  apply lookup_updated; [reflexivity | exact H].
Qed.

(** C9. [requestBill] is idempotent.  For a caller that holds the
    request-bill permission (cashier or waiter) and an existing, unpaid
    order, a first call succeeds and sets [requestedBill]; a second call on
    the resulting database succeeds too, returns the same order and leaves
    the orders, items and payments exactly as the first call left them.
    For such a caller the call fails only when the order is absent ('Order
    not found') or already paid ('Order is already paid').  The waiter
    service's [requestBill] behaves the same for a waiter. *)
Theorem requestBill_idempotent
    (s : Store) (orderId userId : Id) (role : RoleType) :
  OrderService.hasPermission role ORDER_REQUEST_BILL = true ->
  (forall order,
     lookup orderId s = Some order -> order_paidAt order = None ->
     exists s1 v1 s2 v2,
       OrderService.requestBill orderId userId role s = (s1, Ok v1)
       /\ order_requestedBill (view_order v1) = true
       /\ option_map order_requestedBill (lookup orderId s1) = Some true
       /\ OrderService.requestBill orderId userId role s1 = (s2, Ok v2)
       /\ v2 = v1
       /\ option_map order_requestedBill (lookup orderId s2) = Some true
       /\ orders s2 = orders s1 /\ orderItems s2 = orderItems s1
       /\ payments s2 = payments s1)
  /\ (forall s' e,
        OrderService.requestBill orderId userId role s = (s', Err e) ->
        s' = s
        /\ ((lookup orderId s = None /\ e = OrderNotFound)
            \/ (exists order paidAt,
                  lookup orderId s = Some order
                  /\ order_paidAt order = Some paidAt /\ e = OrderAlreadyPaid)))
  /\ (forall order,
        lookup orderId s = Some order -> order_paidAt order = None ->
        exists s1 w1 s2 w2,
          WaiterService.requestBill orderId userId MESERO s = (s1, Ok w1)
          /\ order_requestedBill (waiter_order w1) = true
          /\ WaiterService.requestBill orderId userId MESERO s1 = (s2, Ok w2)
          /\ w2 = w1
          /\ option_map order_requestedBill (lookup orderId s2) = Some true
          /\ orders s2 = orders s1).
Proof.
  intro Hperm. repeat apply conj.
  - intros order Hfound Hpaid.
    pose proof (lookup_billRequested s orderId userId order Hfound) as Hfound1.
    exists (billLogged userId orderId (billRequested orderId s)).
    eexists.
    exists (billLogged userId orderId (billRequested orderId
              (billLogged userId orderId (billRequested orderId s)))).
    eexists.
    rewrite !requestBill_runs, Hperm, Hfound, Hfound1. simpl. rewrite Hpaid. simpl.
    repeat apply conj; try reflexivity.
    + rewrite (lookup_billRequested _ orderId userId _ Hfound1). reflexivity.
    + apply updateWhere_idempotent; reflexivity.
  - intros s' e. rewrite requestBill_runs, Hperm. simpl.
    destruct (lookup orderId s) as [order|] eqn:Hfound.
    + destruct (order_paidAt order) as [paidAt|] eqn:Hpaid; simpl.
      * intro H. inversion H; subst. split; [reflexivity|].
        right. exists order, paidAt. repeat split. exact Hpaid.
      * discriminate.
    + intro H. inversion H; subst. split; [reflexivity|]. left. split; reflexivity.
  - intros order Hfound Hpaid.
    pose proof (lookup_billRequested s orderId userId order Hfound) as Hfound1.
    exists (billLogged userId orderId (billRequested orderId s)).
    eexists.
    exists (billLogged userId orderId (billRequested orderId
              (billLogged userId orderId (billRequested orderId s)))).
    eexists.
    rewrite !waiter_requestBill_runs, Hfound, Hfound1. simpl. rewrite Hpaid. simpl.
    repeat apply conj; try reflexivity.
    + rewrite (lookup_billRequested _ orderId userId _ Hfound1). reflexivity.
    + apply updateWhere_idempotent; reflexivity.
Qed.

(** The waiter asks twice for the bill of order 1. *)
Lemma requestBill_idempotent_witness :
  exists s1 v1 s2 v2,
    OrderService.requestBill 1%nat Sample.waiter MESERO Sample.db = (s1, Ok v1)
    /\ order_requestedBill (view_order v1) = true
    /\ OrderService.requestBill 1%nat Sample.waiter MESERO s1 = (s2, Ok v2)
    /\ v2 = v1
    /\ orders s2 = orders s1.
Proof.
  destruct (proj1 (requestBill_idempotent Sample.db 1%nat Sample.waiter MESERO eq_refl)
              Sample.order1 eq_refl eq_refl)
    as (s1 & v1 & s2 & v2 & H1 & Hb & _ & H2 & Hv & _ & Ho & _).
  exists s1, v1, s2, v2. repeat split; assumption.
Defined.

(* --------------------------------------------------------------------- *)
(** ** deleteItem and the last item of an order                           *)
(* --------------------------------------------------------------------- *)

Lemma hasPermission_ORDER_DELETE_ITEMS (role : RoleType) :
  OrderService.hasPermission role ORDER_DELETE_ITEMS = true <-> role = CAJA.
Proof. destruct role; simpl; split; intro H; solve [reflexivity | discriminate]. Qed.

Lemma find_in_filter {A : Type} (p q : A -> bool) (l : list A) (x : A) :
  find p (filter q l) = Some x -> exists y, find p l = Some y.
Proof.
  induction l as [|a l IH]; simpl; [discriminate|].
  destruct (q a); simpl.
  - destruct (p a); [intros _; exists a; reflexivity | exact IH].
  - intro H. destruct (p a); [exists a; reflexivity | exact (IH H)].
Qed.

Lemma deleteItem_runs (s : Store) (orderId itemId userId : Id) (role : RoleType) :
  OrderService.deleteItem orderId itemId userId role s =
  if negb (OrderService.hasPermission role ORDER_DELETE_ITEMS) then
    (s, Err (NoPermission ORDER_DELETE_ITEMS))
  else
    match lookup orderId s with
    | None => (s, Err OrderNotFound)
    | Some order =>
        if truthy (order_paidAt order) then (s, Err CannotModifyPaidOrder)
        else
          match find (Prisma.item_has_id itemId) (itemsOf orderId s) with
          | None => (s, Err ItemNotFoundInOrder)
          | Some _ =>
              if Nat.eqb (List.length (itemsOf orderId s)) 1
              then (s, Err CannotDeleteLastItem)
              else (itemDeleted orderId itemId userId s, Ok tt)
          end
    end.
Proof.
  unfold OrderService.deleteItem.
  destruct (negb (OrderService.hasPermission role ORDER_DELETE_ITEMS)) eqn:Hperm.
  { rewrite throwIf_fail by reflexivity. reflexivity. }
  rewrite throwIf_pass by reflexivity.
  rewrite bind_findUnique.
  destruct (lookup orderId s) as [order|] eqn:Hfound; [|reflexivity].
  unfold Prisma.items_of. rewrite bind_gets. fold (itemsOf orderId s).
  unfold canModifyOrder, isNull. rewrite negb_involutive.
  destruct (truthy (order_paidAt order)) eqn:Hpaid.
  { rewrite throwIf_fail by reflexivity. reflexivity. }
  rewrite throwIf_pass by reflexivity.
  destruct (find (Prisma.item_has_id itemId) (itemsOf orderId s)) as [item|] eqn:Hitem;
    [|reflexivity].
  destruct (Nat.eqb (List.length (itemsOf orderId s)) 1) eqn:Hlen.
  { rewrite throwIf_fail by reflexivity. reflexivity. }
  rewrite throwIf_pass by reflexivity.
  destruct (find_in_filter _ _ _ _ Hitem) as [y Hy].
  unfold Prisma.orderItem_delete, bind, gets. rewrite Hy. reflexivity.
Qed.

Lemma NoDup_map_filter {A B : Type} (f : A -> B) (q : A -> bool) (l : list A) :
  NoDup (map f l) -> NoDup (map f (filter q l)).
Proof.
  induction l as [|a l IH]; simpl; intro H; [constructor|].
  inversion H as [|? ? Hnotin Hrest]; subst.
  destruct (q a); simpl; [|exact (IH Hrest)].
  constructor; [|exact (IH Hrest)].
  intro Hin. apply Hnotin.
  apply in_map_iff in Hin. destruct Hin as (x & Hx & Hin).
  apply filter_In in Hin. apply in_map_iff. exists x. tauto.
Qed.

(** With distinct identifiers, a list of two rows or more has a row
    whose identifier is not [id]. *)
Lemma other_row {A : Type} (f : A -> Id) (l : list A) (id : Id) :
  NoDup (map f l) -> l <> [] -> Nat.eqb (List.length l) 1 = false ->
  exists x, In x l /\ f x <> id.
Proof.
  intros Hnodup Hne Hlen.
  destruct l as [|a [|b rest]]; [contradiction | discriminate |].
  simpl in Hnodup. inversion Hnodup as [|? ? Hnotin _]; subst.
  destruct (Nat.eq_dec (f a) id) as [Ha|Ha].
  - exists b. split; [right; left; reflexivity|].
    intro Hb. apply Hnotin. left. congruence.
  - exists a. split; [left; reflexivity | exact Ha].
Qed.

(** C8, as the code has it.  On an existing order whose only remaining
    item is the target, [deleteItem] fails for every caller and leaves the
    database as it was; the failure is 'Cannot delete the last item.
    Cancel the order instead.' when the caller holds the delete-items
    permission and the order is unpaid, 'Cannot modify paid order' when the
    caller holds it and the order is paid, and 'No permission to delete
    items' when the caller does not hold it.  With item identifiers
    distinct (the primary key), [deleteItem] never leaves an order that had
    items without items. *)
Theorem deleteItem_keeps_last_item
    (s : Store) (orderId itemId userId : Id) (role : RoleType) :
  (forall order item,
     lookup orderId s = Some order ->
     itemsOf orderId s = [item] -> item_id item = itemId ->
     OrderService.deleteItem orderId itemId userId role s
     = (s, Err (if negb (OrderService.hasPermission role ORDER_DELETE_ITEMS)
                then NoPermission ORDER_DELETE_ITEMS
                else if truthy (order_paidAt order) then CannotModifyPaidOrder
                else CannotDeleteLastItem)))
  /\ (NoDup (map item_id (orderItems s)) ->
      itemsOf orderId s <> [] ->
      itemsOf orderId (fst (OrderService.deleteItem orderId itemId userId role s)) <> []).
Proof.
  split.
  - intros order item Hfound Hitems Hid.
    rewrite deleteItem_runs, Hfound, Hitems. simpl.
    unfold Prisma.item_has_id. rewrite Hid, Nat.eqb_refl.
    destruct (negb (OrderService.hasPermission role ORDER_DELETE_ITEMS)); [reflexivity|].
    destruct (truthy (order_paidAt order)); reflexivity.
  - intros Hnodup Hne. rewrite deleteItem_runs.
    destruct (negb (OrderService.hasPermission role ORDER_DELETE_ITEMS)); [exact Hne|].
    destruct (lookup orderId s) as [order|]; [|exact Hne].
    destruct (truthy (order_paidAt order)); [exact Hne|].
    destruct (find (Prisma.item_has_id itemId) (itemsOf orderId s)); [|exact Hne].
    destruct (Nat.eqb (List.length (itemsOf orderId s)) 1) eqn:Hlen; [exact Hne|].
    simpl.
    destruct (other_row item_id (itemsOf orderId s) itemId) as (x & Hin & Hx);
      [apply NoDup_map_filter; exact Hnodup | exact Hne | exact Hlen |].
    intro Hempty.
    assert (Hin' : In x (itemsOf orderId (itemDeleted orderId itemId userId s))).
    { unfold itemsOf in *. simpl. unfold deleteWhere.
      apply filter_In in Hin. destruct Hin as [Hin Hof].
      apply filter_In. split; [|exact Hof].
      apply filter_In. split; [exact Hin|].
      unfold Prisma.item_has_id. apply negb_true_iff. apply Nat.eqb_neq. exact Hx. }
    rewrite Hempty in Hin'. exact Hin'.
Qed.

(** The cashier on the single item of order 5, and on one of the two
    items of order 1. *)
Lemma deleteItem_keeps_last_item_witness :
  OrderService.deleteItem 5%nat 6%nat Sample.cashier CAJA Sample.dbSingle
    = (Sample.dbSingle, Err CannotDeleteLastItem)
  /\ itemsOf 1%nat
       (fst (OrderService.deleteItem 1%nat 2%nat Sample.cashier CAJA Sample.dbSingle))
     <> [].
Proof.
  split.
  - exact (proj1 (deleteItem_keeps_last_item Sample.dbSingle 5%nat 6%nat Sample.cashier CAJA)
             Sample.order5 Sample.cafe eq_refl eq_refl eq_refl).
  - apply (proj2 (deleteItem_keeps_last_item Sample.dbSingle 1%nat 2%nat Sample.cashier CAJA)).
    + simpl. repeat constructor; simpl; intuition discriminate.
    + discriminate.
Defined.

(** C8 as stated fails: the waiter, who does not hold the delete-items
    permission, is refused on the single item of order 5 with 'No
    permission to delete items', not with the last-item error. *)
Lemma deleteItem_last_item_counterexample :
  lookup 5%nat Sample.dbSingle = Some Sample.order5
  /\ itemsOf 5%nat Sample.dbSingle = [Sample.cafe]
  /\ OrderService.deleteItem 5%nat 6%nat Sample.waiter MESERO Sample.dbSingle
     = (Sample.dbSingle, Err (NoPermission ORDER_DELETE_ITEMS))
  /\ OrderService.deleteItem 5%nat 6%nat Sample.waiter MESERO Sample.dbSingle
     <> (Sample.dbSingle, Err CannotDeleteLastItem).
Proof.
  repeat split. discriminate.
Qed.

(* --------------------------------------------------------------------- *)
(** ** createPayment                                                      *)
(* --------------------------------------------------------------------- *)

Lemma createPayment_runs (s : Store) (userId : Id) (data : CreatePaymentData)
    (role : RoleType) (now : Date) :
  PaymentService.createPayment userId data role now s =
  let orderId := pay_orderId data in
  let total := orderTotal orderId s in
  let paid := paidTotal orderId s in
  if negb (PaymentService.hasPermission role ORDER_MARK_PAID) then
    (s, Err (NoPermission ORDER_MARK_PAID))
  else if negb (role_eqb role CAJA) then (s, Err OnlyCajaCanCreatePayments)
  else
    match anyActiveSession s with
    | None => (s, Err NoActiveCashSession)
    | Some session =>
        match lookup orderId s with
        | None => (s, Err OrderNotFound)
        | Some order =>
            if status_eqb (order_status order) CANCELADO then
              (s, Err CannotPayCancelledOrder)
            else if truthy (order_paidAt order) then (s, Err OrderAlreadyPaid)
            else if pay_amount data <=? 0 then (s, Err PaymentAmountNotPositive)
            else if total <? paid + pay_amount data then
              (s, Err (PaymentExceedsTotal total paid (pay_amount data)))
            else if withinTolerance orderId (pay_amount data) s then
              (markedPaid userId orderId now (paymentRecorded userId data session now s),
               Ok (mkPaymentResult (newPayment userId data session now s)
                     (Some (set_paidAt (Some now) order))
                     total (paid + pay_amount data)
                     (total - (paid + pay_amount data))
                     (total <=? paid + pay_amount data)))
            else
              (paymentRecorded userId data session now s,
               Ok (mkPaymentResult (newPayment userId data session now s)
                     (Some order)
                     total (paid + pay_amount data)
                     (total - (paid + pay_amount data))
                     (total <=? paid + pay_amount data)))
        end
    end.
Proof.
  cbv zeta. unfold PaymentService.createPayment.
  destruct (negb (PaymentService.hasPermission role ORDER_MARK_PAID)) eqn:Hperm.
  { rewrite throwIf_fail by reflexivity. reflexivity. }
  rewrite throwIf_pass by reflexivity.
  destruct (negb (role_eqb role CAJA)) eqn:Hrole.
  { rewrite throwIf_fail by reflexivity. reflexivity. }
  rewrite throwIf_pass by reflexivity.
  unfold CashService.getAnyActiveSession, Prisma.cashSession_findFirst.
  rewrite bind_gets. fold (anyActiveSession s).
  destruct (anyActiveSession s) as [session|] eqn:Hsession; [|reflexivity].
  rewrite bind_findUnique.
  destruct (lookup (pay_orderId data) s) as [order|] eqn:Hfound; [|reflexivity].
  destruct (status_eqb (order_status order) CANCELADO) eqn:Hst.
  { rewrite throwIf_fail by reflexivity. reflexivity. }
  rewrite throwIf_pass by reflexivity.
  destruct (truthy (order_paidAt order)) eqn:Hpaid.
  { rewrite throwIf_fail by reflexivity. reflexivity. }
  rewrite throwIf_pass by reflexivity.
  destruct (pay_amount data <=? 0) eqn:Hamount.
  { rewrite throwIf_fail by reflexivity. reflexivity. }
  rewrite throwIf_pass by reflexivity.
  unfold PaymentService.calculateOrderTotal at 1.
  unfold bind at 1. rewrite bind_findUnique, Hfound.
  unfold Prisma.items_of. rewrite bind_gets. unfold ret at 1.
  fold (itemsOf (pay_orderId data) s). fold (orderTotal (pay_orderId data) s).
  unfold PaymentService.calculatePaidTotal at 1, Prisma.payment_findMany.
  unfold bind at 1. rewrite bind_gets. unfold ret at 1.
  fold (paidTotal (pay_orderId data) s).
  destruct (orderTotal (pay_orderId data) s
            <? paidTotal (pay_orderId data) s + pay_amount data) eqn:Hover.
  { rewrite throwIf_fail by reflexivity. reflexivity. }
  rewrite throwIf_pass by reflexivity.
  assert (Hcreate :
    Prisma.payment_create (pay_orderId data) userId (session_id session)
      (pay_amount data) (pay_method data) (pay_reference data) (pay_notes data) now s
    = (set_payments (fun l => l ++ [newPayment userId data session now s])
         (set_nextId (S (nextId s)) s),
       Ok (newPayment userId data session now s))) by reflexivity.
  rewrite (bind_ok _ _ _ _ _ Hcreate).
  unfold AuditService.logPayment. rewrite bind_createLog.
  fold (paymentRecorded userId data session now s).
  fold (withinTolerance (pay_orderId data) (pay_amount data) s).
  assert (Hfound' : lookup (pay_orderId data) (paymentRecorded userId data session now s)
                    = Some order) by exact Hfound.
  destruct (withinTolerance (pay_orderId data) (pay_amount data) s) eqn:Htol.
  - assert (Hmark :
      bind (Prisma.order_update (pay_orderId data) (set_paidAt (Some now)))
           (fun _ => AuditService.createLog userId (Some (pay_orderId data)) PAYMENT)
           (paymentRecorded userId data session now s)
      = (markedPaid userId (pay_orderId data) now
           (paymentRecorded userId data session now s), Ok tt)).
    { rewrite (bind_ok _ _ _ _ _
                 (order_update_found _ _ (set_paidAt (Some now)) _ Hfound')).
      reflexivity. }
    rewrite (bind_ok _ _ _ _ _ Hmark).
    rewrite bind_findUnique.
    unfold markedPaid at 1. rewrite lookup_set_auditLogs.
    rewrite (lookup_updated _ _ (set_paidAt (Some now)) order (fun _ => eq_refl) Hfound').
    reflexivity.
  - unfold bind at 1. unfold ret at 1.
    rewrite bind_findUnique, Hfound'. reflexivity.
Qed.

Lemma sumPayments_snoc (l : list Payment) (p : Payment) :
  sumPayments (l ++ [p]) = sumPayments l + payment_amount p.
Proof. unfold sumPayments. rewrite fold_left_app. reflexivity. Qed.

Lemma paidTotal_recorded (s : Store) (userId : Id) (data : CreatePaymentData)
    (session : CashSession) (now : Date) :
  paidTotal (pay_orderId data) (paymentRecorded userId data session now s)
  = paidTotal (pay_orderId data) s + pay_amount data.
Proof.
  unfold paidTotal. simpl. rewrite filter_app. simpl.
  unfold Prisma.payment_of_order at 2. simpl. rewrite Nat.eqb_refl.
  apply sumPayments_snoc.
Qed.




(** The comparison is one of doubles, so rounding decides at the border.
    On an order of 0.30 with 0.10 paid, the 0.20 that is left is refused:
    0.1 + 0.2 computes to 0.30000000000000004.  The same happens to 40.50
    on an order of 60.26 with 19.76 paid, although 60.26 - 19.76 computes
    to 40.5. *)
Example createPayment_refuses_the_exact_balance :
  60.26 - 19.76 = 40.5
  /\ PaymentService.createPayment Sample.cashier
    (mkCreatePaymentData 1%nat EFECTIVO 0.2 None None) CAJA 200%Z
    (Sample.dbWith 0.3 1%Z [0.1])
  = (Sample.dbWith 0.3 1%Z [0.1], Err (PaymentExceedsTotal 0.3 0.1 0.2))
  /\ PaymentService.createPayment Sample.cashier
       (mkCreatePaymentData 1%nat EFECTIVO 40.5 None None) CAJA 200%Z
       (Sample.dbWith 60.26 1%Z [19.76])
     = (Sample.dbWith 60.26 1%Z [19.76], Err (PaymentExceedsTotal 60.26 19.76 40.5)).
Proof. repeat split; vm_compute; reflexivity. Qed.

(** In the other direction an overshoot that the sum rounds away is
    accepted: on an order of 25.00 with 24.00 paid, 1.0000000000000002 is
    taken, and closes the order. *)
Example createPayment_accepts_an_overshoot_rounded_away :
  exists s' r,
    PaymentService.createPayment Sample.cashier
      (mkCreatePaymentData 1%nat EFECTIVO 1.0000000000000002 None None) CAJA 200%Z
      (Sample.dbWith 25 1%Z [24])
    = (s', Ok r)
    /\ (1 <? 1.0000000000000002) = true
    /\ result_paid r = 25
    /\ option_map order_paidAt (lookup 1%nat s') = Some (Some 200%Z).
Proof.
  do 2 eexists. split; [vm_compute; reflexivity|].
  repeat split.
Qed.

(** The bound on the sum of the payments is one of [createPayment] only:
    after 20.00 has been paid on order 1, the cashier may still delete the
    tacos (20.00), which leaves an order of 5.00 with 20.00 paid. *)
Example deleteItem_after_partial_payment :
  exists s1 r s2,
    PaymentService.createPayment Sample.cashier
      (mkCreatePaymentData 1%nat EFECTIVO 20 None None) CAJA 200%Z Sample.db
    = (s1, Ok r)
    /\ OrderService.deleteItem 1%nat 2%nat Sample.cashier CAJA s1 = (s2, Ok tt)
    /\ (orderTotal 1%nat s2 + PaymentService.tolerance <? paidTotal 1%nat s2) = true.
Proof.
  do 3 eexists. split; [vm_compute; reflexivity|].
  split; [vm_compute; reflexivity|].
  vm_compute. reflexivity.
Qed.



(** The two tests are made on the doubles.  Three lines at 0.10 total
    0.30000000000000004, so that a payment of 0.30 marks the order as paid
    and is reported with [isPaid = false]; on an order of 0.30 with 0.10
    paid, a payment of 0.19999999999999998 brings the paid total to 0.3
    and is reported with [isPaid = true] and nothing remaining. *)
Example createPayment_isPaid_follows_the_doubles :
  (exists s' r,
     PaymentService.createPayment Sample.cashier
       (mkCreatePaymentData 1%nat EFECTIVO 0.3 None None) CAJA 200%Z
       (Sample.dbWith 0.1 3%Z [])
     = (s', Ok r)
     /\ result_total r = 0.30000000000000004
     /\ option_map order_paidAt (lookup 1%nat s') = Some (Some 200%Z)
     /\ result_isPaid r = false)
  /\ (exists s' r,
        PaymentService.createPayment Sample.cashier
          (mkCreatePaymentData 1%nat EFECTIVO 0.19999999999999998 None None) CAJA 200%Z
          (Sample.dbWith 0.3 1%Z [0.1])
        = (s', Ok r)
        /\ result_isPaid r = true
        /\ result_remaining r = 0).
Proof.
  split; do 2 eexists; (split; [vm_compute; reflexivity|]); repeat split.
Qed.

(* --------------------------------------------------------------------- *)
(** ** Who writes paidAt                                                  *)
(* --------------------------------------------------------------------- *)

Section Preservation.

Variable R : Store -> Store -> Prop.
Hypothesis R_refl : forall s, R s s.
Hypothesis R_trans : forall s1 s2 s3, R s1 s2 -> R s2 s3 -> R s1 s3.

Lemma preserves_ret {A : Type} (a : A) : preserves R (ret a).
Proof. intro s. apply R_refl. Qed.

Lemma preserves_throw {A : Type} (e : Error) : preserves R (@throw A e).
Proof. intro s. apply R_refl. Qed.

Lemma preserves_gets {A : Type} (f : Store -> A) : preserves R (gets f).
Proof. intro s. apply R_refl. Qed.

Lemma preserves_throwIf (c : bool) (e : Error) : preserves R (throwIf c e).
Proof. intro s. destruct c; apply R_refl. Qed.

Lemma preserves_bind {A B : Type} (m : M A) (k : A -> M B) :
  preserves R m -> (forall a, preserves R (k a)) -> preserves R (bind m k).
Proof.
  intros Hm Hk s. unfold bind. specialize (Hm s).
  destruct (m s) as [s' [a|e]]; simpl in *.
  - apply (R_trans _ _ _ Hm). apply Hk.
  - exact Hm.
Qed.

Lemma preserves_transaction {A : Type} (m : M A) :
  preserves R m -> preserves R (transaction m).
Proof.
  intros Hm s. unfold transaction. specialize (Hm s).
  destruct (m s) as [s' [a|e]]; simpl in *; [exact Hm | apply R_refl].
Qed.

Lemma preserves_modify (f : Store -> Store) :
  (forall s, R s (f s)) -> preserves R (modify f).
Proof. intros H s. apply H. Qed.

End Preservation.

Lemma paidAt_kept_refl (s : Store) : paidAt_kept s s.
Proof. intros id o H. exists o. split; [exact H | reflexivity]. Qed.

Lemma paidAt_kept_trans (s1 s2 s3 : Store) :
  paidAt_kept s1 s2 -> paidAt_kept s2 s3 -> paidAt_kept s1 s3.
Proof.
  intros H12 H23 id o H.
  destruct (H12 id o H) as (o2 & H2 & E2).
  destruct (H23 id o2 H2) as (o3 & H3 & E3).
  exists o3. split; [exact H3 | congruence].
Qed.

Lemma paidAt_kept_same_orders (s s' : Store) :
  orders s' = orders s -> paidAt_kept s s'.
Proof.
  intros E id o H. exists o. unfold lookup in *. rewrite E. split; [exact H | reflexivity].
Qed.

Lemma paidAt_kept_update (p : Order -> bool) (f : Order -> Order) (s : Store) :
  (forall o, order_id (f o) = order_id o) ->
  (forall o, order_paidAt (f o) = order_paidAt o) ->
  paidAt_kept s (set_orders (updateWhere p f) s).
Proof.
  intros Hid Hpaid id o H. unfold lookup in *. simpl.
  rewrite find_updateWhere by exact Hid. rewrite H. simpl.
  eexists. split; [reflexivity|].
  destruct (p o); [apply Hpaid | reflexivity].
Qed.

Lemma paidAt_kept_insert (o : Order) (s : Store) :
  paidAt_kept s (set_orders (fun l => l ++ [o]) s).
Proof.
  intros id x H. exists x. split; [|reflexivity].
  unfold lookup in *. simpl. apply find_append. exact H.
Qed.

Create HintDb paid.

(** A request is shown to keep [paidAt] by walking through its steps. *)
Ltac keeps :=
  repeat first
    [ exact paidAt_kept_refl
    | exact paidAt_kept_trans
    | assumption
    | solve [auto with paid]
    | apply preserves_ret
    | apply preserves_throw
    | apply preserves_gets
    | apply preserves_throwIf
    | apply preserves_transaction
    | apply preserves_bind
    | apply preserves_modify; intro;
      first [ apply paidAt_kept_same_orders; reflexivity
            | apply paidAt_kept_insert
            | apply paidAt_kept_update; reflexivity ]
    | match goal with
      | |- forall _, preserves _ _ => intro
      | |- preserves _ (match ?x with _ => _ end) => destruct x
      | |- preserves _ (if ?x then _ else _) => destruct x
      end ].

Lemma keeps_freshId : preserves paidAt_kept freshId.
Proof. intro s. apply paidAt_kept_same_orders. reflexivity. Qed.

Lemma keeps_createLog (u : Id) (o : option Id) (a : AuditAction) :
  preserves paidAt_kept (AuditService.createLog u o a).
Proof. unfold AuditService.createLog, Prisma.auditLog_create. keeps. Qed.

#[local] Hint Resolve keeps_freshId keeps_createLog : paid.

Lemma keeps_createMany (orderId : Id) (items : list CreateOrderItem) :
  preserves paidAt_kept (Prisma.orderItem_createMany orderId items).
Proof.
  induction items as [|item rest IH]; simpl; keeps.
Qed.

Lemma keeps_order_update (id : Id) (f : Order -> Order) :
  (forall o, order_id (f o) = order_id o) ->
  (forall o, order_paidAt (f o) = order_paidAt o) ->
  preserves paidAt_kept (Prisma.order_update id f).
Proof.
  intros Hid Hpaid. unfold Prisma.order_update, Prisma.order_findUnique.
  apply preserves_bind; [exact paidAt_kept_trans | keeps | intros [o|]; [|keeps]].
  apply preserves_bind; [exact paidAt_kept_trans | | keeps].
  apply preserves_modify. intro s. apply paidAt_kept_update; assumption.
Qed.

Lemma keeps_order_updateMany (p : Order -> bool) (f : Order -> Order) :
  (forall o, order_id (f o) = order_id o) ->
  (forall o, order_paidAt (f o) = order_paidAt o) ->
  preserves paidAt_kept (Prisma.order_updateMany p f).
Proof.
  intros Hid Hpaid. unfold Prisma.order_updateMany.
  apply preserves_bind; [exact paidAt_kept_trans | keeps | intro].
  apply preserves_bind; [exact paidAt_kept_trans | | keeps].
  apply preserves_modify. intro s. apply paidAt_kept_update; assumption.
Qed.

#[local] Hint Resolve keeps_createMany keeps_order_update keeps_order_updateMany : paid.

(** No method of the order, kitchen, waiter and cash services writes
    [paidAt]. *)
Lemma keeps_order_create (st : OrderStatus) (ch : ChannelType) (t : option Id)
    (n : option string) (u : Id) (items : list CreateOrderItem) (now : Date) :
  preserves paidAt_kept (Prisma.order_create st ch t n u items now).
Proof. unfold Prisma.order_create. keeps. Qed.

Lemma keeps_withItems (o : Order) : preserves paidAt_kept (OrderService.withItems o).
Proof. unfold OrderService.withItems, Prisma.items_of. keeps. Qed.

Lemma keeps_getOrderById (orderId : Id) (role : RoleType) :
  preserves paidAt_kept (OrderService.getOrderById orderId role).
Proof.
  unfold OrderService.getOrderById, Prisma.order_findUnique, Prisma.items_of. keeps.
Qed.

Lemma keeps_findWithItems (orderId : Id) :
  preserves paidAt_kept (KitchenService.findWithItems orderId).
Proof. unfold KitchenService.findWithItems. keeps. Qed.

#[local] Hint Resolve keeps_order_create keeps_withItems keeps_getOrderById
  keeps_findWithItems : paid.















Lemma fst_outcome {A : Type} (m : M A) (s : Store) : fst (outcome m s) = fst (m s).
Proof. unfold outcome. destruct (m s) as [s' [a|e]]; reflexivity. Qed.


Lemma has_id_eq (id : Id) (o : Order) : Prisma.order_has_id id o = true -> order_id o = id.
Proof. apply Nat.eqb_eq. Qed.




(** The tolerance test is made on the doubles.  On an order of 10.03 a
    payment of 10.02 leaves a difference that computes to
    0.0099999999999997868: the order is marked as paid, the summary reports
    it paid and the cent that is left is refused. *)
Example createPayment_tolerance_on_doubles :
  abs (10.02 - 10.03) = 0.0099999999999997868
  /\ exists s' r sm,
       PaymentService.createPayment Sample.cashier
         (mkCreatePaymentData 1%nat EFECTIVO 10.02 None None) CAJA 200%Z
         (Sample.dbWith 10.03 1%Z [])
       = (s', Ok r)
       /\ option_map order_paidAt (lookup 1%nat s') = Some (Some 200%Z)
       /\ result_isPaid r = false
       /\ PaymentService.getPaymentSummary 1%nat CAJA s' = (s', Ok sm)
       /\ summary_isPaid sm = true
       /\ PaymentService.createPayment Sample.cashier
            (mkCreatePaymentData 1%nat EFECTIVO 0.01 None None) CAJA 210%Z s'
          = (s', Err OrderAlreadyPaid).
Proof.
  split; [vm_compute; reflexivity|].
  do 3 eexists. split; [vm_compute; reflexivity|].
  split; [vm_compute; reflexivity|].
  split; [vm_compute; reflexivity|].
  split; [vm_compute; reflexivity|].
  split; vm_compute; reflexivity.
Qed.

(* --------------------------------------------------------------------- *)
(** ** What the kitchen can read                                          *)
(* --------------------------------------------------------------------- *)

Lemma hidePrice_all (items : list OrderItem) :
  Forall (fun item => view_price item = None)
         (map (fun item => hidePrice (showItem item)) items).
Proof. induction items; simpl; constructor; [reflexivity | assumption]. Qed.

Lemma pricesHidden_nil (v : OrderView) : pricesHidden v -> pricesOfView v = [].
Proof.
  unfold pricesHidden, pricesOfView.
  induction (view_items v) as [|item items IH]; intro H; [reflexivity|].
  inversion H as [|? ? Hitem Hrest]; subst. simpl. rewrite Hitem. simpl.
  apply IH. exact Hrest.
Qed.

Lemma pricesHidden_all_nil (vs : list OrderView) :
  Forall pricesHidden vs -> flat_map pricesOfView vs = [].
Proof.
  induction 1 as [|v vs Hv _ IH]; [reflexivity|].
  simpl. rewrite (pricesHidden_nil _ Hv), IH. reflexivity.
Qed.

Lemma getOrderById_COCINA (s s' : Store) (orderId : Id) (v : OrderView) :
  OrderService.getOrderById orderId COCINA s = (s', Ok v) ->
  s' = s /\ pricesHidden v.
Proof.
  unfold OrderService.getOrderById. rewrite bind_findUnique.
  destruct (lookup orderId s) as [order|]; [|discriminate].
  unfold Prisma.items_of. rewrite bind_gets. simpl.
  intro H. inversion H; subst. split; [reflexivity|].
  apply hidePrice_all.
Qed.

Lemma listOrders_COCINA (s s' : Store) (filters : OrderFilters) (vs : list OrderView) :
  OrderService.listOrders filters COCINA s = (s', Ok vs) ->
  s' = s /\ Forall pricesHidden vs.
Proof.
  unfold OrderService.listOrders. rewrite bind_gets. simpl.
  intro H. inversion H; subst. split; [reflexivity|].
  apply Forall_forall. intros v Hin.
  apply in_map_iff in Hin. destruct Hin as (order & Hv & _). subst v.
  apply hidePrice_all.
Qed.

(** C7. For a caller of role COCINA, [getOrderById] and [listOrders]
    return every item with [price] null; the kitchen queue and the
    kitchen's own [getOrderById] return items that have no price field; the
    waiter reads, the order total and the payment reads are refused.  So
    no read request answered to COCINA carries an item price, and none
    changes the database. *)
Theorem kitchen_reads_carry_no_price (s s' : Store) :
  (forall orderId v,
     OrderService.getOrderById orderId COCINA s = (s', Ok v) -> pricesHidden v)
  /\ (forall filters vs,
        OrderService.listOrders filters COCINA s = (s', Ok vs) ->
        Forall pricesHidden vs)
  /\ (forall q r,
        answer q COCINA s = (s', Ok r) ->
        s' = s /\ itemPrices r = []
        /\ match q with
           | GetOrder _ | ListOrders _ | KitchenQueue | KitchenGetOrder _ => True
           | _ => False
           end).
Proof.
  repeat apply conj.
  - intros orderId v H. exact (proj2 (getOrderById_COCINA _ _ _ _ H)).
  - intros filters vs H. exact (proj2 (listOrders_COCINA _ _ _ _ H)).
  - intros q r. destruct q; cbn [answer].
    + unfold bind.
      destruct (OrderService.getOrderById orderId COCINA s) as [s1 [v|e]] eqn:E;
        [|discriminate].
      intro H. inversion H; subst.
      destruct (getOrderById_COCINA _ _ _ _ E) as [Hs Hv].
      repeat split; [exact Hs | exact (pricesHidden_nil _ Hv)].
    + unfold bind.
      destruct (OrderService.listOrders filters COCINA s) as [s1 [vs|e]] eqn:E;
        [|discriminate].
      intro H. inversion H; subst.
      destruct (listOrders_COCINA _ _ _ _ E) as [Hs Hvs].
      repeat split; [exact Hs | exact (pricesHidden_all_nil _ Hvs)].
    + discriminate.
    + unfold KitchenService.getKitchenQueue, KitchenService.validateKitchenRole.
      unfold bind, throwIf, gets, ret. cbn [role_eqb RoleType_beq negb].
      intro H. inversion H; subst. repeat split.
    + unfold KitchenService.getOrderById, KitchenService.validateKitchenRole,
        KitchenService.findWithItems.
      unfold bind, throwIf, gets, ret. cbn [role_eqb RoleType_beq negb].
      destruct (find (Prisma.order_has_id orderId) (orders s)); cbn [option_map];
        [|discriminate].
      intro H. inversion H; subst. repeat split.
    + discriminate.
    + discriminate.
    + unfold PaymentService.getOrderPayments, Prisma.order_findUnique.
      unfold bind at 1 2. unfold gets at 1.
      destruct (find (Prisma.order_has_id orderId) (orders s)); discriminate.
    + unfold PaymentService.getPaymentSummary, Prisma.order_findUnique.
      unfold bind at 1 2. unfold gets at 1.
      destruct (find (Prisma.order_has_id orderId) (orders s)); discriminate.
Qed.

(** Order 1 read by the kitchen: both items come back without a price;
    read by the waiter, they come back with 10 and 5. *)
Lemma kitchen_reads_carry_no_price_witness :
  (exists v,
     OrderService.getOrderById 1%nat COCINA Sample.db = (Sample.db, Ok v)
     /\ map view_productName (view_items v) = ["Tacos"%string; "Agua"%string]
     /\ pricesHidden v)
  /\ itemPrices
       (OneOrder (mkOrderView Sample.order1 (map showItem [Sample.tacos; Sample.agua])))
     = [10; 5].
Proof.
  split; [|reflexivity].
  eexists.
  assert (Hrun : OrderService.getOrderById 1%nat COCINA Sample.db = (Sample.db, Ok _))
    by (vm_compute; reflexivity).
  split; [exact Hrun|]. split; [reflexivity|].
  exact (proj1 (kitchen_reads_carry_no_price Sample.db Sample.db) _ _ Hrun).
Defined.

(* ===================================================================== *)
(** * Properties of the rest of the services                              *)
(* ===================================================================== *)

(* --------------------------------------------------------------------- *)
(** ** The transition table and the permission matrix                     *)
(* --------------------------------------------------------------------- *)

Lemma valid_edge_climbs (from to : OrderStatus) :
  isValidStatusTransition from to = true -> (statusRank from < statusRank to)%nat.
Proof. destruct from, to; simpl; intro H; solve [discriminate | lia]. Qed.

Lemma validPath_bounded (from : OrderStatus) (rest : list OrderStatus) :
  validPath (from :: rest) = true ->
  (statusRank from + List.length rest <= 3)%nat
  /\ Forall (fun st => (statusRank from < statusRank st)%nat) rest.
Proof.
  revert from. induction rest as [|to rest IH]; intros from H.
  - split; [destruct from; simpl; lia | constructor].
  - simpl in H. apply andb_true_iff in H. destruct H as [Hedge Hrest].
    apply valid_edge_climbs in Hedge.
    destruct (IH to Hrest) as [Hlen Hall].
    split; [simpl; lia|].
    constructor; [exact Hedge|].
    eapply Forall_impl; [|exact Hall]. simpl. intros st Hst. lia.
Qed.

(** X1.  The transition table has no cycle: a history of statuses linked by
    edges of the table never visits a status twice and makes at most
    three transitions. *)
Theorem valid_histories_are_short (path : list OrderStatus) :
  validPath path = true ->
  NoDup path /\ (List.length path <= 4)%nat.
Proof.
  induction path as [|from rest IH]; intro H.
  - split; [constructor | simpl; lia].
  - destruct (validPath_bounded from rest H) as [Hlen Hall].
    assert (Hrest : validPath rest = true).
    { destruct rest as [|to rest']; [reflexivity|].
      simpl in H. apply andb_true_iff in H. tauto. }
    destruct (IH Hrest) as [Hnodup _].
    split.
    + constructor; [|exact Hnodup].
      intro Hin. rewrite Forall_forall in Hall. specialize (Hall from Hin). lia.
    + simpl. lia.
Qed.

Lemma valid_histories_are_short_witness :
  NoDup [RECIBIDO; PREPARACION; LISTO; ENTREGADO]
  /\ (List.length [RECIBIDO; PREPARACION; LISTO; ENTREGADO] <= 4)%nat.
Proof.
  exact (valid_histories_are_short [RECIBIDO; PREPARACION; LISTO; ENTREGADO] eq_refl).
Defined.

(** X2.  The role tests written out in [canChangeStatus] agree with the
    permission matrix: a role may take an edge exactly when the edge is in
    the transition table and the role holds the permission named after
    it. *)
Theorem canChangeStatus_agrees_with_matrix (role : RoleType) (from to : OrderStatus) :
  OrderService.canChangeStatus role from to = true <->
  isValidStatusTransition from to = true
  /\ exists p, edgePermission from to = Some p
               /\ OrderService.hasPermission role p = true.
Proof.
  split.
  - intro H. split; [exact (canChangeStatus_valid _ _ _ H)|].
    destruct role, from, to; try discriminate H; eexists; split; reflexivity.
  - intros [Hvalid (p & Hedge & Hperm)].
    destruct role, from, to; try discriminate Hvalid; try reflexivity;
      simpl in Hedge; inversion Hedge; subst p; discriminate Hperm.
Qed.

(** X3.  The cashier holds every permission, and the waiter and the kitchen
    hold none in common. *)
Theorem cashier_holds_every_permission (role : RoleType) (p : Permission) :
  OrderService.hasPermission CAJA p = true
  /\ (OrderService.hasPermission MESERO p = true ->
      OrderService.hasPermission COCINA p = false)
  /\ PaymentService.hasPermission role p = OrderService.hasPermission role p.
Proof.
  split; [destruct p; reflexivity|].
  split; [destruct p; simpl; intro H; solve [reflexivity | discriminate]|].
  reflexivity.
Qed.

(* --------------------------------------------------------------------- *)
(** ** createOrder and addItems                                           *)
(* --------------------------------------------------------------------- *)

Lemma createMany_runs (orderId : Id) (items : list CreateOrderItem) (s : Store) :
  Prisma.orderItem_createMany orderId items s
  = (itemsInserted orderId items s, Ok (List.length items)).
Proof.
  revert s. induction items as [|item rest IH]; intro s.
  - destruct s. unfold itemsInserted, set_orderItems, set_nextId. simpl.
    rewrite app_nil_r, Nat.add_0_r. reflexivity.
  - simpl. unfold bind at 1. unfold freshId at 1.
    unfold bind at 1. unfold modify at 1.
    unfold bind at 1. rewrite IH. unfold ret.
    destruct s. unfold itemsInserted, set_orderItems, set_nextId. simpl.
    rewrite <- app_assoc. simpl. rewrite Nat.add_succ_r. reflexivity.
Qed.

Lemma sumItems_inserted (l : list OrderItem) (orderId : Id)
    (items : list CreateOrderItem) (n : Id) :
  sumItems (l ++ newItems orderId items n) = addLines (sumItems l) items.
Proof.
  unfold sumItems, addLines. rewrite fold_left_app.
  generalize (fold_left (fun sum item => sum + item_price item * ofInt (item_quantity item))
                        l 0).
  revert n. induction items as [|item rest IH]; intros n acc; simpl; [reflexivity|].
  apply IH.
Qed.

Lemma filter_newItems (orderId : Id) (items : list CreateOrderItem) (n : Id) :
  filter (Prisma.item_of_order orderId) (newItems orderId items n)
  = newItems orderId items n.
Proof.
  revert n. induction items as [|item rest IH]; intro n; simpl; [reflexivity|].
  unfold Prisma.item_of_order at 1. simpl. rewrite Nat.eqb_refl, IH. reflexivity.
Qed.

Lemma filter_newItems_other (orderId other : Id) (items : list CreateOrderItem) (n : Id) :
  other <> orderId ->
  filter (Prisma.item_of_order other) (newItems orderId items n) = [].
Proof.
  intro Hne. revert n. induction items as [|item rest IH]; intro n; simpl; [reflexivity|].
  unfold Prisma.item_of_order at 1. simpl.
  destruct (Nat.eqb orderId other) eqn:E; [apply Nat.eqb_eq in E; congruence | apply IH].
Qed.

Lemma itemsOf_inserted (orderId : Id) (items : list CreateOrderItem) (s : Store) :
  itemsOf orderId (itemsInserted orderId items s)
  = itemsOf orderId s ++ newItems orderId items (nextId s).
Proof.
  unfold itemsOf, itemsInserted. simpl. rewrite filter_app, filter_newItems. reflexivity.
Qed.

Lemma length_newItems (orderId : Id) (items : list CreateOrderItem) (n : Id) :
  List.length (newItems orderId items n) = List.length items.
Proof.
  revert n. induction items as [|item rest IH]; intro n; simpl; [reflexivity|].
  rewrite IH. reflexivity.
Qed.

Lemma createOrder_runs (s : Store) (userId : Id) (data : CreateOrderData)
    (role : RoleType) (now : Date) :
  OrderService.createOrder userId data role now s =
  if negb (OrderService.hasPermission role ORDER_CREATE) then
    (s, Err (NoPermission ORDER_CREATE))
  else if channel_eqb (data_channel data) MESA && negb (truthy (data_tableId data)) then
    (s, Err TableIdRequired)
  else if tableOccupied data s then (s, Err TableHasActiveOrder)
  else if Nat.eqb (List.length (data_items data)) 0 then (s, Err OrderMustHaveItems)
  else
    (orderCreated userId data now s,
     Ok (mkOrderView (newOrder userId data now s)
           (map showItem (itemsOf (nextId s) (orderCreated userId data now s))))).
Proof.
  unfold OrderService.createOrder, tableOccupied.
  destruct (negb (OrderService.hasPermission role ORDER_CREATE)).
  { rewrite throwIf_fail by reflexivity. reflexivity. }
  rewrite throwIf_pass by reflexivity.
  destruct (channel_eqb (data_channel data) MESA && negb (truthy (data_tableId data)))%bool.
  { rewrite throwIf_fail by reflexivity. reflexivity. }
  rewrite throwIf_pass by reflexivity.
  assert (Hrest : forall s,
    (throwIf (Nat.eqb (List.length (data_items data)) 0) OrderMustHaveItems;;
     order <- Prisma.order_create RECIBIDO (data_channel data) (data_tableId data)
                (data_notes data) userId (data_items data) now;;
     AuditService.logOrderCreate userId (order_id order) (data_channel data);;
     OrderService.withItems order) s
    = if Nat.eqb (List.length (data_items data)) 0 then (s, Err OrderMustHaveItems)
      else (orderCreated userId data now s,
            Ok (mkOrderView (newOrder userId data now s)
                  (map showItem (itemsOf (nextId s) (orderCreated userId data now s)))))).
  { intro s0. destruct (Nat.eqb (List.length (data_items data)) 0).
    { rewrite throwIf_fail by reflexivity. reflexivity. }
    rewrite throwIf_pass by reflexivity.
    unfold Prisma.order_create. unfold bind at 1. unfold bind at 1. unfold freshId at 1.
    unfold bind at 1. unfold modify at 1.
    unfold bind at 1. rewrite createMany_runs. unfold ret at 1.
    unfold AuditService.logOrderCreate. rewrite bind_createLog.
    reflexivity. }
  destruct (data_tableId data) as [tableId|].
  - destruct (channel_eqb (data_channel data) MESA); cbn [andb].
    + unfold bind at 1. unfold bind at 1. unfold Prisma.order_findFirst, gets at 1.
      destruct (find (OrderService.activeOn tableId) (orders s)) eqn:Hactive;
        cbn [truthy throwIf].
      * reflexivity.
      * apply Hrest.
    + unfold bind at 1. unfold ret at 1. apply Hrest.
  - unfold bind at 1. unfold ret at 1. apply Hrest.
Qed.

Lemma waiter_createOrder_runs (s : Store) (userId : Id) (data : CreateOrderData)
    (role : RoleType) (now : Date) :
  WaiterService.createOrder userId data role now s =
  if negb (role_eqb role MESERO) then (s, Err OnlyMesero)
  else if channel_eqb (data_channel data) MESA && negb (truthy (data_tableId data)) then
    (s, Err TableIdRequired)
  else if tableOccupied data s then (s, Err TableHasActiveOrder)
  else if Nat.eqb (List.length (data_items data)) 0 then (s, Err OrderMustHaveItems)
  else
    (orderCreated userId data now s,
     Ok (WaiterService.toWaiterOrder
           (newOrder userId data now s,
            itemsOf (nextId s) (orderCreated userId data now s)))).
Proof.
  unfold WaiterService.createOrder, WaiterService.validateWaiterRole, tableOccupied.
  destruct (negb (role_eqb role MESERO)).
  { rewrite throwIf_fail by reflexivity. reflexivity. }
  rewrite throwIf_pass by reflexivity.
  destruct (channel_eqb (data_channel data) MESA && negb (truthy (data_tableId data)))%bool.
  { rewrite throwIf_fail by reflexivity. reflexivity. }
  rewrite throwIf_pass by reflexivity.
  assert (Hrest : forall s,
    (throwIf (Nat.eqb (List.length (data_items data)) 0) OrderMustHaveItems;;
     order <- Prisma.order_create RECIBIDO (data_channel data) (data_tableId data)
                (data_notes data) userId (data_items data) now;;
     AuditService.logOrderCreate userId (order_id order) (data_channel data);;
     items <- Prisma.items_of (order_id order);;
     ret (WaiterService.toWaiterOrder (order, items))) s
    = if Nat.eqb (List.length (data_items data)) 0 then (s, Err OrderMustHaveItems)
      else (orderCreated userId data now s,
            Ok (WaiterService.toWaiterOrder
                  (newOrder userId data now s,
                   itemsOf (nextId s) (orderCreated userId data now s))))).
  { intro s0. destruct (Nat.eqb (List.length (data_items data)) 0).
    { rewrite throwIf_fail by reflexivity. reflexivity. }
    rewrite throwIf_pass by reflexivity.
    unfold Prisma.order_create. unfold bind at 1. unfold bind at 1. unfold freshId at 1.
    unfold bind at 1. unfold modify at 1.
    unfold bind at 1. rewrite createMany_runs. unfold ret at 1.
    unfold AuditService.logOrderCreate. rewrite bind_createLog.
    reflexivity. }
  destruct (data_tableId data) as [tableId|].
  - destruct (channel_eqb (data_channel data) MESA); cbn [andb].
    + unfold bind at 1. unfold bind at 1. unfold Prisma.order_findFirst, gets at 1.
      destruct (find (OrderService.activeOn tableId) (orders s)) eqn:Hactive;
        cbn [truthy throwIf].
      * reflexivity.
      * apply Hrest.
    + unfold bind at 1. unfold ret at 1. apply Hrest.
  - unfold bind at 1. unfold ret at 1. apply Hrest.
Qed.

Lemma find_none_filter {A : Type} (p : A -> bool) (l : list A) :
  find p l = None -> filter p l = [].
Proof.
  induction l as [|x l IH]; simpl; [reflexivity|].
  destruct (p x); [discriminate | exact IH].
Qed.

(** X4.  A successful [createOrder] for a table found the table free and
    leaves it with exactly one active order, the new one, RECIBIDO and
    unpaid; no order is created without items. *)
Theorem createOrder_takes_a_free_table
    (s s' : Store) (userId tableId : Id) (data : CreateOrderData) (role : RoleType)
    (now : Date) (v : OrderView) :
  data_channel data = MESA ->
  data_tableId data = Some tableId ->
  OrderService.createOrder userId data role now s = (s', Ok v) ->
  activeOrdersOn tableId s = []
  /\ activeOrdersOn tableId s' = [view_order v]
  /\ order_status (view_order v) = RECIBIDO
  /\ order_paidAt (view_order v) = None
  /\ data_items data <> [].
Proof.
  intros Hch Htable Hrun. rewrite createOrder_runs in Hrun.
  unfold tableOccupied in Hrun. rewrite Hch, Htable in Hrun.
  destruct (negb (OrderService.hasPermission role ORDER_CREATE)); [discriminate|].
  cbn [channel_eqb ChannelType_beq truthy negb andb] in Hrun.
  destruct (find (OrderService.activeOn tableId) (orders s)) eqn:Hfree;
    cbn [truthy] in Hrun; [discriminate|].
  destruct (data_items data) as [|item rest] eqn:Hitems; [discriminate|].
  cbn [List.length Nat.eqb] in Hrun. inversion Hrun; subst s' v; clear Hrun.
  pose proof (find_none_filter _ _ Hfree) as Hnone.
  repeat apply conj.
  - exact Hnone.
  - unfold activeOrdersOn in *.
    change (orders (orderCreated userId data now s))
      with (orders s ++ [newOrder userId data now s]).
    rewrite filter_app, Hnone. cbn [filter app].
    unfold OrderService.activeOn, newOrder. cbn [order_tableId order_status order_paidAt].
    rewrite Htable, Nat.eqb_refl. reflexivity.
  - reflexivity.
  - reflexivity.
  - discriminate.
Qed.

(** Table 8 is free in the sample database. *)
Lemma createOrder_takes_a_free_table_witness :
  exists s' v,
    OrderService.createOrder Sample.waiter
      (mkCreateOrderData MESA (Some 8%nat) None [mkCreateOrderItem "Sopa" 1%Z 6 None])
      MESERO 130%Z Sample.db = (s', Ok v)
    /\ activeOrdersOn 8%nat s' = [view_order v].
Proof.
  do 2 eexists.
  assert (Hrun : OrderService.createOrder Sample.waiter
      (mkCreateOrderData MESA (Some 8%nat) None [mkCreateOrderItem "Sopa" 1%Z 6 None])
      MESERO 130%Z Sample.db = (_, Ok _)) by (vm_compute; reflexivity).
  split; [exact Hrun|].
  exact (proj1 (proj2 (createOrder_takes_a_free_table Sample.db _ Sample.waiter 8%nat
                         (mkCreateOrderData MESA (Some 8%nat) None
                            [mkCreateOrderItem "Sopa" 1%Z 6 None])
                         MESERO 130%Z _ eq_refl eq_refl Hrun))).
Defined.

Lemma addItems_runs (s : Store) (orderId userId : Id) (items : list CreateOrderItem)
    (role : RoleType) :
  OrderService.addItems orderId userId items role s =
  if negb (OrderService.hasPermission role ORDER_ADD_ITEMS) then
    (s, Err (NoPermission ORDER_ADD_ITEMS))
  else
    match lookup orderId s with
    | None => (s, Err OrderNotFound)
    | Some order =>
        if truthy (order_paidAt order) then (s, Err CannotModifyPaidOrder)
        else if status_eqb (order_status order) CANCELADO then
          (s, Err CannotAddItemsToCancelledOrder)
        else
          (itemsAdded orderId userId items s,
           Ok (viewFor role order (itemsOf orderId (itemsAdded orderId userId items s))))
    end.
Proof.
  unfold OrderService.addItems.
  destruct (negb (OrderService.hasPermission role ORDER_ADD_ITEMS)).
  { rewrite throwIf_fail by reflexivity. reflexivity. }
  rewrite throwIf_pass by reflexivity.
  rewrite bind_findUnique.
  destruct (lookup orderId s) as [order|] eqn:Hfound; [|reflexivity].
  unfold canModifyOrder, isNull. rewrite negb_involutive.
  destruct (truthy (order_paidAt order)).
  { rewrite throwIf_fail by reflexivity. reflexivity. }
  rewrite throwIf_pass by reflexivity.
  destruct (status_eqb (order_status order) CANCELADO).
  { rewrite throwIf_fail by reflexivity. reflexivity. }
  rewrite throwIf_pass by reflexivity.
  rewrite (bind_ok _ _ _ _ _ (createMany_runs orderId items s)).
  rewrite bind_createLog. fold (itemsAdded orderId userId items s).
  unfold OrderService.getOrderById. rewrite bind_findUnique.
  change (lookup orderId (itemsAdded orderId userId items s)) with (lookup orderId s).
  rewrite Hfound. unfold Prisma.items_of. rewrite bind_gets.
  unfold viewFor. destruct (role_eqb role COCINA); reflexivity.
Qed.

Lemma waiter_addItems_runs (s : Store) (orderId userId : Id)
    (items : list CreateOrderItem) (role : RoleType) :
  WaiterService.addItems orderId userId items role s =
  if negb (role_eqb role MESERO) then (s, Err OnlyMesero)
  else
    match lookup orderId s with
    | None => (s, Err OrderNotFound)
    | Some order =>
        if truthy (order_paidAt order) then (s, Err CannotModifyPaidOrder)
        else if status_eqb (order_status order) CANCELADO then
          (s, Err CannotAddItemsToCancelledOrder)
        else
          (itemsAdded orderId userId items s,
           Ok (WaiterService.toWaiterOrder
                 (order, itemsOf orderId (itemsAdded orderId userId items s))))
    end.
Proof.
  unfold WaiterService.addItems, WaiterService.validateWaiterRole.
  destruct (negb (role_eqb role MESERO)) eqn:Hrole.
  { rewrite throwIf_fail by reflexivity. reflexivity. }
  rewrite throwIf_pass by reflexivity.
  rewrite bind_findUnique.
  destruct (lookup orderId s) as [order|] eqn:Hfound; [|reflexivity].
  unfold canModifyOrder, isNull. rewrite negb_involutive.
  destruct (truthy (order_paidAt order)).
  { rewrite throwIf_fail by reflexivity. reflexivity. }
  rewrite throwIf_pass by reflexivity.
  destruct (status_eqb (order_status order) CANCELADO).
  { rewrite throwIf_fail by reflexivity. reflexivity. }
  rewrite throwIf_pass by reflexivity.
  rewrite (bind_ok _ _ _ _ _ (createMany_runs orderId items s)).
  rewrite bind_createLog. fold (itemsAdded orderId userId items s).
  unfold WaiterService.getOrderById, WaiterService.validateWaiterRole.
  rewrite throwIf_pass by exact Hrole.
  unfold KitchenService.findWithItems. rewrite bind_gets.
  change (find (Prisma.order_has_id orderId) (orders (itemsAdded orderId userId items s)))
    with (lookup orderId s).
  rewrite Hfound. cbn [option_map]. unfold OrderService.joinItems.
  rewrite (has_id_eq _ _ (find_has_id orderId (orders s) order Hfound)).
  reflexivity.
Qed.

(** X5.  A successful [addItems] appends the new lines after the items the
    order had, so that the total of the order is the sum carried on from
    the former total over the new lines, price times quantity added line
    after line, and leaves the orders, the payments and the items of every
    other order as they were.  Nothing is checked about the lines
    themselves. *)
Theorem addItems_appends
    (s s' : Store) (orderId userId : Id) (items : list CreateOrderItem)
    (role : RoleType) (v : OrderView) :
  OrderService.addItems orderId userId items role s = (s', Ok v) ->
  itemsOf orderId s' = itemsOf orderId s ++ newItems orderId items (nextId s)
  /\ List.length (view_items v)
     = (List.length (itemsOf orderId s) + List.length items)%nat
  /\ orderTotal orderId s' = addLines (orderTotal orderId s) items
  /\ orders s' = orders s /\ payments s' = payments s
  /\ (forall other, other <> orderId -> itemsOf other s' = itemsOf other s).
Proof.
  intro Hrun. rewrite addItems_runs in Hrun.
  destruct (negb (OrderService.hasPermission role ORDER_ADD_ITEMS)); [discriminate|].
  destruct (lookup orderId s) as [order|]; [|discriminate].
  destruct (truthy (order_paidAt order)); [discriminate|].
  destruct (status_eqb (order_status order) CANCELADO); [discriminate|].
  inversion Hrun; subst s' v; clear Hrun.
  assert (Hitems : itemsOf orderId (itemsAdded orderId userId items s)
                   = itemsOf orderId s ++ newItems orderId items (nextId s))
    by apply itemsOf_inserted.
  repeat apply conj.
  - exact Hitems.
  - rewrite Hitems. unfold viewFor.
    destruct (role_eqb role COCINA); cbn [view_items];
      rewrite length_map, length_app, length_newItems; reflexivity.
  - unfold orderTotal. rewrite Hitems. apply sumItems_inserted.
  - reflexivity.
  - reflexivity.
  - intros other Hne. unfold itemsOf, itemsAdded, itemsInserted. simpl.
    rewrite filter_app, (filter_newItems_other _ _ _ _ Hne). apply app_nil_r.
Qed.

(** The waiter adds a flan (4.00) to order 1. *)
Lemma addItems_appends_witness :
  exists s' v,
    OrderService.addItems 1%nat Sample.waiter
      [mkCreateOrderItem "Flan" 1%Z 4 None] MESERO Sample.db = (s', Ok v)
    /\ List.length (view_items v) = 3%nat
    /\ orderTotal 1%nat s' = 29.
Proof.
  do 2 eexists.
  assert (Hrun : OrderService.addItems 1%nat Sample.waiter
      [mkCreateOrderItem "Flan" 1%Z 4 None] MESERO Sample.db = (_, Ok _))
    by (vm_compute; reflexivity).
  split; [exact Hrun|].
  destruct (addItems_appends _ _ _ _ _ _ _ Hrun) as (_ & Hlen & Htotal & _).
  split; [exact Hlen|].
  rewrite Htotal. reflexivity.
Defined.

(** X6.  For a waiter, the waiter endpoints and the general order endpoints
    are the same request: [createOrder], [addItems] and [requestBill] of
    the waiter service leave the database that their namesakes of the
    order service leave, and fail exactly when they fail, with the same
    error. *)
Theorem waiter_endpoints_match_order_endpoints (s : Store) (userId orderId : Id)
    (data : CreateOrderData) (items : list CreateOrderItem) (now : Date) :
  outcome (WaiterService.createOrder userId data MESERO now) s
  = outcome (OrderService.createOrder userId data MESERO now) s
  /\ outcome (WaiterService.addItems orderId userId items MESERO) s
     = outcome (OrderService.addItems orderId userId items MESERO) s
  /\ outcome (WaiterService.requestBill orderId userId MESERO) s
     = outcome (OrderService.requestBill orderId userId MESERO) s.
Proof.
  unfold outcome. repeat apply conj.
  - rewrite waiter_createOrder_runs, createOrder_runs.
    cbn [role_eqb RoleType_beq negb OrderService.hasPermission ROLE_PERMISSIONS
         includes existsb permission_eqb Permission_beq orb].
    destruct (channel_eqb (data_channel data) MESA && negb (truthy (data_tableId data)))%bool;
      [reflexivity|].
    destruct (tableOccupied data s); [reflexivity|].
    destruct (Nat.eqb (List.length (data_items data)) 0); reflexivity.
  - rewrite waiter_addItems_runs, addItems_runs.
    cbn [role_eqb RoleType_beq negb OrderService.hasPermission ROLE_PERMISSIONS
         includes existsb permission_eqb Permission_beq orb].
    destruct (lookup orderId s) as [order|]; [|reflexivity].
    destruct (truthy (order_paidAt order)); [reflexivity|].
    destruct (status_eqb (order_status order) CANCELADO); reflexivity.
  - rewrite waiter_requestBill_runs, requestBill_runs.
    cbn [role_eqb RoleType_beq negb OrderService.hasPermission ROLE_PERMISSIONS
         includes existsb permission_eqb Permission_beq orb].
    destruct (lookup orderId s) as [order|]; [|reflexivity].
    destruct (truthy (order_paidAt order)); reflexivity.
Qed.

(* --------------------------------------------------------------------- *)
(** ** editItem and deleteItem                                            *)
(* --------------------------------------------------------------------- *)

Lemma find_item_updateWhere (id : Id) (p : OrderItem -> bool) (f : OrderItem -> OrderItem)
    (l : list OrderItem) :
  (forall i, item_id (f i) = item_id i) ->
  find (Prisma.item_has_id id) (updateWhere p f l)
  = option_map (fun i => if p i then f i else i) (find (Prisma.item_has_id id) l).
Proof.
  intro Hid. induction l as [|x l IH]; simpl; [reflexivity|].
  assert (E : Prisma.item_has_id id (if p x then f x else x) = Prisma.item_has_id id x).
  { unfold Prisma.item_has_id. destruct (p x); [rewrite Hid|]; reflexivity. }
  rewrite E. destruct (Prisma.item_has_id id x); [reflexivity | exact IH].
Qed.

Lemma find_weaken {A : Type} (p q : A -> bool) (l : list A) (x : A) :
  find (fun a => p a && q a)%bool l = Some x -> exists y, find p l = Some y.
Proof.
  induction l as [|a l IH]; simpl; [discriminate|].
  destruct (p a); simpl.
  - intros _. exists a. reflexivity.
  - exact IH.
Qed.

Lemma editItem_runs (s : Store) (orderId itemId userId : Id)
    (data : UpdateOrderItemData) (role : RoleType) :
  OrderService.editItem orderId itemId userId data role s =
  if negb (OrderService.hasPermission role ORDER_EDIT_ITEMS) then
    (s, Err (NoPermission ORDER_EDIT_ITEMS))
  else
    match lookup orderId s with
    | None => (s, Err OrderNotFound)
    | Some order =>
        if truthy (order_paidAt order) then (s, Err CannotModifyPaidOrder)
        else
          match find (fun i => Prisma.item_has_id itemId i
                               && Prisma.item_of_order orderId i)%bool (orderItems s),
                lookupItem itemId s with
          | Some _, Some target =>
              (itemEdited orderId itemId userId data s,
               Ok (Prisma.apply_patch data target))
          | _, _ => (s, Err ItemNotFoundInOrder)
          end
    end.
Proof.
  unfold OrderService.editItem.
  destruct (negb (OrderService.hasPermission role ORDER_EDIT_ITEMS)).
  { rewrite throwIf_fail by reflexivity. reflexivity. }
  rewrite throwIf_pass by reflexivity.
  rewrite bind_findUnique.
  destruct (lookup orderId s) as [order|] eqn:Hfound; [|reflexivity].
  unfold canModifyOrder, isNull. rewrite negb_involutive.
  destruct (truthy (order_paidAt order)).
  { rewrite throwIf_fail by reflexivity. reflexivity. }
  rewrite throwIf_pass by reflexivity.
  unfold Prisma.orderItem_findFirst. rewrite bind_gets.
  destruct (find (fun i => Prisma.item_has_id itemId i
                           && Prisma.item_of_order orderId i)%bool (orderItems s))
    as [item|] eqn:Hitem; [|reflexivity].
  destruct (find_weaken _ _ _ _ Hitem) as [target Htarget].
  unfold lookupItem. rewrite Htarget.
  unfold Prisma.orderItem_update. unfold bind at 1. rewrite bind_gets, Htarget.
  unfold bind at 1. unfold modify at 1. unfold ret at 1.
  rewrite bind_createLog. reflexivity.
Qed.

(** X7.  A successful [editItem] rewrites the target item only: the item keeps
    its identifier and its order, each of its other fields takes the value
    of the patch when the patch has one and keeps its own otherwise, and
    every other item, the orders and the payments are as they were. *)
Theorem editItem_patches_one_item
    (s s' : Store) (orderId itemId userId : Id) (data : UpdateOrderItemData)
    (role : RoleType) (updated : OrderItem) :
  OrderService.editItem orderId itemId userId data role s = (s', Ok updated) ->
  exists target,
    lookupItem itemId s = Some target
    /\ lookupItem itemId s' = Some updated
    /\ item_id updated = itemId /\ item_orderId updated = item_orderId target
    /\ item_productName updated
       = match patch_productName data with Some n => n | None => item_productName target end
    /\ item_quantity updated
       = match patch_quantity data with Some q => q | None => item_quantity target end
    /\ item_price updated
       = match patch_price data with Some p => p | None => item_price target end
    /\ item_notes updated
       = match patch_notes data with Some n => Some n | None => item_notes target end
    /\ (forall other, other <> itemId -> lookupItem other s' = lookupItem other s)
    /\ List.length (orderItems s') = List.length (orderItems s)
    /\ orders s' = orders s /\ payments s' = payments s.
Proof.
  intro Hrun. rewrite editItem_runs in Hrun.
  destruct (negb (OrderService.hasPermission role ORDER_EDIT_ITEMS)); [discriminate|].
  destruct (lookup orderId s) as [order|]; [|discriminate].
  destruct (truthy (order_paidAt order)); [discriminate|].
  destruct (find _ (orderItems s)) as [item|]; [|discriminate].
  destruct (lookupItem itemId s) as [target|] eqn:Htarget; [|discriminate].
  inversion Hrun; subst s' updated; clear Hrun.
  exists target.
  assert (Hid : Prisma.item_has_id itemId target = true).
  { unfold lookupItem in Htarget. apply find_some in Htarget. tauto. }
  repeat apply conj; try reflexivity.
  - unfold lookupItem, itemEdited. simpl.
    rewrite find_item_updateWhere by reflexivity.
    unfold lookupItem in Htarget. rewrite Htarget. simpl. rewrite Hid. reflexivity.
  - apply Nat.eqb_eq. exact Hid.
  - intros other Hne. unfold lookupItem, itemEdited. simpl.
    rewrite find_item_updateWhere by reflexivity.
    destruct (find (Prisma.item_has_id other) (orderItems s)) as [x|] eqn:Hx;
      [|reflexivity].
    simpl. apply find_some in Hx. destruct Hx as [_ Hx].
    unfold Prisma.item_has_id in *. apply Nat.eqb_eq in Hx.
    destruct (Nat.eqb (item_id x) itemId) eqn:E; [|reflexivity].
    apply Nat.eqb_eq in E. congruence.
  - unfold itemEdited, updateWhere. simpl. apply length_map.
Qed.

(** The cashier sets the quantity of the tacos of order 1 to 3. *)
Lemma editItem_patches_one_item_witness :
  exists s' updated,
    OrderService.editItem 1%nat 2%nat Sample.cashier
      (mkUpdateOrderItemData None (Some 3%Z) None None) CAJA Sample.db = (s', Ok updated)
    /\ item_quantity updated = 3%Z
    /\ item_price updated = item_price Sample.tacos
    /\ lookupItem 3%nat s' = Some Sample.agua.
Proof.
  do 2 eexists.
  assert (Hrun : OrderService.editItem 1%nat 2%nat Sample.cashier
      (mkUpdateOrderItemData None (Some 3%Z) None None) CAJA Sample.db = (_, Ok _))
    by (vm_compute; reflexivity).
  split; [exact Hrun|].
  destruct (editItem_patches_one_item _ _ _ _ _ _ _ _ Hrun)
    as (target & Ht & _ & _ & _ & _ & Hq & Hp & _ & Hother & _).
  vm_compute in Ht. inversion Ht; subst target.
  split; [exact Hq|]. split; [exact Hp|].
  rewrite Hother by discriminate. reflexivity.
Defined.

(** X8.  A successful [deleteItem] was asked by a caller holding the
    delete-items permission, on an unpaid order that had the item and at
    least one more; it removes the rows with that identifier and no other,
    and leaves the orders and the payments as they were. *)
Theorem deleteItem_removes_the_item
    (s s' : Store) (orderId itemId userId : Id) (role : RoleType) :
  OrderService.deleteItem orderId itemId userId role s = (s', Ok tt) ->
  role = CAJA
  /\ (exists order, lookup orderId s = Some order /\ order_paidAt order = None)
  /\ (exists item, In item (itemsOf orderId s) /\ item_id item = itemId)
  /\ (2 <= List.length (itemsOf orderId s))%nat
  /\ (forall x, In x (orderItems s') <-> In x (orderItems s) /\ item_id x <> itemId)
  /\ lookupItem itemId s' = None
  /\ orders s' = orders s /\ payments s' = payments s.
Proof.
  intro Hrun. rewrite deleteItem_runs in Hrun.
  destruct (negb (OrderService.hasPermission role ORDER_DELETE_ITEMS)) eqn:Hperm;
    [discriminate|].
  destruct (lookup orderId s) as [order|]; [|discriminate].
  destruct (truthy (order_paidAt order)) eqn:Hpaid; [discriminate|].
  destruct (find (Prisma.item_has_id itemId) (itemsOf orderId s)) as [item|] eqn:Hitem;
    [|discriminate].
  destruct (Nat.eqb (List.length (itemsOf orderId s)) 1) eqn:Hlen; [discriminate|].
  inversion Hrun; subst s'; clear Hrun.
  apply find_some in Hitem. destruct Hitem as [Hin Hid].
  assert (Hmem : forall x, In x (orderItems (itemDeleted orderId itemId userId s))
                           <-> In x (orderItems s) /\ item_id x <> itemId).
  { intro x. unfold itemDeleted, deleteWhere. simpl. rewrite filter_In.
    unfold Prisma.item_has_id. rewrite negb_true_iff, Nat.eqb_neq. reflexivity. }
  repeat apply conj.
  - apply hasPermission_ORDER_DELETE_ITEMS. apply negb_false_iff. exact Hperm.
  - exists order. split; [reflexivity|].
    destruct (order_paidAt order); [discriminate | reflexivity].
  - exists item. split; [exact Hin | apply Nat.eqb_eq; exact Hid].
  - destruct (itemsOf orderId s) as [|a [|b l]]; simpl in *;
      [contradiction | discriminate | lia].
  - exact Hmem.
  - unfold lookupItem.
    destruct (find (Prisma.item_has_id itemId)
                (orderItems (itemDeleted orderId itemId userId s))) as [x|] eqn:Hx;
      [|reflexivity].
    apply find_some in Hx. destruct Hx as [Hx Hxid].
    apply Hmem in Hx. apply Nat.eqb_eq in Hxid. tauto.
  - reflexivity.
  - reflexivity.
Qed.

(** The cashier deletes the water of order 1. *)
Lemma deleteItem_removes_the_item_witness :
  exists s',
    OrderService.deleteItem 1%nat 3%nat Sample.cashier CAJA Sample.db = (s', Ok tt)
    /\ lookupItem 3%nat s' = None
    /\ In Sample.tacos (orderItems s').
Proof.
  eexists.
  assert (Hrun : OrderService.deleteItem 1%nat 3%nat Sample.cashier CAJA Sample.db
                 = (_, Ok tt)) by (vm_compute; reflexivity).
  split; [exact Hrun|].
  destruct (deleteItem_removes_the_item _ _ _ _ _ _ Hrun)
    as (_ & _ & _ & _ & Hmem & Hgone & _).
  split; [exact Hgone|].
  apply Hmem. split; [left; reflexivity | discriminate].
Defined.

(* --------------------------------------------------------------------- *)
(** ** The requests that change the status                                *)
(* --------------------------------------------------------------------- *)

Lemma changeStatus_runs (s : Store) (orderId userId : Id) (newStatus : OrderStatus)
    (role : RoleType) :
  OrderService.changeStatus orderId userId newStatus role s =
  match lookup orderId s with
  | None => (s, Err OrderNotFound)
  | Some order =>
      if (truthy (order_paidAt order) && negb (status_eqb newStatus ENTREGADO))%bool then
        (s, Err CannotChangeStatusOfPaidOrder)
      else if negb (isValidStatusTransition (order_status order) newStatus) then
        (s, Err (InvalidStatusTransition (order_status order) newStatus))
      else if negb (OrderService.canChangeStatus role (order_status order) newStatus) then
        (s, Err (RoleCannotChangeStatus role (order_status order) newStatus))
      else
        (statusChanged orderId userId newStatus s,
         Ok (mkOrderView (set_status newStatus order)
               (map showItem (itemsOf (order_id order) s))))
  end.
Proof.
  rewrite changeStatus_reads.
  destruct (lookup orderId s) as [order|] eqn:Hfound; [|reflexivity].
  unfold OrderService.changeStatus_afterRead.
  destruct (truthy (order_paidAt order) && negb (status_eqb newStatus ENTREGADO))%bool.
  { rewrite throwIf_fail by reflexivity. reflexivity. }
  rewrite throwIf_pass by reflexivity.
  destruct (negb (isValidStatusTransition (order_status order) newStatus)).
  { rewrite throwIf_fail by reflexivity. reflexivity. }
  rewrite throwIf_pass by reflexivity.
  destruct (negb (OrderService.canChangeStatus role (order_status order) newStatus)).
  { rewrite throwIf_fail by reflexivity. reflexivity. }
  rewrite throwIf_pass by reflexivity.
  rewrite (bind_ok _ _ _ _ _ (order_update_found _ _ (set_status newStatus) _ Hfound)).
  unfold AuditService.logStatusChange. rewrite bind_createLog.
  reflexivity.
Qed.

Lemma inStatus_counted (s : Store) (orderId : Id) (from : OrderStatus) (order : Order) :
  lookup orderId s = Some order ->
  order_status order = from ->
  Nat.eqb (List.length (filter (inStatus orderId from) (orders s))) 0 = false.
Proof.
  intros Hfound Hst. unfold lookup in Hfound. apply find_some in Hfound.
  destruct Hfound as [Hin Hid].
  assert (Hin' : In order (filter (inStatus orderId from) (orders s))).
  { apply filter_In. split; [exact Hin|].
    unfold inStatus. rewrite Hid, Hst, status_eqb_refl. reflexivity. }
  destruct (filter (inStatus orderId from) (orders s)); [contradiction | reflexivity].
Qed.

Lemma lookup_advanced (s : Store) (orderId : Id) (from to : OrderStatus) (order : Order) :
  lookup orderId s = Some order ->
  order_status order = from ->
  find (Prisma.order_has_id orderId)
       (updateWhere (inStatus orderId from) (set_status to) (orders s))
  = Some (set_status to order).
Proof.
  intros Hfound Hst. rewrite find_updateWhere by reflexivity.
  unfold lookup in Hfound. rewrite Hfound. simpl.
  unfold inStatus. rewrite (find_has_id _ _ _ Hfound), Hst, status_eqb_refl. reflexivity.
Qed.

(** The body of the kitchen and waiter transactions on a row that is
    still in the status it was read in. *)
Lemma updateMany_advances (s : Store) (orderId : Id) (from to : OrderStatus) (order : Order) :
  lookup orderId s = Some order ->
  order_status order = from ->
  (count <- Prisma.order_updateMany
              (fun o => Prisma.order_has_id orderId o && status_eqb (order_status o) from)%bool
              (set_status to);;
   throwIf (Nat.eqb count 0) OrderStatusChanged;;
   KitchenService.findWithItems orderId) s
  = (set_orders (updateWhere (inStatus orderId from) (set_status to)) s,
     Ok (Some (set_status to order, itemsOf (order_id order) s))).
Proof.
  intros Hfound Hst.
  unfold Prisma.order_updateMany.
  unfold bind at 1. unfold bind at 1. unfold gets at 1.
  unfold bind at 1. unfold modify at 1. unfold ret at 1.
  fold (inStatus orderId from).
  rewrite throwIf_pass by (apply inStatus_counted with (order := order); assumption).
  unfold KitchenService.findWithItems, gets.
  cbn [orders set_orders].
  rewrite (lookup_advanced s orderId from to order Hfound Hst).
  reflexivity.
Qed.

Lemma advance_runs (s : Store) (from to : OrderStatus) (orderId userId : Id)
    (role : RoleType) :
  KitchenService.advance from to orderId userId role s =
  if negb (role_eqb role COCINA) then (s, Err OnlyCocina)
  else
    match lookup orderId s with
    | None => (s, Err OrderNotFound)
    | Some order =>
        if status_eqb (order_status order) CANCELADO then (s, Err KitchenOrderCancelled)
        else if status_eqb (order_status order) ENTREGADO then (s, Err KitchenOrderDelivered)
        else if truthy (order_paidAt order) then (s, Err KitchenOrderPaid)
        else if negb (status_eqb (order_status order) from) then
          (s, Err (UnexpectedCurrentStatus (order_status order) from))
        else if negb (isValidStatusTransition from to) then
          (s, Err (InvalidStatusTransition from to))
        else
          (statusAdvanced orderId userId from to s,
           Ok (KitchenService.toKitchenOrder
                 (set_status to order, itemsOf (order_id order) s)))
    end.
Proof.
  unfold KitchenService.advance, KitchenService.validateKitchenRole.
  destruct (negb (role_eqb role COCINA)).
  { rewrite throwIf_fail by reflexivity. reflexivity. }
  rewrite throwIf_pass by reflexivity.
  unfold bind at 1. unfold transaction. rewrite bind_findUnique.
  destruct (lookup orderId s) as [order|] eqn:Hfound; [|reflexivity].
  unfold KitchenService.advance_afterRead.
  destruct (status_eqb (order_status order) CANCELADO).
  { rewrite throwIf_fail by reflexivity. reflexivity. }
  rewrite throwIf_pass by reflexivity.
  destruct (status_eqb (order_status order) ENTREGADO).
  { rewrite throwIf_fail by reflexivity. reflexivity. }
  rewrite throwIf_pass by reflexivity.
  destruct (truthy (order_paidAt order)).
  { rewrite throwIf_fail by reflexivity. reflexivity. }
  rewrite throwIf_pass by reflexivity.
  destruct (status_eqb (order_status order) from) eqn:Hst; cbn [negb].
  2:{ rewrite throwIf_fail by reflexivity. reflexivity. }
  rewrite throwIf_pass by reflexivity.
  destruct (negb (isValidStatusTransition from to)).
  { rewrite throwIf_fail by reflexivity. reflexivity. }
  rewrite throwIf_pass by reflexivity.
  apply status_eqb_eq in Hst.
  rewrite (updateMany_advances s orderId from to order Hfound Hst).
  unfold AuditService.logStatusChange. rewrite bind_createLog. reflexivity.
Qed.

Lemma deliverOrder_runs (s : Store) (orderId userId : Id) (role : RoleType) :
  WaiterService.deliverOrder orderId userId role s =
  if negb (role_eqb role MESERO) then (s, Err OnlyMesero)
  else
    match lookup orderId s with
    | None => (s, Err OrderNotFound)
    | Some order =>
        if negb (status_eqb (order_status order) LISTO) then
          (s, Err (UnexpectedCurrentStatus (order_status order) LISTO))
        else
          (statusAdvanced orderId userId LISTO ENTREGADO s,
           Ok (WaiterService.toWaiterOrder
                 (set_status ENTREGADO order, itemsOf (order_id order) s)))
    end.
Proof.
  unfold WaiterService.deliverOrder, WaiterService.validateWaiterRole.
  destruct (negb (role_eqb role MESERO)).
  { rewrite throwIf_fail by reflexivity. reflexivity. }
  rewrite throwIf_pass by reflexivity.
  rewrite bind_findUnique.
  destruct (lookup orderId s) as [order|] eqn:Hfound; [|reflexivity].
  destruct (status_eqb (order_status order) LISTO) eqn:Hst; cbn [negb].
  2:{ rewrite throwIf_fail by reflexivity. reflexivity. }
  rewrite throwIf_pass by reflexivity.
  rewrite throwIf_pass by reflexivity.
  unfold bind at 1. unfold transaction. rewrite bind_findUnique, Hfound.
  unfold WaiterService.deliver_afterRead.
  rewrite throwIf_pass by (rewrite Hst; reflexivity).
  apply status_eqb_eq in Hst.
  rewrite (updateMany_advances s orderId LISTO ENTREGADO order Hfound Hst).
  unfold AuditService.logStatusChange. rewrite bind_createLog. reflexivity.
Qed.

(* --------------------------------------------------------------------- *)
(** ** Cash sessions                                                      *)
(* --------------------------------------------------------------------- *)

Lemma openSession_runs (s : Store) (userId : Id) (initialCash : float)
    (notes : option string) (role : RoleType) (now : Date) :
  CashService.openSession userId initialCash notes role now s =
  if negb (role_eqb role CAJA) then (s, Err OnlyCajaCash)
  else if truthy (activeSessionOf userId s) then (s, Err UserHasActiveSession)
  else if initialCash <? 0 then (s, Err CashCannotBeNegative)
  else (sessionOpened userId initialCash notes now s,
        Ok (newSession userId initialCash notes now s)).
Proof.
  unfold CashService.openSession.
  destruct (negb (role_eqb role CAJA)).
  { rewrite throwIf_fail by reflexivity. reflexivity. }
  rewrite throwIf_pass by reflexivity.
  unfold CashService.getActiveSession, Prisma.cashSession_findFirst.
  rewrite bind_gets. fold (openSessionsOf userId s). fold (activeSessionOf userId s).
  change (hd_error (orderBy (fun a b => Z.leb (session_openedAt b) (session_openedAt a))
                            (openSessionsOf userId s)))
    with (activeSessionOf userId s).
  destruct (truthy (activeSessionOf userId s)).
  { rewrite throwIf_fail by reflexivity. reflexivity. }
  rewrite throwIf_pass by reflexivity.
  destruct (initialCash <? 0).
  { rewrite throwIf_fail by reflexivity. reflexivity. }
  rewrite throwIf_pass by reflexivity.
  reflexivity.
Qed.

Lemma closeSession_runs (s : Store) (userId sessionId : Id) (finalCash : float)
    (notes : option string) (role : RoleType) (now : Date) :
  CashService.closeSession userId sessionId finalCash notes role now s =
  if negb (role_eqb role CAJA) then (s, Err OnlyCajaCash)
  else
    match lookupSession sessionId s with
    | None => (s, Err CashSessionNotFound)
    | Some session =>
        if negb (Nat.eqb (session_userId session) userId) then (s, Err NotSessionOwner)
        else if truthy (session_closedAt session) then (s, Err CashSessionAlreadyClosed)
        else if finalCash <? 0 then (s, Err CashCannotBeNegative)
        else (sessionClosed userId sessionId finalCash notes now s,
              Ok (CashService.close_data now finalCash notes session))
    end.
Proof.
  unfold CashService.closeSession.
  destruct (negb (role_eqb role CAJA)).
  { rewrite throwIf_fail by reflexivity. reflexivity. }
  rewrite throwIf_pass by reflexivity.
  unfold Prisma.cashSession_findUnique at 1. rewrite bind_gets.
  fold (lookupSession sessionId s).
  destruct (lookupSession sessionId s) as [session|] eqn:Hfound; [|reflexivity].
  destruct (negb (Nat.eqb (session_userId session) userId)).
  { rewrite throwIf_fail by reflexivity. reflexivity. }
  rewrite throwIf_pass by reflexivity.
  destruct (truthy (session_closedAt session)).
  { rewrite throwIf_fail by reflexivity. reflexivity. }
  rewrite throwIf_pass by reflexivity.
  destruct (finalCash <? 0).
  { rewrite throwIf_fail by reflexivity. reflexivity. }
  rewrite throwIf_pass by reflexivity.
  unfold Prisma.cashSession_update, Prisma.cashSession_findUnique.
  unfold bind at 1. rewrite bind_gets.
  unfold lookupSession in Hfound. rewrite Hfound.
  unfold bind at 1. unfold modify at 1. unfold ret at 1.
  unfold AuditService.logCashClose. rewrite bind_createLog. reflexivity.
Qed.

(* --------------------------------------------------------------------- *)
(** ** A request that fails has written nothing                           *)
(* --------------------------------------------------------------------- *)

Lemma cancelOrder_runs (s : Store) (orderId userId : Id) (reason : string)
    (role : RoleType) :
  OrderService.cancelOrder orderId userId reason role s =
  if negb (OrderService.hasPermission role ORDER_CANCEL) then
    (s, Err (NoPermission ORDER_CANCEL))
  else
    match lookup orderId s with
    | None => (s, Err OrderNotFound)
    | Some order =>
        if truthy (order_paidAt order) then (s, Err CannotCancelPaidOrder)
        else if status_eqb (order_status order) CANCELADO then (s, Err OrderAlreadyCancelled)
        else if OrderService.reasonMissing reason then (s, Err CancellationReasonRequired)
        else
          (set_auditLogs (fun l => l ++ [mkAuditLog userId (Some orderId) CANCEL])
             (set_cancelLogs (fun l => l ++ [mkCancelLog orderId reason userId])
                (set_orders (updateWhere (Prisma.order_has_id orderId)
                                         (set_status CANCELADO)) s)),
           Ok (set_status CANCELADO order))
    end.
Proof.
  destruct (lookup orderId s) as [order|] eqn:Hfound.
  - rewrite (cancelOrder_guards s orderId userId reason role order Hfound). reflexivity.
  - unfold OrderService.cancelOrder.
    destruct (negb (OrderService.hasPermission role ORDER_CANCEL)).
    { rewrite throwIf_fail by reflexivity. reflexivity. }
    rewrite throwIf_pass by reflexivity.
    rewrite bind_findUnique, Hfound. reflexivity.
Qed.

(** X9.  Every guard of every writing request is evaluated before its first
    write, and the writes that follow cannot fail: whenever one of the
    sixteen requests throws, the database is exactly the one it started
    from, audit log included. *)
Theorem failed_request_writes_nothing (c : Command) (s s' : Store) (e : Error) :
  execute c s = (s', Some e) -> s' = s.
Proof.
  destruct c; cbn [execute]; unfold outcome.
  - rewrite createOrder_runs.
    repeat match goal with
           | |- context [if ?b then _ else _] => destruct b
           end; intro H; inversion H; reflexivity.
  - rewrite addItems_runs.
    destruct (negb _); [intro H; inversion H; reflexivity|].
    destruct (lookup orderId s) as [order|]; [|intro H; inversion H; reflexivity].
    destruct (truthy _); [intro H; inversion H; reflexivity|].
    destruct (status_eqb _ _); intro H; inversion H; reflexivity.
  - rewrite editItem_runs.
    destruct (negb _); [intro H; inversion H; reflexivity|].
    destruct (lookup orderId s) as [order|]; [|intro H; inversion H; reflexivity].
    destruct (truthy _); [intro H; inversion H; reflexivity|].
    destruct (find _ _); [|intro H; inversion H; reflexivity].
    destruct (lookupItem itemId s); intro H; inversion H; reflexivity.
  - rewrite deleteItem_runs.
    destruct (negb _); [intro H; inversion H; reflexivity|].
    destruct (lookup orderId s) as [order|]; [|intro H; inversion H; reflexivity].
    destruct (truthy _); [intro H; inversion H; reflexivity|].
    destruct (find _ _); [|intro H; inversion H; reflexivity].
    destruct (Nat.eqb _ _); intro H; inversion H; reflexivity.
  - rewrite changeStatus_runs.
    destruct (lookup orderId s) as [order|]; [|intro H; inversion H; reflexivity].
    destruct (_ && _)%bool; [intro H; inversion H; reflexivity|].
    destruct (negb _); [intro H; inversion H; reflexivity|].
    destruct (negb _); intro H; inversion H; reflexivity.
  - rewrite cancelOrder_runs.
    destruct (negb _); [intro H; inversion H; reflexivity|].
    destruct (lookup orderId s) as [order|]; [|intro H; inversion H; reflexivity].
    destruct (truthy _); [intro H; inversion H; reflexivity|].
    destruct (status_eqb _ _); [intro H; inversion H; reflexivity|].
    destruct (OrderService.reasonMissing reason); intro H; inversion H; reflexivity.
  - rewrite requestBill_runs.
    destruct (negb _); [intro H; inversion H; reflexivity|].
    destruct (lookup orderId s) as [order|]; [|intro H; inversion H; reflexivity].
    destruct (truthy _); intro H; inversion H; reflexivity.
  - rewrite createPayment_runs. cbv zeta.
    destruct (negb _); [intro H; inversion H; reflexivity|].
    destruct (negb _); [intro H; inversion H; reflexivity|].
    destruct (anyActiveSession s); [|intro H; inversion H; reflexivity].
    destruct (lookup (pay_orderId data) s) as [order|]; [|intro H; inversion H; reflexivity].
    destruct (status_eqb _ _); [intro H; inversion H; reflexivity|].
    destruct (truthy _); [intro H; inversion H; reflexivity|].
    destruct (_ <=? _); [intro H; inversion H; reflexivity|].
    destruct (_ <? _); [intro H; inversion H; reflexivity|].
    destruct (withinTolerance _ _ _); intro H; inversion H.
  - unfold KitchenService.startPreparation. rewrite advance_runs.
    destruct (negb _); [intro H; inversion H; reflexivity|].
    destruct (lookup orderId s) as [order|]; [|intro H; inversion H; reflexivity].
    destruct (status_eqb _ CANCELADO); [intro H; inversion H; reflexivity|].
    destruct (status_eqb _ ENTREGADO); [intro H; inversion H; reflexivity|].
    destruct (truthy _); [intro H; inversion H; reflexivity|].
    destruct (negb _); [intro H; inversion H; reflexivity|].
    cbn [isValidStatusTransition VALID_STATUS_TRANSITIONS includes existsb status_eqb
         OrderStatus_beq orb negb].
    intro H; inversion H.
  - unfold KitchenService.markReady. rewrite advance_runs.
    destruct (negb _); [intro H; inversion H; reflexivity|].
    destruct (lookup orderId s) as [order|]; [|intro H; inversion H; reflexivity].
    destruct (status_eqb _ CANCELADO); [intro H; inversion H; reflexivity|].
    destruct (status_eqb _ ENTREGADO); [intro H; inversion H; reflexivity|].
    destruct (truthy _); [intro H; inversion H; reflexivity|].
    destruct (negb _); [intro H; inversion H; reflexivity|].
    cbn [isValidStatusTransition VALID_STATUS_TRANSITIONS includes existsb status_eqb
         OrderStatus_beq orb negb].
    intro H; inversion H.
  - rewrite waiter_createOrder_runs.
    repeat match goal with
           | |- context [if ?b then _ else _] => destruct b
           end; intro H; inversion H; reflexivity.
  - rewrite waiter_addItems_runs.
    destruct (negb _); [intro H; inversion H; reflexivity|].
    destruct (lookup orderId s) as [order|]; [|intro H; inversion H; reflexivity].
    destruct (truthy _); [intro H; inversion H; reflexivity|].
    destruct (status_eqb _ _); intro H; inversion H; reflexivity.
  - rewrite deliverOrder_runs.
    destruct (negb _); [intro H; inversion H; reflexivity|].
    destruct (lookup orderId s) as [order|]; [|intro H; inversion H; reflexivity].
    destruct (negb _); intro H; inversion H; reflexivity.
  - rewrite waiter_requestBill_runs.
    destruct (negb _); [intro H; inversion H; reflexivity|].
    destruct (lookup orderId s) as [order|]; [|intro H; inversion H; reflexivity].
    destruct (truthy _); intro H; inversion H; reflexivity.
  - rewrite openSession_runs.
    destruct (negb _); [intro H; inversion H; reflexivity|].
    destruct (truthy _); [intro H; inversion H; reflexivity|].
    destruct (_ <? _); intro H; inversion H; reflexivity.
  - rewrite closeSession_runs.
    destruct (negb _); [intro H; inversion H; reflexivity|].
    destruct (lookupSession sessionId s); [|intro H; inversion H; reflexivity].
    destruct (negb _); [intro H; inversion H; reflexivity|].
    destruct (truthy _); [intro H; inversion H; reflexivity|].
    destruct (_ <? _); intro H; inversion H; reflexivity.
Qed.

(** The kitchen's attempt to start an order that is already LISTO. *)
Lemma failed_request_writes_nothing_witness :
  exists s',
    execute (KitchenStart 1%nat Sample.cook COCINA) (Sample.dbIn LISTO)
    = (s', Some (UnexpectedCurrentStatus LISTO RECIBIDO))
    /\ s' = Sample.dbIn LISTO.
Proof.
  eexists. split; [vm_compute; reflexivity|].
  apply (failed_request_writes_nothing (KitchenStart 1%nat Sample.cook COCINA) _ _
           (UnexpectedCurrentStatus LISTO RECIBIDO)).
  vm_compute. reflexivity.
Defined.

(* --------------------------------------------------------------------- *)
(** ** What one request does to the orders table                          *)
(* --------------------------------------------------------------------- *)

(** The orders table after a request is the table before, or the table
    with one row appended, or the table with the rows of the target
    order rewritten by a function that keeps the identifier and moves the
    status by a [statusStep]. *)
Lemma execute_orders_shape (c : Command) (s : Store) :
  orders (fst (execute c s)) = orders s
  \/ (exists o, orders (fst (execute c s)) = orders s ++ [o])
  \/ (exists t p f,
        target c = Some t
        /\ orders (fst (execute c s)) = updateWhere p f (orders s)
        /\ (forall x, p x = true -> Prisma.order_has_id t x = true)
        /\ (forall x, order_id (f x) = order_id x)
        /\ (forall x, lookup t s = Some x -> p x = true ->
                      statusStep c (order_status x) (order_status (f x)))).
Proof.
  assert (Hand : forall a b, (a && b)%bool = true -> a = true)
    by (intros a b H; apply andb_true_iff in H; tauto).
  destruct c; cbn [execute]; rewrite fst_outcome.
  - rewrite createOrder_runs.
    repeat match goal with
           | |- context [if ?b then _ else _] => destruct b
           end; try (left; reflexivity).
    right; left. eexists. reflexivity.
  - rewrite addItems_runs.
    repeat match goal with
           | |- context [match ?b with _ => _ end] => destruct b
           end; left; reflexivity.
  - rewrite editItem_runs.
    repeat match goal with
           | |- context [match ?b with _ => _ end] => destruct b
           end; left; reflexivity.
  - rewrite deleteItem_runs.
    repeat match goal with
           | |- context [match ?b with _ => _ end] => destruct b
           end; left; reflexivity.
  - rewrite changeStatus_runs.
    destruct (lookup orderId s) as [order|] eqn:Hfound; [|left; reflexivity].
    destruct (_ && _)%bool; [left; reflexivity|].
    destruct (isValidStatusTransition (order_status order) newStatus) eqn:Hvalid;
      cbn [negb]; [|left; reflexivity].
    destruct (negb _); [left; reflexivity|].
    right; right. exists orderId, (Prisma.order_has_id orderId), (set_status newStatus).
    repeat apply conj; try reflexivity; try tauto.
    intros x Hx _. rewrite Hfound in Hx. injection Hx as Hx. subst x. right; left. exact Hvalid.
  - rewrite cancelOrder_runs.
    destruct (negb _); [left; reflexivity|].
    destruct (lookup orderId s) as [order|] eqn:Hfound; [|left; reflexivity].
    destruct (truthy _); [left; reflexivity|].
    destruct (status_eqb (order_status order) CANCELADO) eqn:Hst; [left; reflexivity|].
    destruct (OrderService.reasonMissing reason); [left; reflexivity|].
    right; right. exists orderId, (Prisma.order_has_id orderId), (set_status CANCELADO).
    repeat apply conj; try reflexivity; try tauto.
    intros x Hx _. rewrite Hfound in Hx. injection Hx as Hx. subst x. cbn [set_status order_status].
    destruct (order_status order); try discriminate Hst.
    + right; left; reflexivity.
    + right; left; reflexivity.
    + right; left; reflexivity.
    + right; right. repeat split.
  - rewrite requestBill_runs.
    destruct (negb _); [left; reflexivity|].
    destruct (lookup orderId s) as [order|]; [|left; reflexivity].
    destruct (truthy _); [left; reflexivity|].
    right; right. exists orderId, (Prisma.order_has_id orderId), (set_requestedBill true).
    repeat apply conj; try reflexivity; try tauto.
    intros x _ _. left. reflexivity.
  - rewrite createPayment_runs. cbv zeta.
    destruct (negb _); [left; reflexivity|].
    destruct (negb _); [left; reflexivity|].
    destruct (anyActiveSession s); [|left; reflexivity].
    destruct (lookup (pay_orderId data) s) as [order|]; [|left; reflexivity].
    destruct (status_eqb _ _); [left; reflexivity|].
    destruct (truthy _); [left; reflexivity|].
    destruct (_ <=? _); [left; reflexivity|].
    destruct (_ <? _); [left; reflexivity|].
    destruct (withinTolerance _ _ _); [|left; reflexivity].
    right; right.
    exists (pay_orderId data), (Prisma.order_has_id (pay_orderId data)),
           (set_paidAt (Some now)).
    repeat apply conj; try reflexivity; try tauto.
    intros x _ _. left. reflexivity.
  - unfold KitchenService.startPreparation. rewrite advance_runs.
    destruct (negb _); [left; reflexivity|].
    destruct (lookup orderId s) as [order|]; [|left; reflexivity].
    destruct (status_eqb _ CANCELADO); [left; reflexivity|].
    destruct (status_eqb _ ENTREGADO); [left; reflexivity|].
    destruct (truthy _); [left; reflexivity|].
    destruct (negb _); [left; reflexivity|].
    cbn [isValidStatusTransition VALID_STATUS_TRANSITIONS includes existsb status_eqb
         OrderStatus_beq orb negb].
    right; right. exists orderId, (inStatus orderId RECIBIDO), (set_status PREPARACION).
    repeat apply conj; try reflexivity.
    + intros x Hx. exact (Hand _ _ Hx).
    + intros x _ Hx. unfold inStatus in Hx. apply andb_true_iff in Hx.
      destruct Hx as [_ Hx]. apply status_eqb_eq in Hx. rewrite Hx.
      right; left. reflexivity.
  - unfold KitchenService.markReady. rewrite advance_runs.
    destruct (negb _); [left; reflexivity|].
    destruct (lookup orderId s) as [order|]; [|left; reflexivity].
    destruct (status_eqb _ CANCELADO); [left; reflexivity|].
    destruct (status_eqb _ ENTREGADO); [left; reflexivity|].
    destruct (truthy _); [left; reflexivity|].
    destruct (negb _); [left; reflexivity|].
    cbn [isValidStatusTransition VALID_STATUS_TRANSITIONS includes existsb status_eqb
         OrderStatus_beq orb negb].
    right; right. exists orderId, (inStatus orderId PREPARACION), (set_status LISTO).
    repeat apply conj; try reflexivity.
    + intros x Hx. exact (Hand _ _ Hx).
    + intros x _ Hx. unfold inStatus in Hx. apply andb_true_iff in Hx.
      destruct Hx as [_ Hx]. apply status_eqb_eq in Hx. rewrite Hx.
      right; left. reflexivity.
  - rewrite waiter_createOrder_runs.
    repeat match goal with
           | |- context [if ?b then _ else _] => destruct b
           end; try (left; reflexivity).
    right; left. eexists. reflexivity.
  - rewrite waiter_addItems_runs.
    repeat match goal with
           | |- context [match ?b with _ => _ end] => destruct b
           end; left; reflexivity.
  - rewrite deliverOrder_runs.
    destruct (negb _); [left; reflexivity|].
    destruct (lookup orderId s) as [order|]; [|left; reflexivity].
    destruct (negb _); [left; reflexivity|].
    right; right. exists orderId, (inStatus orderId LISTO), (set_status ENTREGADO).
    repeat apply conj; try reflexivity.
    + intros x Hx. exact (Hand _ _ Hx).
    + intros x _ Hx. unfold inStatus in Hx. apply andb_true_iff in Hx.
      destruct Hx as [_ Hx]. apply status_eqb_eq in Hx. rewrite Hx.
      right; left. reflexivity.
  - rewrite waiter_requestBill_runs.
    destruct (negb _); [left; reflexivity|].
    destruct (lookup orderId s) as [order|]; [|left; reflexivity].
    destruct (truthy _); [left; reflexivity|].
    right; right. exists orderId, (Prisma.order_has_id orderId), (set_requestedBill true).
    repeat apply conj; try reflexivity; try tauto.
    intros x _ _. left. reflexivity.
  - rewrite openSession_runs.
    repeat match goal with
           | |- context [if ?b then _ else _] => destruct b
           end; left; reflexivity.
  - rewrite closeSession_runs.
    repeat match goal with
           | |- context [match ?b with _ => _ end] => destruct b
           end; left; reflexivity.
Qed.

Lemma status_moves_by_a_step (c : Command) (s : Store) (orderId : Id) (order : Order) :
  lookup orderId s = Some order ->
  exists order',
    lookup orderId (fst (execute c s)) = Some order'
    /\ statusStep c (order_status order) (order_status order').
Proof.
  intro Hfound. unfold lookup in *.
  destruct (execute_orders_shape c s)
    as [E | [[o E] | (t & p & f & Ht & E & Hp & Hid & Hstep)]]; rewrite E.
  - exists order. split; [exact Hfound | left; reflexivity].
  - exists order. split; [apply find_append; exact Hfound | left; reflexivity].
  - rewrite find_updateWhere by exact Hid. rewrite Hfound. cbn [option_map].
    eexists. split; [reflexivity|].
    destruct (p order) eqn:Hpo; [|left; reflexivity].
    apply Hstep; [|exact Hpo].
    pose proof (has_id_eq _ _ (Hp order Hpo)) as Ht'.
    pose proof (has_id_eq _ _ (find_has_id _ _ _ Hfound)) as Ho.
    unfold lookup. rewrite <- Ht', Ho. exact Hfound.
Qed.

(** X10.  Through any sequence of requests the status of an order never moves
    backwards along the lifecycle: it stays, follows an edge of the
    transition table, or goes from ENTREGADO to CANCELADO through
    [cancelOrder].  In particular an order that is CANCELADO stays
    CANCELADO, and an order that is ENTREGADO stays ENTREGADO or becomes
    CANCELADO. *)
Theorem status_never_goes_back (cs : list Command) (s : Store) (orderId : Id)
    (order : Order) :
  lookup orderId s = Some order ->
  exists order',
    lookup orderId (executeAll cs s) = Some order'
    /\ (statusRank (order_status order) <= statusRank (order_status order'))%nat
    /\ (order_status order = CANCELADO -> order_status order' = CANCELADO)
    /\ (order_status order = ENTREGADO ->
        order_status order' = ENTREGADO \/ order_status order' = CANCELADO).
Proof.
  revert s order. induction cs as [|c cs IH]; intros s order Hfound.
  - exists order. repeat split; [exact Hfound | lia | tauto | tauto].
  - destruct (status_moves_by_a_step c s orderId order Hfound) as (mid & Hmid & Hstep).
    destruct (IH _ mid Hmid) as (order' & Hfound' & Hrank & Hcancel & Hdeliver).
    exists order'. split; [exact Hfound'|].
    destruct Hstep as [Heq | [Hvalid | (Hfrom & Hto & _)]].
    + rewrite Heq. repeat split; assumption.
    + pose proof (valid_edge_climbs _ _ Hvalid) as Hclimb.
      split; [lia|]. split; intro Hst; rewrite Hst in Hvalid; discriminate Hvalid.
    + rewrite Hfrom. split; [rewrite Hto in Hrank; exact Hrank|].
      split; [discriminate|]. intros _. right. apply Hcancel. exact Hto.
Qed.

(** Order 1, cancelled, through a kitchen start, a status change and a
    second cancellation. *)
Lemma status_never_goes_back_witness :
  exists order',
    lookup 1%nat
      (executeAll [ KitchenStart 1%nat Sample.cook COCINA;
                    OrderChangeStatus 1%nat Sample.cashier PREPARACION CAJA;
                    OrderCancel 1%nat Sample.cashier "otra vez" CAJA ]
                  (Sample.dbIn CANCELADO)) = Some order'
    /\ order_status order' = CANCELADO.
Proof.
  destruct (status_never_goes_back
              [ KitchenStart 1%nat Sample.cook COCINA;
                OrderChangeStatus 1%nat Sample.cashier PREPARACION CAJA;
                OrderCancel 1%nat Sample.cashier "otra vez" CAJA ]
              (Sample.dbIn CANCELADO) 1%nat (set_status CANCELADO Sample.order1) eq_refl)
    as (order' & Hfound & _ & Hcancel & _).
  exists order'. split; [exact Hfound | exact (Hcancel eq_refl)].
Defined.

(* --------------------------------------------------------------------- *)
(** ** Payments are only ever added                                       *)
(* --------------------------------------------------------------------- *)

Lemma execute_payments_shape (c : Command) (s : Store) :
  payments (fst (execute c s)) = payments s
  \/ (exists p,
        payments (fst (execute c s)) = payments s ++ [p]
        /\ target c = Some (payment_orderId p)
        /\ (payment_amount p <=? 0) = false).
Proof.
  destruct c; cbn [execute]; rewrite fst_outcome;
    try (first [ rewrite createOrder_runs | rewrite addItems_runs | rewrite editItem_runs
               | rewrite deleteItem_runs | rewrite changeStatus_runs
               | rewrite cancelOrder_runs | rewrite requestBill_runs
               | unfold KitchenService.startPreparation; rewrite advance_runs
               | unfold KitchenService.markReady; rewrite advance_runs
               | rewrite waiter_createOrder_runs | rewrite waiter_addItems_runs
               | rewrite deliverOrder_runs | rewrite waiter_requestBill_runs
               | rewrite openSession_runs | rewrite closeSession_runs ];
         repeat match goal with
                | |- context [match ?b with _ => _ end] => destruct b
                end; left; reflexivity).
  rewrite createPayment_runs. cbv zeta.
  destruct (negb _); [left; reflexivity|].
  destruct (negb _); [left; reflexivity|].
  destruct (anyActiveSession s) as [session|]; [|left; reflexivity].
  destruct (lookup (pay_orderId data) s) as [order|]; [|left; reflexivity].
  destruct (status_eqb _ _); [left; reflexivity|].
  destruct (truthy _); [left; reflexivity|].
  destruct (pay_amount data <=? 0) eqn:Hamount; [left; reflexivity|].
  destruct (_ <? _); [left; reflexivity|].
  destruct (withinTolerance _ _ _); right;
    exists (newPayment userId data session now s); repeat split; exact Hamount.
Qed.

Lemma sumPayments_app (l l' : list Payment) :
  sumPayments (l ++ l') = addPayments (sumPayments l) l'.
Proof. unfold sumPayments, addPayments. apply fold_left_app. Qed.

Lemma addPayments_not_below (l : list Payment) (x z : float) :
  SFnonneg (Prim2SF x) = true ->
  Forall (fun p => aboveZeroOrNaN (payment_amount p)) l ->
  (x <? z) = false ->
  (addPayments x l <? z) = false /\ SFnonneg (Prim2SF (addPayments x l)) = true.
Proof.
  revert x. induction l as [|p l IH]; intros x Hx Hl Hxz; [split; assumption|].
  inversion Hl as [|? ? Hp Hl']; subst.
  destruct (add_not_below x (payment_amount p) z Hx Hp Hxz) as [Hz Hnn].
  apply (IH _ Hnn Hl' Hz).
Qed.

(** X11.  Payments are never modified nor deleted: through any sequence of
    requests the payments table only grows at its end, by payments whose
    amount passed the [amount <= 0] test (it is above zero, or NaN), so
    that the total paid on an order is the former total carried on over
    the payments added to that order, in the order in which they were
    made; and when the payments already there had passed that test too,
    the total paid on an order never computes to less than it was. *)
Theorem payments_only_grow (cs : list Command) (s : Store) :
  exists added,
    payments (executeAll cs s) = payments s ++ added
    /\ Forall (fun p => aboveZeroOrNaN (payment_amount p)) added
    /\ (forall orderId,
          paidTotal orderId (executeAll cs s)
          = addPayments (paidTotal orderId s)
                        (filter (Prisma.payment_of_order orderId) added))
    /\ (Forall (fun p => aboveZeroOrNaN (payment_amount p)) (payments s) ->
        forall orderId,
          (paidTotal orderId (executeAll cs s) <? paidTotal orderId s) = false).
Proof.
  assert (Hgrow : exists added,
            payments (executeAll cs s) = payments s ++ added
            /\ Forall (fun p => (payment_amount p <=? 0) = false) added).
  { revert s. induction cs as [|c cs IH]; intro s.
    - exists []. split; [symmetry; apply app_nil_r | constructor].
    - cbn [executeAll fold_left]. destruct (IH (fst (execute c s))) as (added & E & Hpos).
      unfold executeAll in E. rewrite E.
      destruct (execute_payments_shape c s) as [Es | (p & Es & _ & Hp)]; rewrite Es.
      + exists added. split; [reflexivity | exact Hpos].
      + exists (p :: added). split; [rewrite <- app_assoc; reflexivity|].
        constructor; assumption. }
  destruct Hgrow as (added & E & Hguard).
  assert (Hpos : Forall (fun p => aboveZeroOrNaN (payment_amount p)) added).
  { eapply Forall_impl; [|exact Hguard]. intros p Hp. apply leb_zero_false. exact Hp. }
  assert (Hsum : forall orderId,
            paidTotal orderId (executeAll cs s)
            = addPayments (paidTotal orderId s)
                          (filter (Prisma.payment_of_order orderId) added)).
  { intro orderId. unfold paidTotal. rewrite E, filter_app. apply sumPayments_app. }
  exists added. split; [exact E|]. split; [exact Hpos|]. split; [exact Hsum|].
  intros Hold orderId. rewrite Hsum.
  assert (Hfilter : forall l, Forall (fun p => aboveZeroOrNaN (payment_amount p)) l ->
            Forall (fun p => aboveZeroOrNaN (payment_amount p))
                   (filter (Prisma.payment_of_order orderId) l)).
  { intros l Hl. apply Forall_forall. intros p Hin. apply filter_In in Hin.
    rewrite Forall_forall in Hl. apply Hl. tauto. }
  assert (Hnn : SFnonneg (Prim2SF (paidTotal orderId s)) = true).
  { unfold paidTotal, sumPayments. fold (addPayments 0 (filter (Prisma.payment_of_order orderId) (payments s))).
    apply (addPayments_not_below _ 0 0); [reflexivity | apply Hfilter; exact Hold|].
    apply ltb_irrefl. }
  apply addPayments_not_below; [exact Hnn | apply Hfilter; exact Hpos | apply ltb_irrefl].
Qed.

(** Two payments on the sample order, which had none. *)
Lemma payments_only_grow_witness :
  (paidTotal 1%nat
     (executeAll
        [ PaymentCreate Sample.cashier
            (mkCreatePaymentData 1%nat EFECTIVO 10 None None) CAJA 200%Z;
          PaymentCreate Sample.cashier
            (mkCreatePaymentData 1%nat TARJETA 15 None None) CAJA 210%Z ]
        Sample.db)
   <? paidTotal 1%nat Sample.db) = false.
Proof.
  destruct (payments_only_grow
              [ PaymentCreate Sample.cashier
                  (mkCreatePaymentData 1%nat EFECTIVO 10 None None) CAJA 200%Z;
                PaymentCreate Sample.cashier
                  (mkCreatePaymentData 1%nat TARJETA 15 None None) CAJA 210%Z ]
              Sample.db) as (added & _ & _ & _ & Hmono).
  apply Hmono. constructor.
Defined.

(** X12.  A request aimed at one order leaves every other order as it was: the
    row, and the total paid. *)
Theorem other_orders_are_untouched (c : Command) (s : Store) (orderId : Id)
    (order : Order) :
  lookup orderId s = Some order ->
  target c <> Some orderId ->
  lookup orderId (fst (execute c s)) = Some order
  /\ paidTotal orderId (fst (execute c s)) = paidTotal orderId s.
Proof.
  intros Hfound Hother. split.
  - unfold lookup in *.
    destruct (execute_orders_shape c s)
      as [E | [[o E] | (t & p & f & Ht & E & Hp & Hid & _)]]; rewrite E.
    + exact Hfound.
    + apply find_append. exact Hfound.
    + rewrite find_updateWhere by exact Hid. rewrite Hfound. cbn [option_map].
      destruct (p order) eqn:Hpo; [|reflexivity].
      exfalso. apply Hother. rewrite Ht. f_equal.
      pose proof (has_id_eq _ _ (Hp order Hpo)).
      pose proof (has_id_eq _ _ (find_has_id _ _ _ Hfound)). congruence.
  - unfold paidTotal.
    destruct (execute_payments_shape c s) as [E | (p & E & Ht & _)]; rewrite E.
    + reflexivity.
    + rewrite filter_app. cbn [filter].
      unfold Prisma.payment_of_order at 2.
      destruct (Nat.eqb (payment_orderId p) orderId) eqn:Hp.
      * exfalso. apply Hother. rewrite Ht. f_equal. apply Nat.eqb_eq. exact Hp.
      * rewrite app_nil_r. reflexivity.
Qed.

(** Order 1 while the cashier cancels order 5. *)
Lemma other_orders_are_untouched_witness :
  lookup 1%nat
    (fst (execute (OrderCancel 5%nat Sample.cashier "error" CAJA) Sample.dbSingle))
  = Some Sample.order1.
Proof.
  apply (other_orders_are_untouched (OrderCancel 5%nat Sample.cashier "error" CAJA)
           Sample.dbSingle 1%nat Sample.order1 eq_refl).
  discriminate.
Defined.

(* --------------------------------------------------------------------- *)
(** ** orderBy                                                            *)
(* --------------------------------------------------------------------- *)

Section OrderBy.

Context {A : Type}.
Variable leb : A -> A -> bool.

Lemma insertBy_perm (x : A) (l : list A) : Permutation (insertBy leb x l) (x :: l).
Proof.
  induction l as [|y l IH]; simpl; [reflexivity|].
  destruct (leb x y); [reflexivity|].
  rewrite IH. apply perm_swap.
Qed.

Lemma orderBy_perm (l : list A) : Permutation (orderBy leb l) l.
Proof.
  induction l as [|x l IH]; simpl; [reflexivity|].
  unfold orderBy in *. simpl. rewrite insertBy_perm. constructor. exact IH.
Qed.

Lemma orderBy_In (x : A) (l : list A) : In x (orderBy leb l) <-> In x l.
Proof.
  split; apply Permutation_in; [|symmetry]; apply orderBy_perm.
Qed.

Lemma orderBy_nil (l : list A) : hd_error (orderBy leb l) = None <-> l = [].
Proof.
  split.
  - intro H. destruct (orderBy leb l) as [|h t] eqn:E; [|discriminate].
    apply Permutation_nil. rewrite <- E. apply orderBy_perm.
  - intro H. subst l. reflexivity.
Qed.

Hypothesis leb_total : forall a b, leb a b = true \/ leb b a = true.
Hypothesis leb_trans : forall a b c, leb a b = true -> leb b c = true -> leb a c = true.

Lemma insertBy_sorted (x : A) (l : list A) :
  StronglySorted (fun a b => leb a b = true) l ->
  StronglySorted (fun a b => leb a b = true) (insertBy leb x l).
Proof.
  induction l as [|y l IH]; simpl; intro H.
  - constructor; constructor.
  - inversion H as [|? ? Hl Hy]; subst.
    destruct (leb x y) eqn:E.
    + constructor; [exact H|]. constructor; [exact E|].
      eapply Forall_impl; [|exact Hy]. intros z Hz. exact (leb_trans _ _ _ E Hz).
    + constructor; [exact (IH Hl)|].
      apply Forall_forall. intros z Hz.
      apply (Permutation_in _ (insertBy_perm x l)) in Hz. destruct Hz as [Hz|Hz].
      * subst z. destruct (leb_total x y) as [Hxy|Hyx]; [congruence | exact Hyx].
      * rewrite Forall_forall in Hy. exact (Hy z Hz).
Qed.

Lemma orderBy_sorted (l : list A) :
  StronglySorted (fun a b => leb a b = true) (orderBy leb l).
Proof.
  induction l as [|x l IH]; [constructor|].
  unfold orderBy in *. simpl. apply insertBy_sorted. exact IH.
Qed.

Lemma orderBy_head (l : list A) (h : A) :
  hd_error (orderBy leb l) = Some h ->
  In h l /\ forall x, In x l -> leb h x = true.
Proof.
  intro H. destruct (orderBy leb l) as [|h' t] eqn:E; [discriminate|].
  injection H as ->.
  pose proof (orderBy_sorted l) as Hs. rewrite E in Hs.
  inversion Hs as [|? ? _ Hall]; subst.
  assert (Hh : In h l) by (apply orderBy_In; rewrite E; left; reflexivity).
  split; [exact Hh|].
  intros x Hx. apply orderBy_In in Hx. rewrite E in Hx. destruct Hx as [Hx|Hx].
  - subst x. destruct (leb_total h h); assumption.
  - rewrite Forall_forall in Hall. exact (Hall x Hx).
Qed.

End OrderBy.

Lemma openedAt_desc_total (a b : CashSession) :
  Z.leb (session_openedAt b) (session_openedAt a) = true
  \/ Z.leb (session_openedAt a) (session_openedAt b) = true.
Proof. rewrite !Z.leb_le. lia. Qed.

Lemma openedAt_desc_trans (a b c : CashSession) :
  Z.leb (session_openedAt b) (session_openedAt a) = true ->
  Z.leb (session_openedAt c) (session_openedAt b) = true ->
  Z.leb (session_openedAt c) (session_openedAt a) = true.
Proof. rewrite !Z.leb_le. lia. Qed.

Lemma anyActiveSession_latest (s : Store) (session : CashSession) :
  anyActiveSession s = Some session ->
  In session (cashSessions s)
  /\ session_closedAt session = None
  /\ forall c, In c (cashSessions s) -> session_closedAt c = None ->
               (session_openedAt c <= session_openedAt session)%Z.
Proof.
  intro H. unfold anyActiveSession in H.
  apply (orderBy_head _ openedAt_desc_total openedAt_desc_trans) in H.
  destruct H as [Hin Hmax]. apply filter_In in Hin. destruct Hin as [Hin Hopen].
  repeat split.
  - exact Hin.
  - destruct (session_closedAt session); [discriminate | reflexivity].
  - intros c Hc Hcopen. apply Z.leb_le. apply Hmax.
    apply filter_In. split; [exact Hc|]. rewrite Hcopen. reflexivity.
Qed.

Lemma anyActiveSession_none (s : Store) :
  anyActiveSession s = None <->
  forall c, In c (cashSessions s) -> session_closedAt c <> None.
Proof.
  unfold anyActiveSession. rewrite orderBy_nil. split.
  - intros H c Hc Hopen.
    assert (Hin : In c (filter (fun c => isNull (session_closedAt c)) (cashSessions s))).
    { apply filter_In. split; [exact Hc|]. rewrite Hopen. reflexivity. }
    rewrite H in Hin. exact Hin.
  - intro H.
    destruct (filter (fun c => isNull (session_closedAt c)) (cashSessions s))
      as [|c l] eqn:E; [reflexivity|].
    exfalso.
    assert (Hin : In c (filter (fun c => isNull (session_closedAt c)) (cashSessions s)))
      by (rewrite E; left; reflexivity).
    apply filter_In in Hin. destruct Hin as [Hin Hopen].
    apply (H c Hin). destruct (session_closedAt c); [discriminate | reflexivity].
Qed.

(** X13.  [createPayment] needs an open cash session, anybody's: for a cashier
    it fails with 'No active cash session ...' exactly when every session
    is closed, and a payment that is accepted is booked on an open
    session, the one opened last, whoever owns it. *)
Theorem createPayment_books_on_latest_open_session
    (s : Store) (userId : Id) (data : CreatePaymentData) (now : Date) :
  (PaymentService.createPayment userId data CAJA now s = (s, Err NoActiveCashSession)
   <-> forall c, In c (cashSessions s) -> session_closedAt c <> None)
  /\ (forall s' r,
        PaymentService.createPayment userId data CAJA now s = (s', Ok r) ->
        exists session,
          In session (cashSessions s)
          /\ session_closedAt session = None
          /\ payment_cashSessionId (result_payment r) = session_id session
          /\ payment_userId (result_payment r) = userId
          /\ forall c, In c (cashSessions s) -> session_closedAt c = None ->
                       (session_openedAt c <= session_openedAt session)%Z).
Proof.
  split.
  - rewrite <- anyActiveSession_none. rewrite createPayment_runs. cbv zeta.
    cbn [PaymentService.hasPermission ROLE_PERMISSIONS includes existsb permission_eqb
         Permission_beq orb negb role_eqb RoleType_beq].
    destruct (anyActiveSession s) as [session|]; [|tauto].
    split; [|discriminate].
    destruct (lookup (pay_orderId data) s) as [order|]; [|discriminate].
    destruct (status_eqb _ _); [discriminate|].
    destruct (truthy _); [discriminate|].
    destruct (_ <=? _); [discriminate|].
    destruct (_ <? _); [discriminate|].
    destruct (withinTolerance _ _ _); discriminate.
  - intros s' r Hrun. rewrite createPayment_runs in Hrun. cbv zeta in Hrun.
    cbn [PaymentService.hasPermission ROLE_PERMISSIONS includes existsb permission_eqb
         Permission_beq orb negb role_eqb RoleType_beq] in Hrun.
    destruct (anyActiveSession s) as [session|] eqn:Hsession; [|discriminate].
    destruct (anyActiveSession_latest s session Hsession) as (Hin & Hopen & Hmax).
    exists session.
    destruct (lookup (pay_orderId data) s) as [order|]; [|discriminate].
    destruct (status_eqb _ _); [discriminate|].
    destruct (truthy _); [discriminate|].
    destruct (_ <=? _); [discriminate|].
    destruct (_ <? _); [discriminate|].
    destruct (withinTolerance _ _ _); inversion Hrun; subst; repeat split; assumption.
Qed.

(** The second cashier's payment is booked on the first cashier's
    drawer, the only one open. *)
Lemma createPayment_books_on_latest_open_session_witness :
  exists s' r,
    PaymentService.createPayment Sample.cashier2
      (mkCreatePaymentData 1%nat TARJETA 5 None None) CAJA 200%Z Sample.db = (s', Ok r)
    /\ payment_cashSessionId (result_payment r) = session_id Sample.drawer.
Proof.
  do 2 eexists.
  assert (Hrun : PaymentService.createPayment Sample.cashier2
      (mkCreatePaymentData 1%nat TARJETA 5 None None) CAJA 200%Z Sample.db
      = (_, Ok _)) by (vm_compute; reflexivity).
  split; [exact Hrun|].
  destruct (proj2 (createPayment_books_on_latest_open_session _ _ _ _) _ _ Hrun)
    as (session & Hin & _ & Hid & _).
  destruct Hin as [<-|[]]. exact Hid.
Defined.

(* --------------------------------------------------------------------- *)
(** ** The listings                                                       *)
(* --------------------------------------------------------------------- *)

Lemma createdAt_asc_total (a b : Order) :
  OrderService.createdAt_asc a b = true \/ OrderService.createdAt_asc b a = true.
Proof. unfold OrderService.createdAt_asc. rewrite !Z.leb_le. lia. Qed.

Lemma createdAt_asc_trans (a b c : Order) :
  OrderService.createdAt_asc a b = true -> OrderService.createdAt_asc b c = true ->
  OrderService.createdAt_asc a c = true.
Proof. unfold OrderService.createdAt_asc. rewrite !Z.leb_le. lia. Qed.

Lemma createdAt_desc_total (a b : Order) :
  OrderService.createdAt_desc a b = true \/ OrderService.createdAt_desc b a = true.
Proof. unfold OrderService.createdAt_desc. rewrite !Z.leb_le. lia. Qed.

Lemma createdAt_desc_trans (a b c : Order) :
  OrderService.createdAt_desc a b = true -> OrderService.createdAt_desc b c = true ->
  OrderService.createdAt_desc a c = true.
Proof. unfold OrderService.createdAt_desc. rewrite !Z.leb_le. lia. Qed.

Lemma StronglySorted_map {A B : Type} (f : A -> B) (R : B -> B -> Prop) (l : list A) :
  StronglySorted (fun a b => R (f a) (f b)) l -> StronglySorted R (map f l).
Proof.
  induction 1 as [|a l Hl IH Hall]; simpl; constructor; [exact IH|].
  apply Forall_map. exact Hall.
Qed.

(** X14.  The kitchen queue is, oldest first, the orders that are RECIBIDO or
    PREPARACION and not paid, each of them once and no other, each with
    the items of the order; reading it leaves the database as it is. *)
Theorem kitchen_queue_is_the_open_orders_oldest_first (s : Store) :
  exists queue,
    KitchenService.getKitchenQueue COCINA s = (s, Ok queue)
    /\ Permutation (map kitchen_id queue)
                   (map order_id (filter KitchenService.inQueue (orders s)))
    /\ StronglySorted (fun a b => (kitchen_createdAt a <= kitchen_createdAt b)%Z) queue
    /\ (forall k, In k queue ->
          kitchen_status k = RECIBIDO \/ kitchen_status k = PREPARACION)
    /\ (forall k, In k queue ->
          kitchen_items k = map KitchenService.toKitchenItem (itemsOf (kitchen_id k) s)).
Proof.
  eexists. split; [reflexivity|].
  set (rows := orderBy OrderService.createdAt_asc
                       (filter KitchenService.inQueue (orders s))).
  assert (Hperm : Permutation rows (filter KitchenService.inQueue (orders s)))
    by apply orderBy_perm.
  assert (Hsorted : StronglySorted (fun a b => OrderService.createdAt_asc a b = true) rows)
    by (apply orderBy_sorted; [apply createdAt_asc_total | apply createdAt_asc_trans]).
  repeat apply conj.
  - rewrite !map_map. cbn [KitchenService.toKitchenOrder OrderService.joinItems
                           kitchen_id fst].
    apply Permutation_map. exact Hperm.
  - rewrite map_map. apply StronglySorted_map.
    cbn [KitchenService.toKitchenOrder OrderService.joinItems kitchen_createdAt fst].
    eapply StronglySorted_ind with (P := fun l =>
      StronglySorted (fun a b => (order_createdAt a <= order_createdAt b)%Z) l);
      [constructor | | exact Hsorted].
    intros a l _ IH Hall. constructor; [exact IH|].
    eapply Forall_impl; [|exact Hall]. intros b Hb.
    apply Z.leb_le. exact Hb.
  - intros k Hk. rewrite map_map in Hk. apply in_map_iff in Hk.
    destruct Hk as (o & <- & Ho).
    apply (Permutation_in _ Hperm) in Ho. apply filter_In in Ho. destruct Ho as [_ Ho].
    unfold KitchenService.inQueue in Ho. apply andb_true_iff in Ho. destruct Ho as [Ho _].
    cbn [KitchenService.toKitchenOrder OrderService.joinItems kitchen_status fst].
    destruct (order_status o); try discriminate Ho; tauto.
  - intros k Hk. rewrite map_map in Hk. apply in_map_iff in Hk.
    destruct Hk as (o & <- & _). reflexivity.
Qed.

(** X15.  [listOrders] returns, newest first, exactly the orders that match the
    filters given, each of them once, with their items; the prices are
    there for the cashier and the waiter. *)
Theorem listOrders_is_the_matching_orders_newest_first
    (s : Store) (filters : OrderFilters) (role : RoleType) :
  exists views,
    OrderService.listOrders filters role s = (s, Ok views)
    /\ Permutation (map view_order views)
                   (filter (OrderService.where_filters filters) (orders s))
    /\ StronglySorted (fun a b => (order_createdAt b <= order_createdAt a)%Z)
                      (map view_order views)
    /\ (forall v, In v views ->
          match filter_status filters with
          | Some st => order_status (view_order v) = st
          | None => True
          end)
    /\ (role <> COCINA ->
        forall v, In v views ->
          view_items v = map showItem (itemsOf (order_id (view_order v)) s)).
Proof.
  set (rows := orderBy OrderService.createdAt_desc
                       (filter (OrderService.where_filters filters) (orders s))).
  assert (Hperm : Permutation rows (filter (OrderService.where_filters filters) (orders s)))
    by apply orderBy_perm.
  assert (Hsorted : StronglySorted (fun a b => OrderService.createdAt_desc a b = true) rows)
    by (apply orderBy_sorted; [apply createdAt_desc_total | apply createdAt_desc_trans]).
  assert (Hsorted' : StronglySorted (fun a b => (order_createdAt b <= order_createdAt a)%Z)
                                    rows).
  { eapply StronglySorted_ind with (P := fun l =>
      StronglySorted (fun a b => (order_createdAt b <= order_createdAt a)%Z) l);
      [constructor | | exact Hsorted].
    intros a l _ IH Hall. constructor; [exact IH|].
    eapply Forall_impl; [|exact Hall]. intros b Hb. apply Z.leb_le. exact Hb. }
  assert (Hstatus : forall o, In o rows ->
            match filter_status filters with
            | Some st => order_status o = st
            | None => True
            end).
  { intros o Ho. apply (Permutation_in _ Hperm) in Ho. apply filter_In in Ho.
    destruct Ho as [_ Ho]. unfold OrderService.where_filters in Ho.
    destruct (filter_status filters); [|exact I].
    apply andb_true_iff in Ho. destruct Ho as [Ho _].
    apply andb_true_iff in Ho. destruct Ho as [Ho _].
    apply andb_true_iff in Ho. destruct Ho as [Ho _].
    apply status_eqb_eq. exact Ho. }
  unfold OrderService.listOrders. rewrite bind_gets. fold rows.
  destruct (role_eqb role COCINA) eqn:Hrole; eexists; (split; [reflexivity|]);
    rewrite !map_map; cbn [view_order OrderService.joinItems fst snd];
    rewrite map_id; repeat apply conj; try assumption.
  - intros v Hv. try rewrite map_map in Hv. apply in_map_iff in Hv.
    destruct Hv as (o & <- & Ho). exact (Hstatus o Ho).
  - intro Hne. apply role_eqb_eq in Hrole. contradiction.
  - intros v Hv. try rewrite map_map in Hv. apply in_map_iff in Hv.
    destruct Hv as (o & <- & Ho). exact (Hstatus o Ho).
  - intros _ v Hv. try rewrite map_map in Hv. apply in_map_iff in Hv.
    destruct Hv as (o & <- & _). reflexivity.
Qed.

(** X16.  In the waiter's listing [readyOnly] overrides the status filter:
    whatever status was asked for, the orders returned are the LISTO
    orders of the channel asked for, each of them once, newest first. *)
Theorem waiter_readyOnly_overrides_status
    (s : Store) (status : option OrderStatus) (channel : option ChannelType) :
  exists listing,
    WaiterService.listOrders (mkWaiterFilters status channel true) MESERO s
    = (s, Ok listing)
    /\ WaiterService.listOrders (mkWaiterFilters (Some LISTO) channel false) MESERO s
       = (s, Ok listing)
    /\ (forall w, In w listing -> order_status (waiter_order w) = LISTO)
    /\ Permutation (map waiter_order listing)
         (filter (fun o => status_eqb (order_status o) LISTO
                           && match channel with
                              | Some ch => channel_eqb (order_channel o) ch
                              | None => true
                              end) (orders s)).
Proof.
  eexists. split; [reflexivity|]. split; [reflexivity|].
  set (rows := orderBy OrderService.createdAt_desc _).
  assert (Hperm : Permutation rows
            (filter (WaiterService.where_filters (mkWaiterFilters status channel true))
                    (orders s))) by apply orderBy_perm.
  split.
  - intros w Hw. rewrite map_map in Hw. apply in_map_iff in Hw.
    destruct Hw as (o & <- & Ho).
    apply (Permutation_in _ Hperm) in Ho. apply filter_In in Ho. destruct Ho as [_ Ho].
    unfold WaiterService.where_filters in Ho. cbn [wfilter_readyOnly] in Ho.
    apply andb_true_iff in Ho. destruct Ho as [Ho _].
    apply status_eqb_eq. exact Ho.
  - rewrite !map_map. cbn [WaiterService.toWaiterOrder OrderService.joinItems
                           waiter_order fst].
    rewrite map_id. exact Hperm.
Qed.

(* --------------------------------------------------------------------- *)
(** ** Cash sessions: at most one open per user                           *)
(* --------------------------------------------------------------------- *)

Lemma activeSessionOf_none (userId : Id) (s : Store) :
  activeSessionOf userId s = None <-> openSessionsOf userId s = [].
Proof. unfold activeSessionOf. apply orderBy_nil. Qed.

Lemma execute_sessions_shape (c : Command) (s : Store) :
  cashSessions (fst (execute c s)) = cashSessions s
  \/ (exists userId initialCash notes now,
        cashSessions (fst (execute c s))
        = cashSessions s ++ [newSession userId initialCash notes now s]
        /\ openSessionsOf userId s = [])
  \/ (exists sessionId finalCash notes now,
        cashSessions (fst (execute c s))
        = updateWhere (Prisma.session_has_id sessionId)
                      (CashService.close_data now finalCash notes) (cashSessions s)).
Proof.
  destruct c; cbn [execute]; rewrite fst_outcome;
    try (first [ rewrite createOrder_runs | rewrite addItems_runs | rewrite editItem_runs
               | rewrite deleteItem_runs | rewrite changeStatus_runs
               | rewrite cancelOrder_runs | rewrite requestBill_runs
               | rewrite createPayment_runs; cbv zeta
               | unfold KitchenService.startPreparation; rewrite advance_runs
               | unfold KitchenService.markReady; rewrite advance_runs
               | rewrite waiter_createOrder_runs | rewrite waiter_addItems_runs
               | rewrite deliverOrder_runs | rewrite waiter_requestBill_runs ];
         repeat match goal with
                | |- context [match ?b with _ => _ end] => destruct b
                end; left; reflexivity).
  - rewrite openSession_runs.
    destruct (negb _); [left; reflexivity|].
    destruct (activeSessionOf userId s) eqn:Hactive; cbn [truthy]; [left; reflexivity|].
    destruct (_ <? _); [left; reflexivity|].
    right; left. exists userId, initialCash, notes, now.
    split; [reflexivity | apply activeSessionOf_none; exact Hactive].
  - rewrite closeSession_runs.
    destruct (negb _); [left; reflexivity|].
    destruct (lookupSession sessionId s); [|left; reflexivity].
    destruct (negb _); [left; reflexivity|].
    destruct (truthy _); [left; reflexivity|].
    destruct (_ <? _); [left; reflexivity|].
    right; right. exists sessionId, finalCash, notes, now. reflexivity.
Qed.

Lemma filter_updateWhere_length {A : Type} (q p : A -> bool) (f : A -> A) (l : list A) :
  (forall x, q (f x) = true -> q x = true) ->
  (List.length (filter q (updateWhere p f l)) <= List.length (filter q l))%nat.
Proof.
  intro Hq. induction l as [|x l IH]; simpl; [lia|].
  destruct (p x).
  - destruct (q (f x)) eqn:E.
    + rewrite (Hq x E). simpl. lia.
    + destruct (q x); simpl; lia.
  - destruct (q x); simpl; lia.
Qed.

Lemma one_session_kept (c : Command) (s : Store) :
  oneOpenSessionPerUser s -> oneOpenSessionPerUser (fst (execute c s)).
Proof.
  intros Hone user. specialize (Hone user). unfold openSessionsOf in *.
  destruct (execute_sessions_shape c s)
    as [E | [(u & cash & notes & now & E & Hfree) | (i & cash & notes & now & E)]];
    rewrite E.
  - exact Hone.
  - rewrite filter_app, length_app. cbn [filter newSession session_userId session_closedAt
                                          isNull truthy negb andb].
    destruct (Nat.eqb u user) eqn:Hu; cbn [List.length].
    + apply Nat.eqb_eq in Hu. subst u. unfold openSessionsOf in Hfree.
      rewrite Hfree. simpl. lia.
    + rewrite andb_false_l. simpl. lia.
  - eapply Nat.le_trans; [|exact Hone].
    apply filter_updateWhere_length.
    intros x Hx. cbn [CashService.close_data session_userId session_closedAt
                      isNull truthy negb] in Hx.
    rewrite andb_false_r in Hx. discriminate.
Qed.

(** X17.  No sequence of requests gives a user a second open cash session:
    [openSession] is refused while the user has one open, [closeSession]
    only closes, and no other request touches the sessions. *)
Theorem one_open_session_per_user (cs : list Command) (s : Store) :
  oneOpenSessionPerUser s -> oneOpenSessionPerUser (executeAll cs s).
Proof.
  revert s. induction cs as [|c cs IH]; intros s Hone; [exact Hone|].
  cbn [executeAll fold_left]. apply IH. apply one_session_kept. exact Hone.
Qed.

(** The first cashier tries to open a second drawer, the second cashier
    opens one. *)
Lemma one_open_session_per_user_witness :
  oneOpenSessionPerUser
    (executeAll [ CashOpen Sample.cashier 10 None CAJA 300%Z;
                  CashOpen Sample.cashier2 20 None CAJA 310%Z ] Sample.db).
Proof.
  apply one_open_session_per_user.
  intro user. unfold openSessionsOf.
  change (cashSessions Sample.db) with [Sample.drawer]. cbn [filter].
  destruct (_ && _); simpl; lia.
Defined.

(** X18.  [openSession] succeeds only for a cashier without an open session and
    an amount that is zero or more, or NaN ([initialCash < 0] is false);
    the session it opens is then the user's one open session,
    [getActiveSession] returns it, and a second [openSession] by the same
    user is refused with 'User already has an active cash session'. *)
Theorem openSession_then_again_is_refused
    (s s1 : Store) (userId : Id) (initialCash again : float) (notes notes' : option string)
    (role : RoleType) (now now' : Date) (session : CashSession) :
  CashService.openSession userId initialCash notes role now s = (s1, Ok session) ->
  role = CAJA
  /\ openSessionsOf userId s = []
  /\ ((0 <=? initialCash) = true \/ initialCash = nan)
  /\ openSessionsOf userId s1 = [session]
  /\ CashService.getActiveSession userId s1 = (s1, Ok (Some session))
  /\ session_closedAt session = None /\ session_initialCash session = initialCash
  /\ CashService.openSession userId again notes' role now' s1
     = (s1, Err UserHasActiveSession).
Proof.
  intro Hrun. rewrite openSession_runs in Hrun.
  destruct (negb (role_eqb role CAJA)) eqn:Hrole; [discriminate|].
  destruct (activeSessionOf userId s) eqn:Hactive; cbn [truthy] in Hrun; [discriminate|].
  destruct (initialCash <? 0) eqn:Hcash; [discriminate|].
  inversion Hrun; subst s1 session; clear Hrun.
  apply activeSessionOf_none in Hactive.
  assert (Hopen : openSessionsOf userId (sessionOpened userId initialCash notes now s)
                  = [newSession userId initialCash notes now s]).
  { unfold openSessionsOf in *. cbn [sessionOpened cashSessions set_auditLogs
                                     set_cashSessions set_nextId].
    simpl cashSessions. rewrite filter_app, Hactive. cbn [filter app].
    cbn [newSession session_userId session_closedAt isNull truthy negb].
    rewrite Nat.eqb_refl. reflexivity. }
  assert (Hget : activeSessionOf userId (sessionOpened userId initialCash notes now s)
                 = Some (newSession userId initialCash notes now s)).
  { unfold activeSessionOf. fold (openSessionsOf userId
                                    (sessionOpened userId initialCash notes now s)).
    rewrite Hopen. reflexivity. }
  repeat apply conj; try reflexivity.
  - apply negb_false_iff, role_eqb_eq in Hrole. exact Hrole.
  - exact Hactive.
  - apply ltb_zero_false. exact Hcash.
  - exact Hopen.
  - unfold CashService.getActiveSession, Prisma.cashSession_findFirst, gets.
    f_equal. f_equal. exact Hget.
  - rewrite openSession_runs, Hrole, Hget. reflexivity.
Qed.

(** The second cashier opens a drawer in the sample database. *)
Lemma openSession_then_again_is_refused_witness :
  exists s1 session,
    CashService.openSession Sample.cashier2 20 None CAJA 310%Z Sample.db
    = (s1, Ok session)
    /\ CashService.openSession Sample.cashier2 0 None CAJA 320%Z s1
       = (s1, Err UserHasActiveSession).
Proof.
  do 2 eexists.
  assert (Hrun : CashService.openSession Sample.cashier2 20 None CAJA 310%Z Sample.db
                 = (_, Ok _)) by (vm_compute; reflexivity).
  split; [exact Hrun|].
  exact (proj2 (proj2 (proj2 (proj2 (proj2 (proj2 (proj2
    (openSession_then_again_is_refused _ _ _ _ 0 _ None _ _ 320%Z _ Hrun)))))))).
Defined.

Lemma find_session_updateWhere (id : Id) (f : CashSession -> CashSession)
    (l : list CashSession) (c : CashSession) :
  (forall x, session_id (f x) = session_id x) ->
  find (Prisma.session_has_id id) l = Some c ->
  find (Prisma.session_has_id id) (updateWhere (Prisma.session_has_id id) f l)
  = Some (f c).
Proof.
  intros Hid. induction l as [|x l IH]; simpl; [discriminate|].
  destruct (Prisma.session_has_id id x) eqn:Hx.
  - intro H. injection H as <-. unfold Prisma.session_has_id in *.
    rewrite Hid, Hx. reflexivity.
  - rewrite Hx. exact IH.
Qed.

(** X19.  [closeSession] succeeds only for the cashier who owns the session,
    on a session that is open, with an amount that is zero or more, or NaN
    ([finalCash < 0] is false); it records the
    time and the final cash, keeps what the session had otherwise, and a
    second [closeSession] on it is refused with 'Cash session is already
    closed'. *)
Theorem closeSession_then_again_is_refused
    (s s1 : Store) (userId sessionId : Id) (finalCash again : float)
    (notes notes' : option string) (role : RoleType) (now now' : Date)
    (closed : CashSession) :
  CashService.closeSession userId sessionId finalCash notes role now s = (s1, Ok closed) ->
  role = CAJA
  /\ (exists session,
        lookupSession sessionId s = Some session
        /\ session_userId session = userId
        /\ session_closedAt session = None
        /\ session_openedAt closed = session_openedAt session
        /\ session_initialCash closed = session_initialCash session)
  /\ ((0 <=? finalCash) = true \/ finalCash = nan)
  /\ lookupSession sessionId s1 = Some closed
  /\ session_closedAt closed = Some now
  /\ session_finalCash closed = Some finalCash
  /\ CashService.closeSession userId sessionId again notes' role now' s1
     = (s1, Err CashSessionAlreadyClosed).
Proof.
  intro Hrun. rewrite closeSession_runs in Hrun.
  destruct (negb (role_eqb role CAJA)) eqn:Hrole; [discriminate|].
  destruct (lookupSession sessionId s) as [session|] eqn:Hfound; [|discriminate].
  destruct (negb (Nat.eqb (session_userId session) userId)) eqn:Hown; [discriminate|].
  destruct (truthy (session_closedAt session)) eqn:Hopen; [discriminate|].
  destruct (finalCash <? 0) eqn:Hcash; [discriminate|].
  inversion Hrun; subst s1 closed; clear Hrun.
  assert (Hfound1 : lookupSession sessionId (sessionClosed userId sessionId finalCash notes now s)
                    = Some (CashService.close_data now finalCash notes session)).
  { unfold lookupSession in *. cbn [sessionClosed cashSessions set_auditLogs
                                    set_cashSessions].
    simpl cashSessions. apply find_session_updateWhere; [reflexivity | exact Hfound]. }
  repeat apply conj; try reflexivity.
  - apply negb_false_iff, role_eqb_eq in Hrole. exact Hrole.
  - exists session. repeat split.
    + apply negb_false_iff, Nat.eqb_eq in Hown. exact Hown.
    + destruct (session_closedAt session); [discriminate | reflexivity].
  - apply ltb_zero_false. exact Hcash.
  - exact Hfound1.
  - rewrite closeSession_runs, Hrole, Hfound1.
    cbn [CashService.close_data session_userId session_closedAt truthy].
    rewrite Hown. reflexivity.
Qed.

(** The cashier closes the drawer of the sample database with 75.00. *)
Lemma closeSession_then_again_is_refused_witness :
  exists s1 closed,
    CashService.closeSession Sample.cashier 4%nat 75 None CAJA 400%Z Sample.db
    = (s1, Ok closed)
    /\ session_closedAt closed = Some 400%Z
    /\ CashService.closeSession Sample.cashier 4%nat 75 None CAJA 410%Z s1
       = (s1, Err CashSessionAlreadyClosed).
Proof.
  do 2 eexists.
  assert (Hrun : CashService.closeSession Sample.cashier 4%nat 75 None CAJA 400%Z
                   Sample.db = (_, Ok _)) by (vm_compute; reflexivity).
  split; [exact Hrun|].
  destruct (closeSession_then_again_is_refused _ _ _ _ _ 75 _ None _ _ 410%Z _ Hrun)
    as (_ & _ & _ & _ & Hclosed & _ & Hagain).
  split; [exact Hclosed | exact Hagain].
Defined.

(* --------------------------------------------------------------------- *)
(** ** A payment and the summary read after it                            *)
(* --------------------------------------------------------------------- *)

Lemma getPaymentSummary_runs (s : Store) (orderId : Id) (role : RoleType) :
  PaymentService.getPaymentSummary orderId role s =
  match lookup orderId s with
  | None => (s, Err OrderNotFound)
  | Some order =>
      if role_eqb role COCINA then (s, Err CocinaCannotViewPayments)
      else (s, Ok (mkPaymentSummary
                     (filter (Prisma.payment_of_order orderId) (payments s))
                     (orderTotal orderId s) (paidTotal orderId s)
                     (orderTotal orderId s - paidTotal orderId s)
                     (negb (isNull (order_paidAt order))) (order_paidAt order)))
  end.
Proof.
  unfold PaymentService.getPaymentSummary. rewrite bind_findUnique.
  destruct (lookup orderId s) as [order|] eqn:Hfound; [|reflexivity].
  destruct (role_eqb role COCINA) eqn:Hrole.
  { rewrite throwIf_fail by reflexivity. reflexivity. }
  rewrite throwIf_pass by reflexivity.
  unfold PaymentService.calculateOrderTotal at 1.
  unfold bind at 1. rewrite bind_findUnique, Hfound. reflexivity.
Qed.

(** X20.  After an accepted payment, [getPaymentSummary] reports the totals
    that [createPayment] returned; its [isPaid] and [paidAt] say whether
    the tolerance test of [createPayment], made on the doubles, passed;
    and once it did, every further [createPayment] on the order is refused
    with 'Order is already paid' and writes nothing. *)
Theorem summary_after_payment
    (s s1 : Store) (userId : Id) (data : CreatePaymentData) (role : RoleType)
    (now : Date) (r : PaymentResult) :
  PaymentService.createPayment userId data role now s = (s1, Ok r) ->
  exists sm,
    PaymentService.getPaymentSummary (pay_orderId data) role s1 = (s1, Ok sm)
    /\ summary_orderTotal sm = result_total r
    /\ summary_paidTotal sm = result_paid r
    /\ summary_remaining sm = result_remaining r
    /\ summary_isPaid sm = withinTolerance (pay_orderId data) (pay_amount data) s
    /\ summary_paidAt sm
       = (if withinTolerance (pay_orderId data) (pay_amount data) s
          then Some now else None)
    /\ (summary_isPaid sm = true ->
        forall userId' data' now',
          pay_orderId data' = pay_orderId data ->
          PaymentService.createPayment userId' data' role now' s1
          = (s1, Err OrderAlreadyPaid)).
Proof.
  intro Hrun. rewrite createPayment_runs in Hrun. cbv zeta in Hrun.
  destruct (negb (PaymentService.hasPermission role ORDER_MARK_PAID)) eqn:Hperm;
    [discriminate|].
  destruct (negb (role_eqb role CAJA)) eqn:Hrole; [discriminate|].
  destruct (anyActiveSession s) as [session|] eqn:Hsession; [|discriminate].
  destruct (lookup (pay_orderId data) s) as [order|] eqn:Hfound; [|discriminate].
  destruct (status_eqb (order_status order) CANCELADO) eqn:Hst; [discriminate|].
  destruct (truthy (order_paidAt order)) eqn:Hpaid; [discriminate|].
  destruct (pay_amount data <=? 0); [discriminate|].
  destruct (_ <? _); [discriminate|].
  assert (Hcaja : role = CAJA) by (apply negb_false_iff, role_eqb_eq in Hrole; exact Hrole).
  assert (HpaidAt : order_paidAt order = None)
    by (destruct (order_paidAt order); [discriminate | reflexivity]).
  destruct (withinTolerance (pay_orderId data) (pay_amount data) s) eqn:Htol;
    inversion Hrun; subst s1 r; clear Hrun.
  - assert (Hfound1 : lookup (pay_orderId data)
                        (markedPaid userId (pay_orderId data) now
                           (paymentRecorded userId data session now s))
                      = Some (set_paidAt (Some now) order)).
    { unfold markedPaid.
      change (lookup (pay_orderId data)
                (set_orders (updateWhere (Prisma.order_has_id (pay_orderId data))
                                         (set_paidAt (Some now)))
                            (paymentRecorded userId data session now s))
              = Some (set_paidAt (Some now) order)).
      apply lookup_updated; [reflexivity | exact Hfound]. }
    eexists. rewrite getPaymentSummary_runs, Hfound1. subst role. cbn [role_eqb].
    split; [reflexivity|].
    cbn [summary_orderTotal summary_paidTotal summary_remaining summary_isPaid
         summary_paidAt result_total result_paid result_remaining].
    assert (Hp : paidTotal (pay_orderId data)
                   (markedPaid userId (pay_orderId data) now
                      (paymentRecorded userId data session now s))
                 = paidTotal (pay_orderId data) s + pay_amount data)
      by (exact (paidTotal_recorded s userId data session now)).
    rewrite Hp.
    repeat apply conj; try reflexivity.
    intros _ userId' data' now' Hsame.
    rewrite createPayment_runs. cbv zeta. rewrite Hsame.
    change (anyActiveSession (markedPaid userId (pay_orderId data) now
                                (paymentRecorded userId data session now s)))
      with (anyActiveSession s).
    rewrite Hsession, Hfound1. cbn [PaymentService.hasPermission negb role_eqb].
    change (order_status (set_paidAt (Some now) order)) with (order_status order).
    rewrite Hst. reflexivity.
  - assert (Hfound1 : lookup (pay_orderId data) (paymentRecorded userId data session now s)
                      = Some order) by exact Hfound.
    eexists. rewrite getPaymentSummary_runs, Hfound1. subst role. cbn [role_eqb].
    split; [reflexivity|].
    cbn [summary_orderTotal summary_paidTotal summary_remaining summary_isPaid
         summary_paidAt result_total result_paid result_remaining].
    rewrite paidTotal_recorded, HpaidAt.
    repeat apply conj; try reflexivity.
    intro H. discriminate H.
Qed.

(** The cashier pays the 25.00 of the sample order in full. *)
Lemma summary_after_payment_witness :
  exists s1 sm,
    PaymentService.getPaymentSummary 1%nat CAJA s1 = (s1, Ok sm)
    /\ summary_isPaid sm = true
    /\ PaymentService.createPayment Sample.cashier2
         (mkCreatePaymentData 1%nat TARJETA 1 None None) CAJA 210%Z s1
       = (s1, Err OrderAlreadyPaid).
Proof.
  assert (Hrun : PaymentService.createPayment Sample.cashier
      (mkCreatePaymentData 1%nat EFECTIVO 25 None None) CAJA 200%Z Sample.db
    = (_, Ok _)) by (vm_compute; reflexivity).
  destruct (summary_after_payment _ _ _ _ _ _ _ Hrun)
    as (sm & Hsm & _ & _ & _ & HisPaid & _ & Hagain).
  do 2 eexists. split; [exact Hsm|].
  assert (Hyes : summary_isPaid sm = true) by (rewrite HisPaid; vm_compute; reflexivity).
  split; [exact Hyes|].
  apply (Hagain Hyes). reflexivity.
Defined.

(* --------------------------------------------------------------------- *)
(** ** The kitchen and waiter endpoints against changeStatus              *)
(* --------------------------------------------------------------------- *)

Lemma unique_id_row (id : Id) (l : list Order) (o x : Order) :
  NoDup (map order_id l) ->
  find (Prisma.order_has_id id) l = Some o ->
  In x l -> Prisma.order_has_id id x = true -> x = o.
Proof.
  induction l as [|y l IH]; simpl; [discriminate|].
  intros Hnd Hfind Hin Hx. inversion Hnd as [|? ? Hnotin Hnd']; subst.
  destruct (Prisma.order_has_id id y) eqn:Hy.
  - injection Hfind as <-. destruct Hin as [-> | Hin]; [reflexivity|].
    exfalso. apply Hnotin. apply has_id_eq in Hx, Hy. rewrite Hy, <- Hx.
    apply in_map. exact Hin.
  - destruct Hin as [-> | Hin]; [congruence|].
    apply IH; assumption.
Qed.

Lemma advanced_is_changed (s : Store) (orderId userId : Id) (from to : OrderStatus)
    (order : Order) :
  uniqueOrderIds s ->
  lookup orderId s = Some order ->
  order_status order = from ->
  statusAdvanced orderId userId from to s = statusChanged orderId userId to s.
Proof.
  intros Hunique Hfound Hfrom. unfold statusAdvanced, statusChanged.
  assert (E : updateWhere (inStatus orderId from) (set_status to) (orders s)
              = updateWhere (Prisma.order_has_id orderId) (set_status to) (orders s)).
  { unfold updateWhere. apply map_ext_in. intros x Hin. unfold inStatus.
    destruct (Prisma.order_has_id orderId x) eqn:Hx; [|reflexivity].
    rewrite (unique_id_row orderId (orders s) order x Hunique Hfound Hin Hx), Hfrom.
    rewrite status_eqb_refl. reflexivity. }
  unfold set_orders. rewrite E. reflexivity.
Qed.

(** X21.  With order identifiers unique, the kitchen's [startPreparation] and
    [markReady] and the waiter's [deliverOrder] succeed exactly when
    [OrderService.changeStatus] to the same target succeeds for the same
    caller, and leave the same database. *)
Theorem dedicated_endpoints_match_changeStatus (s : Store) (orderId userId : Id) :
  uniqueOrderIds s ->
  (succeeds (KitchenService.startPreparation orderId userId COCINA) s
   = succeeds (OrderService.changeStatus orderId userId PREPARACION COCINA) s
   /\ fst (KitchenService.startPreparation orderId userId COCINA s)
      = fst (OrderService.changeStatus orderId userId PREPARACION COCINA s))
  /\ (succeeds (KitchenService.markReady orderId userId COCINA) s
      = succeeds (OrderService.changeStatus orderId userId LISTO COCINA) s
      /\ fst (KitchenService.markReady orderId userId COCINA s)
         = fst (OrderService.changeStatus orderId userId LISTO COCINA s))
  /\ (succeeds (WaiterService.deliverOrder orderId userId MESERO) s
      = succeeds (OrderService.changeStatus orderId userId ENTREGADO MESERO) s
      /\ fst (WaiterService.deliverOrder orderId userId MESERO s)
         = fst (OrderService.changeStatus orderId userId ENTREGADO MESERO s)).
Proof.
  intro Hunique.
  unfold succeeds, KitchenService.startPreparation, KitchenService.markReady.
  rewrite !advance_runs, deliverOrder_runs, !changeStatus_runs.
  cbn [role_eqb negb].
  destruct (lookup orderId s) as [order|] eqn:Hfound; [|repeat split].
  pose proof (fun from to H =>
                advanced_is_changed s orderId userId from to order Hunique Hfound H)
    as Hsame.
  destruct (order_status order) eqn:Hst; destruct (order_paidAt order) eqn:Hpaid;
    cbn; repeat split; apply Hsame; reflexivity.
Qed.

(** The sample order, ready, is delivered by the waiter through either
    endpoint. *)
Lemma dedicated_endpoints_match_changeStatus_witness :
  succeeds (WaiterService.deliverOrder 1%nat Sample.waiter MESERO) (Sample.dbIn LISTO) = true
  /\ fst (WaiterService.deliverOrder 1%nat Sample.waiter MESERO (Sample.dbIn LISTO))
     = fst (OrderService.changeStatus 1%nat Sample.waiter ENTREGADO MESERO
              (Sample.dbIn LISTO)).
Proof.
  split; [vm_compute; reflexivity|].
  apply (dedicated_endpoints_match_changeStatus (Sample.dbIn LISTO) 1%nat Sample.waiter).
  unfold uniqueOrderIds. simpl. repeat constructor. intros [].
Defined.

(* --------------------------------------------------------------------- *)
(** ** Cancelled and paid exclude each other                              *)
(* --------------------------------------------------------------------- *)

Ltac orders_same := left; split; [reflexivity | simpl; lia].

Lemma execute_orders_rows (c : Command) (s : Store) :
  (orders (fst (execute c s)) = orders s /\ (nextId s <= nextId (fst (execute c s)))%nat)
  \/ (exists o,
        orders (fst (execute c s)) = orders s ++ [o]
        /\ order_id o = nextId s /\ order_status o = RECIBIDO
        /\ (nextId s < nextId (fst (execute c s)))%nat)
  \/ (exists t p f order,
        lookup t s = Some order
        /\ orders (fst (execute c s)) = updateWhere p f (orders s)
        /\ (forall x, p x = true -> Prisma.order_has_id t x = true)
        /\ (forall x, order_id (f x) = order_id x)
        /\ (notCancelledAndPaid order -> notCancelledAndPaid (f order))
        /\ (nextId s <= nextId (fst (execute c s)))%nat).
Proof.
  assert (Hand : forall a b, (a && b)%bool = true -> a = true)
    by (intros a b H; apply andb_true_iff in H; tauto).
  destruct c; cbn [execute]; rewrite fst_outcome.
  - rewrite createOrder_runs.
    repeat match goal with
           | |- context [if ?b then _ else _] => destruct b
           end; try orders_same.
    right; left. eexists. repeat split; simpl; lia.
  - rewrite addItems_runs.
    repeat match goal with
           | |- context [match ?b with _ => _ end] => destruct b
           end; orders_same.
  - rewrite editItem_runs.
    repeat match goal with
           | |- context [match ?b with _ => _ end] => destruct b
           end; orders_same.
  - rewrite deleteItem_runs.
    repeat match goal with
           | |- context [match ?b with _ => _ end] => destruct b
           end; orders_same.
  - rewrite changeStatus_runs.
    destruct (lookup orderId s) as [order|] eqn:Hfound; [|orders_same].
    destruct (truthy (order_paidAt order) && negb (status_eqb newStatus ENTREGADO))%bool
      eqn:Hguard; [orders_same|].
    destruct (negb (isValidStatusTransition _ _)); [orders_same|].
    destruct (negb (OrderService.canChangeStatus _ _ _)); [orders_same|].
    right; right.
    exists orderId, (Prisma.order_has_id orderId), (set_status newStatus), order.
    repeat apply conj; try reflexivity; try tauto; try (simpl; lia).
    intros _ Hcancelled. cbn [set_status order_status order_paidAt] in *.
    subst newStatus. destruct (order_paidAt order); [discriminate Hguard | reflexivity].
  - rewrite cancelOrder_runs.
    destruct (negb _); [orders_same|].
    destruct (lookup orderId s) as [order|] eqn:Hfound; [|orders_same].
    destruct (truthy (order_paidAt order)) eqn:Hpaid; [orders_same|].
    destruct (status_eqb (order_status order) CANCELADO); [orders_same|].
    destruct (OrderService.reasonMissing reason); [orders_same|].
    right; right.
    exists orderId, (Prisma.order_has_id orderId), (set_status CANCELADO), order.
    repeat apply conj; try reflexivity; try tauto; try (simpl; lia).
    intros _ _. cbn [set_status order_paidAt].
    destruct (order_paidAt order); [discriminate Hpaid | reflexivity].
  - rewrite requestBill_runs.
    destruct (negb _); [orders_same|].
    destruct (lookup orderId s) as [order|] eqn:Hfound; [|orders_same].
    destruct (truthy _); [orders_same|].
    right; right.
    exists orderId, (Prisma.order_has_id orderId), (set_requestedBill true), order.
    repeat apply conj; try reflexivity; try tauto; try (simpl; lia).
  - rewrite createPayment_runs. cbv zeta.
    destruct (negb _); [orders_same|].
    destruct (negb _); [orders_same|].
    destruct (anyActiveSession s); [|orders_same].
    destruct (lookup (pay_orderId data) s) as [order|] eqn:Hfound; [|orders_same].
    destruct (status_eqb (order_status order) CANCELADO) eqn:Hst; [orders_same|].
    destruct (truthy _); [orders_same|].
    destruct (_ <=? _); [orders_same|].
    destruct (_ <? _); [orders_same|].
    destruct (withinTolerance _ _ _); [|orders_same].
    right; right.
    exists (pay_orderId data), (Prisma.order_has_id (pay_orderId data)),
           (set_paidAt (Some now)), order.
    repeat apply conj; try reflexivity; try tauto; try (simpl; lia).
    intros _ Hcancelled. cbn [set_paidAt order_status] in Hcancelled.
    rewrite Hcancelled in Hst. discriminate Hst.
  - unfold KitchenService.startPreparation. rewrite advance_runs.
    destruct (negb _); [orders_same|].
    destruct (lookup orderId s) as [order|] eqn:Hfound; [|orders_same].
    destruct (status_eqb _ CANCELADO); [orders_same|].
    destruct (status_eqb _ ENTREGADO); [orders_same|].
    destruct (truthy _); [orders_same|].
    destruct (negb _); [orders_same|].
    cbn [isValidStatusTransition VALID_STATUS_TRANSITIONS includes existsb status_eqb
         OrderStatus_beq orb negb].
    right; right.
    exists orderId, (inStatus orderId RECIBIDO), (set_status PREPARACION), order.
    repeat apply conj; try reflexivity; try exact Hfound; try (simpl; lia).
    + intros x Hx. exact (Hand _ _ Hx).
    + intros _ H. cbn in H. discriminate H.
  - unfold KitchenService.markReady. rewrite advance_runs.
    destruct (negb _); [orders_same|].
    destruct (lookup orderId s) as [order|] eqn:Hfound; [|orders_same].
    destruct (status_eqb _ CANCELADO); [orders_same|].
    destruct (status_eqb _ ENTREGADO); [orders_same|].
    destruct (truthy _); [orders_same|].
    destruct (negb _); [orders_same|].
    cbn [isValidStatusTransition VALID_STATUS_TRANSITIONS includes existsb status_eqb
         OrderStatus_beq orb negb].
    right; right.
    exists orderId, (inStatus orderId PREPARACION), (set_status LISTO), order.
    repeat apply conj; try reflexivity; try exact Hfound; try (simpl; lia).
    + intros x Hx. exact (Hand _ _ Hx).
    + intros _ H. cbn in H. discriminate H.
  - rewrite waiter_createOrder_runs.
    repeat match goal with
           | |- context [if ?b then _ else _] => destruct b
           end; try orders_same.
    right; left. eexists. repeat split; simpl; lia.
  - rewrite waiter_addItems_runs.
    repeat match goal with
           | |- context [match ?b with _ => _ end] => destruct b
           end; orders_same.
  - rewrite deliverOrder_runs.
    destruct (negb _); [orders_same|].
    destruct (lookup orderId s) as [order|] eqn:Hfound; [|orders_same].
    destruct (negb _); [orders_same|].
    right; right.
    exists orderId, (inStatus orderId LISTO), (set_status ENTREGADO), order.
    repeat apply conj; try reflexivity; try exact Hfound; try (simpl; lia).
    + intros x Hx. exact (Hand _ _ Hx).
    + intros _ H. cbn in H. discriminate H.
  - rewrite waiter_requestBill_runs.
    destruct (negb _); [orders_same|].
    destruct (lookup orderId s) as [order|] eqn:Hfound; [|orders_same].
    destruct (truthy _); [orders_same|].
    right; right.
    exists orderId, (Prisma.order_has_id orderId), (set_requestedBill true), order.
    repeat apply conj; try reflexivity; try tauto; try (simpl; lia).
  - rewrite openSession_runs.
    repeat match goal with
           | |- context [if ?b then _ else _] => destruct b
           end; orders_same.
  - rewrite closeSession_runs.
    repeat match goal with
           | |- context [match ?b with _ => _ end] => destruct b
           end; orders_same.
Qed.

Lemma ids_updateWhere (p : Order -> bool) (f : Order -> Order) (l : list Order) :
  (forall x, order_id (f x) = order_id x) ->
  map order_id (updateWhere p f l) = map order_id l.
Proof.
  intro Hid. unfold updateWhere. rewrite map_map. apply map_ext.
  intro x. destruct (p x); [apply Hid | reflexivity].
Qed.

Lemma consistent_kept (c : Command) (s : Store) :
  consistent s -> consistent (fst (execute c s)).
Proof.
  intros (Hunique & Hfresh & Hok). unfold consistent, uniqueOrderIds in *.
  destruct (execute_orders_rows c s)
    as [[E Hnext] | [(o & E & Hid & Hst & Hnext)
                    | (t & p & f & order & Hfound & E & Hp & Hid & Hf & Hnext)]];
    rewrite E.
  - repeat split; [exact Hunique | | exact Hok].
    intros o Hin. specialize (Hfresh o Hin). lia.
  - repeat split.
    + rewrite map_app. apply NoDup_app; [exact Hunique | repeat constructor; intros [] |].
      intros a Hin [Ha | []]. apply in_map_iff in Hin. destruct Hin as (x & Hx & Hin).
      specialize (Hfresh x Hin). cbn [map] in Ha. lia.
    + intros x Hin. apply in_app_or in Hin. destruct Hin as [Hin | [<- | []]].
      * specialize (Hfresh x Hin). lia.
      * lia.
    + intros x Hin. apply in_app_or in Hin. destruct Hin as [Hin | [<- | []]].
      * apply Hok. exact Hin.
      * intro H. rewrite Hst in H. discriminate H.
  - repeat split.
    + rewrite ids_updateWhere by exact Hid. exact Hunique.
    + intros x Hin. unfold updateWhere in Hin. apply in_map_iff in Hin.
      destruct Hin as (y & <- & Hin). specialize (Hfresh y Hin).
      destruct (p y); [rewrite Hid|]; lia.
    + intros x Hin. unfold updateWhere in Hin. apply in_map_iff in Hin.
      destruct Hin as (y & <- & Hin).
      destruct (p y) eqn:Hpy; [|apply Hok; exact Hin].
      rewrite (unique_id_row t (orders s) order y Hunique Hfound Hin (Hp y Hpy)).
      apply Hf. apply Hok. apply find_some in Hfound. tauto.
Qed.

(** X22.  Through any sequence of requests no order is both cancelled and paid:
    [cancelOrder] and [changeStatus] refuse to cancel a paid order and
    [createPayment] refuses a cancelled one; the identifiers of the orders
    stay unique. *)
Theorem cancelled_orders_are_never_paid (cs : list Command) (s : Store) :
  consistent s -> consistent (executeAll cs s).
Proof.
  revert s. induction cs as [|c cs IH]; intros s Hs; [exact Hs|].
  cbn [executeAll fold_left]. apply IH. apply consistent_kept. exact Hs.
Qed.

(** The sample order is cancelled and the cashier then tries to charge
    it. *)
Lemma cancelled_orders_are_never_paid_witness :
  consistent
    (executeAll [ OrderCancel 1%nat Sample.cashier "cliente se fue" CAJA;
                  PaymentCreate Sample.cashier
                    (mkCreatePaymentData 1%nat EFECTIVO 25 None None) CAJA 200%Z ]
                Sample.db).
Proof.
  apply cancelled_orders_are_never_paid.
  unfold consistent, uniqueOrderIds. simpl. repeat split.
  - repeat constructor. intros [].
  - intros o [<- | []]. simpl. lia.
  - intros o [<- | []]. intro H. reflexivity.
Defined.

(* --------------------------------------------------------------------- *)
(** ** The total shown and the total charged                              *)
(* --------------------------------------------------------------------- *)

Lemma getTotal_runs (s : Store) (orderId : Id) (role : RoleType) :
  OrderController.getTotal orderId role s =
  if role_eqb role COCINA then (s, Err NoPermissionToViewTotals)
  else match lookup orderId s with
       | None => (s, Err OrderNotFound)
       | Some _ =>
           (s, Ok (mkOrderTotal (orderTotal orderId s) (orderTotal orderId s)
                     (List.length (itemsOf orderId s))))
       end.
Proof.
  unfold OrderController.getTotal. destruct (role_eqb role COCINA); [reflexivity|].
  unfold OrderService.calculateTotal. rewrite bind_findUnique.
  destruct (lookup orderId s); reflexivity.
Qed.

(** X23.  The total of GET /orders/:id/total is the total [createPayment]
    charges against: with a cash session open, on an order that is neither
    paid nor cancelled, a payment that brings the paid total, as the
    doubles compute it, to exactly that total is accepted, sets [paidAt],
    and is reported with nothing remaining and [isPaid] true.  (A payment
    of that total less what is paid need not do so, see
    [createPayment_refuses_the_exact_balance].) *)
Theorem paying_up_to_the_shown_total_closes_the_order
    (s : Store) (userId : Id) (data : CreatePaymentData) (now : Date)
    (order : Order) (session : CashSession) (role : RoleType) (t : OrderTotal) :
  anyActiveSession s = Some session ->
  lookup (pay_orderId data) s = Some order ->
  order_status order <> CANCELADO ->
  order_paidAt order = None ->
  OrderController.getTotal (pay_orderId data) role s = (s, Ok t) ->
  (pay_amount data <=? 0) = false ->
  isFinite (total_total t) = true ->
  paidTotal (pay_orderId data) s + pay_amount data = total_total t ->
  total_subtotal t = total_total t
  /\ total_itemsCount t = List.length (itemsOf (pay_orderId data) s)
  /\ exists s1 r,
       PaymentService.createPayment userId data CAJA now s = (s1, Ok r)
       /\ option_map order_paidAt (lookup (pay_orderId data) s1) = Some (Some now)
       /\ result_total r = total_total t
       /\ result_remaining r = 0
       /\ result_isPaid r = true.
Proof.
  intros Hsession Hfound Hst Hunpaid Htotal Hamt Hfinite Hsum.
  rewrite getTotal_runs, Hfound in Htotal.
  destruct (role_eqb role COCINA); [discriminate|].
  injection Htotal as <-. cbn [total_subtotal total_total total_itemsCount] in *.
  split; [reflexivity|]. split; [reflexivity|].
  assert (Hnot : status_eqb (order_status order) CANCELADO = false).
  { destruct (status_eqb (order_status order) CANCELADO) eqn:E; [|reflexivity].
    apply status_eqb_eq in E. contradiction. }
  do 2 eexists. rewrite createPayment_runs. cbv zeta.
  unfold withinTolerance.
  rewrite Hsession, Hfound, Hnot, Hunpaid, Hamt, Hsum.
  rewrite ltb_irrefl, (sub_diag _ Hfinite), (leb_refl _ Hfinite).
  cbn [PaymentService.hasPermission ROLE_PERMISSIONS includes existsb permission_eqb
       Permission_beq orb negb role_eqb RoleType_beq truthy].
  change (abs 0 <? PaymentService.tolerance) with true. cbv iota.
  split; [reflexivity|].
  cbn [result_total result_remaining result_isPaid].
  repeat apply conj; try reflexivity.
  unfold markedPaid.
  change (option_map order_paidAt
            (lookup (pay_orderId data)
               (set_orders (updateWhere (Prisma.order_has_id (pay_orderId data))
                                        (set_paidAt (Some now)))
                           (paymentRecorded userId data session now s)))
          = Some (Some now)).
  rewrite (lookup_updated _ _ (set_paidAt (Some now)) order); [reflexivity | reflexivity |].
  exact Hfound.
Qed.

(** The 25.00 of the sample order, nothing paid so far. *)
Lemma paying_up_to_the_shown_total_closes_the_order_witness :
  exists s1 r,
    PaymentService.createPayment Sample.cashier
      (mkCreatePaymentData 1%nat EFECTIVO 25 None None) CAJA 200%Z Sample.db
    = (s1, Ok r)
    /\ option_map order_paidAt (lookup 1%nat s1) = Some (Some 200%Z).
Proof.
  destruct (paying_up_to_the_shown_total_closes_the_order Sample.db Sample.cashier
              (mkCreatePaymentData 1%nat EFECTIVO 25 None None) 200%Z
              Sample.order1 Sample.drawer MESERO
              (mkOrderTotal 25 25 2%nat))
    as (_ & _ & s1 & r & Hrun & Hpaid & _).
  - vm_compute. reflexivity.
  - vm_compute. reflexivity.
  - discriminate.
  - reflexivity.
  - vm_compute. reflexivity.
  - vm_compute. reflexivity.
  - vm_compute. reflexivity.
  - vm_compute. reflexivity.
  - exists s1, r. split; [exact Hrun | exact Hpaid].
Defined.

(* --------------------------------------------------------------------- *)
(** ** Instances on the sample database                                   *)
(* --------------------------------------------------------------------- *)

(** ORDER_CREATE is held by the waiter, hence not by the kitchen. *)
Lemma cashier_holds_every_permission_witness :
  OrderService.hasPermission MESERO ORDER_CREATE = true
  /\ OrderService.hasPermission COCINA ORDER_CREATE = false.
Proof.
  split; [reflexivity|].
  apply (proj1 (proj2 (cashier_holds_every_permission CAJA ORDER_CREATE))).
  reflexivity.
Defined.

(** The sample order, just received, heads the kitchen queue. *)
Lemma kitchen_queue_is_the_open_orders_oldest_first_witness :
  exists k rest,
    KitchenService.getKitchenQueue COCINA Sample.db = (Sample.db, Ok (k :: rest))
    /\ (kitchen_status k = RECIBIDO \/ kitchen_status k = PREPARACION).
Proof.
  destruct (kitchen_queue_is_the_open_orders_oldest_first Sample.db)
    as (queue & Hrun & _ & _ & Hstatus & _).
  destruct queue as [|k rest]; [vm_compute in Hrun; discriminate Hrun|].
  exists k, rest. split; [exact Hrun | apply Hstatus; left; reflexivity].
Defined.

(** The cashier lists every order of the sample database. *)
Lemma listOrders_is_the_matching_orders_newest_first_witness :
  exists v rest,
    OrderService.listOrders (mkOrderFilters None None None None) CAJA Sample.db
    = (Sample.db, Ok (v :: rest))
    /\ view_items v = map showItem (itemsOf (order_id (view_order v)) Sample.db).
Proof.
  destruct (listOrders_is_the_matching_orders_newest_first Sample.db
              (mkOrderFilters None None None None) CAJA)
    as (views & Hrun & _ & _ & _ & Hitems).
  destruct views as [|v rest]; [vm_compute in Hrun; discriminate Hrun|].
  exists v, rest. split; [exact Hrun|].
  apply Hitems; [discriminate | left; reflexivity].
Defined.

(** The waiter asks for the RECIBIDO orders with [readyOnly] set, while
    the sample order is LISTO. *)
Lemma waiter_readyOnly_overrides_status_witness :
  exists w rest,
    WaiterService.listOrders (mkWaiterFilters (Some RECIBIDO) None true) MESERO
      (Sample.dbIn LISTO)
    = (Sample.dbIn LISTO, Ok (w :: rest))
    /\ order_status (waiter_order w) = LISTO.
Proof.
  destruct (waiter_readyOnly_overrides_status (Sample.dbIn LISTO) (Some RECIBIDO) None)
    as (listing & Hrun & _ & Hready & _).
  destruct listing as [|w rest]; [vm_compute in Hrun; discriminate Hrun|].
  exists w, rest. split; [exact Hrun | apply Hready; left; reflexivity].
Defined.
